(** * pkg-index: the vanity import page generator (cmd/generator/main.go)

    A shallow embedding of the generator and the properties of its
    discovery-and-resolution pipeline.

    Go strings are byte sequences and are modelled by [string] (a list of
    8-bit characters).  The functions of the Go standard library that the
    program calls ([strings], [path/filepath], [os]) are modelled after
    their documented behaviour on a Unix system; the escaping functions of
    [html/template] and the GitHub client are interfaces.

    The source file holds the generator twice; the second text differs
    from the first by lines of progress sent to the log only.  The model
    follows the first. *)

From Stdlib Require Import Ascii NArith Lia.
From stdpp Require Import base option list strings pretty gmap.

Local Open Scope N_scope.

(** ** Bytes and string helpers *)

Definition byte (n : N) : ascii := ascii_of_N n.

Definition bytes (l : list N) : string :=
  String.string_of_list_ascii (map byte l).

(** The double quote and the line feed, which a string literal of this
    file does not hold. *)
Definition dq : string := bytes [34].
Definition nl : string := bytes [10].

Fixpoint drop_bytes (n : nat) (s : string) : string :=
  match n, s with
  | S n', String _ s' => drop_bytes n' s'
  | _, _ => s
  end.

Fixpoint take_bytes (n : nat) (s : string) : string :=
  match n, s with
  | S n', String c s' => String c (take_bytes n' s')
  | _, _ => EmptyString
  end.

(** ** Package [strings] *)

(** [strings.HasPrefix(s, prefix)]. *)
Fixpoint HasPrefix (s prefix : string) {struct prefix} : bool :=
  match prefix, s with
  | EmptyString, _ => true
  | String a prefix', String b s' => Ascii.eqb a b && HasPrefix s' prefix'
  | String _ _, EmptyString => false
  end.

(** [strings.TrimPrefix(s, prefix)]: [s] without the leading [prefix], or
    [s] itself when it does not start with [prefix]. *)
Definition TrimPrefix (s prefix : string) : string :=
  if HasPrefix s prefix then drop_bytes (String.length prefix) s else s.

(** [strings.HasSuffix(s, suffix)]. *)
Definition HasSuffix (s suffix : string) : bool :=
  HasPrefix (String.rev s) (String.rev suffix).

(** [strings.Split(s, sep)] for a separator of one byte, the only use the
    program makes of it.  The result is never empty: a text without
    separator is its own single field. *)
Fixpoint Split (s : string) (sep : ascii) : list string :=
  match s with
  | EmptyString => [EmptyString]
  | String c s' =>
      if Ascii.eqb c sep then EmptyString :: Split s' sep
      else match Split s' sep with
           | field :: fields => String c field :: fields
           | [] => [String c EmptyString]
           end
  end.

(** [strings.Join(elems, sep)]. *)
Fixpoint JoinStrings (elems : list string) (sep : string) : string :=
  match elems with
  | [] => EmptyString
  | [e] => e
  | e :: rest => e +:+ sep +:+ JoinStrings rest sep
  end.

(** The UTF-8 encodings of the code points for which [unicode.IsSpace]
    holds: the six ASCII ones, U+0085, U+00A0, U+1680, U+2000..U+200A,
    U+2028, U+2029, U+202F, U+205F and U+3000. *)
Definition spaceRunes : list string :=
  map bytes
    [ [9]; [10]; [11]; [12]; [13]; [32];
      [194; 133]; [194; 160];
      [225; 154; 128];
      [226; 128; 128]; [226; 128; 129]; [226; 128; 130]; [226; 128; 131];
      [226; 128; 132]; [226; 128; 133]; [226; 128; 134]; [226; 128; 135];
      [226; 128; 136]; [226; 128; 137]; [226; 128; 138];
      [226; 128; 168]; [226; 128; 169]; [226; 128; 175];
      [226; 129; 159];
      [227; 128; 128] ].

(** Width in bytes of the space rune [s] starts with, [0] when [s] does
    not start with one. *)
Definition leadingSpace (runes : list string) (s : string) : nat :=
  match List.find (HasPrefix s) runes with
  | Some r => String.length r
  | None => 0%nat
  end.

(** The loop of [strings.TrimLeftFunc(s, unicode.IsSpace)]; every round
    drops at least one byte, so [String.length s] rounds are enough. *)
Fixpoint trimLeftLoop (runes : list string) (rounds : nat) (s : string) : string :=
  match rounds with
  | O => s
  | S rounds' =>
      match leadingSpace runes s with
      | O => s
      | width => trimLeftLoop runes rounds' (drop_bytes width s)
      end
  end.

Definition TrimLeftSpace (s : string) : string :=
  trimLeftLoop spaceRunes (String.length s) s.

(** [strings.TrimRightFunc(s, unicode.IsSpace)]: the same loop run from
    the end of the text, on the reversed encodings. *)
Definition TrimRightSpace (s : string) : string :=
  String.rev
    (trimLeftLoop (map String.rev spaceRunes) (String.length s) (String.rev s)).

(** [strings.TrimSpace(s)]: [s] without leading and trailing white space
    as defined by Unicode. *)
Definition TrimSpace (s : string) : string :=
  TrimRightSpace (TrimLeftSpace s).

(** ** The manifest parser *)

Definition isModuleLine (line : string) : bool :=
  HasPrefix (TrimSpace line) "module ".

(** The [for _, line := range lines] loop of [parseModuleName]. *)
Fixpoint parseModuleLines (lines : list string) : string :=
  match lines with
  | [] => EmptyString
  | line :: rest =>
      if HasPrefix (TrimSpace line) "module "
      then TrimSpace (TrimPrefix (TrimSpace line) "module ")
      else parseModuleLines rest
  end.

Definition parseModuleName (content : string) : string :=
  let lines := Split content (byte 10) in
  parseModuleLines lines.

(** ** Package [path/filepath] (Unix: the separator is the slash) *)

Definition slash : ascii := byte 47.

(** One element of the path read by [filepath.Clean], against the elements
    written so far ([out], innermost first).  An empty element and [.] are
    dropped; [..] removes the element before it, or is kept when there is
    nothing left to remove in a path that is not rooted. *)
Definition cleanStep (rooted : bool) (out : list string) (elem : string) : list string :=
  if bool_decide (elem = "") || bool_decide (elem = ".") then out
  else if bool_decide (elem = "..") then
    match out with
    | last :: out' => if bool_decide (last = "..") then elem :: out else out'
    | [] => if rooted then out else [elem]
    end
  else elem :: out.

(** [filepath.Clean(path)]. *)
Definition Clean (path : string) : string :=
  let rooted := HasPrefix path "/" in
  let out := foldl (cleanStep rooted) [] (Split path slash) in
  let body := JoinStrings (rev out) "/" in
  if rooted then "/" +:+ body
  else if bool_decide (body = "") then "." else body.

(** [path[:i+1]] for the index [i] of the last slash of [path]: empty when
    [path] has no slash. *)
Fixpoint uptoLastSlash (path : string) : string :=
  match path with
  | EmptyString => EmptyString
  | String c rest =>
      match uptoLastSlash rest with
      | EmptyString => if Ascii.eqb c slash then String c EmptyString else EmptyString
      | kept => String c kept
      end
  end.

(** [filepath.Dir(path)]: all but the last element of [path], cleaned. *)
Definition Dir (path : string) : string :=
  Clean (uptoLastSlash path).

(** [filepath.Join(elem...)]: the elements from the first non-empty one
    on, joined by slashes and cleaned; empty when all are empty. *)
Fixpoint Join (elem : list string) : string :=
  match elem with
  | [] => EmptyString
  | e :: rest =>
      if bool_decide (e = "") then Join rest
      else Clean (JoinStrings elem "/")
  end.

(** ** Data model *)

(** A Go [error] is modelled by its message. *)
Abbreviation error := string (only parsing).

(** A Go result pair [(value, err)]. *)
Inductive result (A : Type) : Type :=
  | Ok (a : A)
  | Err (e : error).
Arguments Ok {A} a.
Arguments Err {A} e.

(** How a part of [main] ends: it returns, or the Go runtime panics (a
    nil pointer is dereferenced) and the process ends there, with exit
    status 2 and the report of the panic on the standard error. *)
Inductive outcome (A : Type) : Type :=
  | Returned (a : A)
  | Panicked.
Arguments Returned {A} a.
Arguments Panicked {A}.

Record PackageInfo := mkPackageInfo {
  ImportPath : string;
  RepoURL : string;
  Description : string
}.

Global Instance PackageInfo_eq_dec : EqDecision PackageInfo.
Proof. solve_decision. Defined.

(** [github.Repository]: the fields the program reads.  Every field is a
    pointer; its getter gives the empty string for a nil pointer. *)
Record Repository := mkRepository {
  Name : option string;
  Language : option string;
  HTMLURL : option string;
  RepoDescription : option string
}.

Definition GetName (repo : Repository) : string := default "" (Name repo).
Definition GetLanguage (repo : Repository) : string := default "" (Language repo).
Definition GetHTMLURL (repo : Repository) : string := default "" (HTMLURL repo).
Definition GetDescription (repo : Repository) : string := default "" (RepoDescription repo).

(** [github.RepositoryContent]: an entry of a directory listing, or a file
    object.  [Content] stands for what [GetContent()] answers: the decoded
    text of the file, or the error of the decoding. *)
Record RepositoryContent := mkRepositoryContent {
  ContentType : option string;
  ContentName : option string;
  ContentPath : option string;
  Content : result string
}.

Definition GetType (c : RepositoryContent) : string := default "" (ContentType c).
Definition GetContentName (c : RepositoryContent) : string := default "" (ContentName c).
Definition GetPath (c : RepositoryContent) : string := default "" (ContentPath c).
Definition GetContent (c : RepositoryContent) : result string := Content c.

(** [client.Repositories]: the two calls of the GitHub client the program
    makes.  [GetContents owner repo path] answers, as in Go, a pointer to a
    file object and a directory listing: for a path that is a file the
    listing is empty, and for a path that is a directory the file object
    is nil ([None]) and the error is nil all the same. *)
Record RepositoriesService := mkRepositoriesService {
  ListByOrg : string -> result (list Repository);
  GetContents :
    string -> string -> string -> result (option RepositoryContent * list RepositoryContent)
}.

(** The process environment: its variables and the GitHub client built
    from the token. *)
Record Env := mkEnv {
  Getenv : string -> string;
  Repositories : RepositoriesService
}.

Definition orgName : string := "blksails".
Definition baseDomain : string := "pkg.blksails.net".
Definition basePackage : string := "pkg.blksails.net".

(** ** The file system and the log *)

Inductive node :=
  | Directory
  | File (content : string).

(** The world a run acts on: the file tree, keyed by path, and the faults
    the operating system will answer the coming file operations with
    ([None]: the operation goes through; [Some n]: it fails, a write after
    [n] bytes; an exhausted list means no more faults).  The tree takes
    any byte string as a path: what the operating system refuses for a
    reason the tree does not show (a name with a NUL byte, an element of
    more than 255 bytes, a full disk, a missing permission) is a fault of
    the list, not a rule of the tree. *)
Record World := mkWorld {
  fs : gmap string node;
  faults : list (option nat)
}.

(** What a computation leaves: its value, the world after it and the lines
    it sent to the log. *)
Record Run (A : Type) := mkRun {
  value : A;
  world : World;
  logged : list string
}.
Arguments mkRun {A} value world logged.
Arguments value {A} r.
Arguments world {A} r.
Arguments logged {A} r.

Definition M (A : Type) : Type := World -> Run A.

Global Instance M_ret : MRet M := fun A a w => mkRun a w [].

Global Instance M_bind : MBind M := fun A B k m w =>
  let r1 := m w in
  let r2 := k (value r1) (world r1) in
  mkRun (value r2) (world r2) (logged r1 ++ logged r2).

(** [log.Printf]. *)
Definition logPrintf (line : string) : M unit :=
  fun w => mkRun () w [line].

Definition getTree : M (gmap string node) :=
  fun w => mkRun (fs w) w [].

Definition putTree (tree : gmap string node) : M unit :=
  fun w => mkRun () (mkWorld tree (faults w)) [].

(** The answer of the operating system to the next file operation. *)
Definition nextFault : M (option nat) :=
  fun w =>
    match faults w with
    | [] => mkRun None w []
    | f :: rest => mkRun f (mkWorld (fs w) rest) []
    end.

(** ** Package [os] *)

(** The directories [os.MkdirAll(path)] needs: each leading part of [path]
    that ends before a slash, and [path] itself. *)
Fixpoint leadingDirs (done : string) (elems : list string) : list string :=
  match elems with
  | [] => []
  | e :: rest =>
      (if bool_decide (e = "") then [] else [done +:+ e])
      ++ leadingDirs (done +:+ e +:+ "/") rest
  end.

(** The walk of [os.MkdirAll] down the directories: a missing one is
    made, a regular file in the way ends the walk with an error. *)
Fixpoint mkdirs (dirs : list string) (tree : gmap string node) : result (gmap string node) :=
  match dirs with
  | [] => Ok tree
  | d :: rest =>
      match tree !! d with
      | Some (File _) => Err ("mkdir " +:+ d +:+ ": not a directory")
      | _ => mkdirs rest (<[d := Directory]> tree)
      end
  end.

(** [os.MkdirAll(path, perm)]. *)
Definition MkdirAll (path : string) : M (option error) :=
  fault ← nextFault;
  match fault with
  | Some _ => mret (Some ("mkdir " +:+ path +:+ ": input/output error"))
  | None =>
      tree ← getTree;
      match mkdirs (leadingDirs "" (Split path slash)) tree with
      | Err e => mret (Some e)
      | Ok tree' => putTree tree' ;; mret None
      end
  end.

(** Whether [path] is a directory: the working directory and the root
    always are. *)
Definition isDirectory (tree : gmap string node) (path : string) : bool :=
  bool_decide (path = ".") || bool_decide (path = "/")
  || match tree !! path with Some Directory => true | _ => false end.

(** [os.Create(name)]: the file is created, or truncated when it exists;
    the directory it lies in must exist.  The handle of the open file is
    its name. *)
Definition Create (name : string) : M (result string) :=
  fault ← nextFault;
  match fault with
  | Some _ => mret (Err ("open " +:+ name +:+ ": input/output error"))
  | None =>
      tree ← getTree;
      if negb (isDirectory tree (Dir name))
      then mret (Err ("open " +:+ name +:+ ": "
                      +:+ match tree !! Dir name with
                          | Some (File _) => "not a directory"
                          | _ => "no such file or directory"
                          end))
      else match tree !! name with
           | Some Directory => mret (Err ("open " +:+ name +:+ ": is a directory"))
           | _ => putTree (<[name := File ""]> tree) ;; mret (Ok name)
           end
  end.

Definition fileContent (tree : gmap string node) (name : string) : string :=
  match tree !! name with
  | Some (File content) => content
  | _ => ""
  end.

(** Writing [data] to the open file [f]: the bytes are appended, all of
    them unless the write fails. *)
Definition Write (f : string) (data : string) : M (option error) :=
  fault ← nextFault;
  tree ← getTree;
  match fault with
  | Some n =>
      putTree (<[f := File (fileContent tree f +:+ take_bytes n data)]> tree) ;;
      mret (Some ("write " +:+ f +:+ ": input/output error"))
  | None =>
      putTree (<[f := File (fileContent tree f +:+ data)]> tree) ;;
      mret None
  end.

(** ** Package [html/template] *)

(** The escaping functions the template engine inserts at the actions of a
    template, by the context of each action: [htmlescaper] in text,
    [attrescaper] in a quoted attribute value, and the URL filter and
    normalizer before it in the value of [href]. *)
Class Escapers := mkEscapers {
  htmlescaper : string -> string;
  attrescaper : string -> string;
  urlfilter : string -> string;
  urlnormalizer : string -> string
}.

Section Generator.

Context `{Escapers}.

Definition hrefescaper (s : string) : string :=
  attrescaper (urlnormalizer (urlfilter s)).

(** The document the template of [generateHTML] executes to. *)
Definition renderImportPage (pkg : PackageInfo) : string :=
  JoinStrings
    [ "<!DOCTYPE html>";
      "<html>";
      "<head>";
      "    <meta charset=" +:+ dq +:+ "utf-8" +:+ dq +:+ ">";
      "    <meta name=" +:+ dq +:+ "go-import" +:+ dq +:+ " content=" +:+ dq
        +:+ attrescaper (ImportPath pkg) +:+ " git " +:+ attrescaper (RepoURL pkg)
        +:+ dq +:+ ">";
      "    <meta name=" +:+ dq +:+ "go-source" +:+ dq +:+ " content=" +:+ dq
        +:+ attrescaper (ImportPath pkg) +:+ " " +:+ attrescaper (RepoURL pkg)
        +:+ " " +:+ attrescaper (RepoURL pkg) +:+ "/tree/master{/dir} "
        +:+ attrescaper (RepoURL pkg) +:+ "/blob/master{/dir}/{file}#L{line}"
        +:+ dq +:+ ">";
      "    <meta http-equiv=" +:+ dq +:+ "refresh" +:+ dq +:+ " content=" +:+ dq
        +:+ "0; url=" +:+ attrescaper (RepoURL pkg) +:+ dq +:+ ">";
      "</head>";
      "<body>";
      "    Redirecting to <a href=" +:+ dq +:+ hrefescaper (RepoURL pkg) +:+ dq +:+ ">"
        +:+ htmlescaper (RepoURL pkg) +:+ "</a>...";
      "</body>";
      "</html>" ]
    nl.

(** The text of the index template before [{{range .}}]. *)
Definition indexHead : string :=
  JoinStrings
    [ "<!DOCTYPE html>";
      "<html>";
      "<head>";
      "    <meta charset=" +:+ dq +:+ "utf-8" +:+ dq +:+ ">";
      "    <title>pkg.blksails.net</title>";
      "    <style>";
      "        body {";
      "            font-family: -apple-system, BlinkMacSystemFont, 'Segoe UI', Roboto, Oxygen, Ubuntu, Cantarell, 'Open Sans', 'Helvetica Neue', sans-serif;";
      "            max-width: 800px;";
      "            margin: 0 auto;";
      "            padding: 2rem;";
      "            line-height: 1.6;";
      "        }";
      "        .package-list {";
      "            margin-top: 2rem;";
      "        }";
      "        .package-item {";
      "            margin-bottom: 1.5rem;";
      "            padding: 1rem;";
      "            border: 1px solid #eee;";
      "            border-radius: 4px;";
      "        }";
      "        .package-item h3 {";
      "            margin: 0 0 0.5rem 0;";
      "        }";
      "        .package-item p {";
      "            margin: 0.5rem 0;";
      "            color: #666;";
      "        }";
      "        code {";
      "            background: #f5f5f5;";
      "            padding: 0.2rem 0.4rem;";
      "            border-radius: 3px;";
      "            font-size: 0.9em;";
      "        }";
      "    </style>";
      "</head>";
      "<body>";
      "    <h1>pkg.blksails.net</h1>";
      "    <p>This is the package index for blksails Go packages.</p>";
      "    <p>To use these packages in your Go project, simply import them using the <code>pkg.blksails.net/...</code>";
      "        import path.</p>";
      "    ";
      "    <div class=" +:+ dq +:+ "package-list" +:+ dq +:+ ">";
      "        <h2>Available Packages</h2>";
      "        " ]
    nl.

(** The output of [{{if .Description}} ... {{end}}] for one package:
    nothing at all when the description is empty. *)
Definition indexDescription (pkg : PackageInfo) : string :=
  if bool_decide (Description pkg = "") then ""
  else JoinStrings
         [ "";
           "            <p>" +:+ htmlescaper (Description pkg) +:+ "</p>";
           "            " ]
         nl.

(** The output of the body of [{{range .}}] for one package. *)
Definition indexItem (pkg : PackageInfo) : string :=
  JoinStrings
    [ "";
      "        <div class=" +:+ dq +:+ "package-item" +:+ dq +:+ ">";
      "            <h3><a href=" +:+ dq +:+ hrefescaper (RepoURL pkg) +:+ dq +:+ ">"
        +:+ htmlescaper (ImportPath pkg) +:+ "</a></h3>";
      "            " +:+ indexDescription pkg;
      "            <p><code>go get " +:+ htmlescaper (ImportPath pkg) +:+ "</code></p>";
      "        </div>";
      "        " ]
    nl.

(** The text of the index template after the [{{end}}] of the range. *)
Definition indexTail : string :=
  JoinStrings [ ""; "    </div>"; "</body>"; "</html>" ] nl.

Fixpoint concatStrings (l : list string) : string :=
  match l with
  | [] => ""
  | s :: rest => s +:+ concatStrings rest
  end.

(** The document the template of [generateIndexHTML] executes to. *)
Definition renderIndexPage (packages : list PackageInfo) : string :=
  indexHead +:+ concatStrings (map indexItem packages) +:+ indexTail.

(** ** The generator *)

(** [generateHTML(pkg)]: the import page of [pkg], written to
    [public/<path below the base domain>/index.html]. *)
Definition generateHTML (pkg : PackageInfo) : M (option error) :=
  let relPath := TrimPrefix (ImportPath pkg) (baseDomain +:+ "/") in
  let dirPath := Join ["public"; relPath] in
  err ← MkdirAll dirPath;
  match err with
  | Some err => mret (Some ("failed to create directory: " +:+ err))
  | None =>
      f ← Create (Join [dirPath; "index.html"]);
      match f with
      | Err err => mret (Some ("failed to create file: " +:+ err))
      | Ok f =>
          err ← Write f (renderImportPage pkg);
          match err with
          | Some err => mret (Some ("failed to execute template: " +:+ err))
          | None => mret None
          end
      end
  end.

(** [generateIndexHTML(packages)]: the index page, written to
    [public/index.html]. *)
Definition generateIndexHTML (packages : list PackageInfo) : M (option error) :=
  f ← Create "public/index.html";
  match f with
  | Err err => mret (Some ("failed to create index file: " +:+ err))
  | Ok f =>
      err ← Write f (renderIndexPage packages);
      match err with
      | Some err => mret (Some ("failed to execute template: " +:+ err))
      | None => mret None
      end
  end.

(** The loop of [main] over the entries of the directory listing: an
    import page for the directory of every Go file that is not at the
    root. *)
Fixpoint subPackages (moduleName : string) (repo : Repository)
    (contents : list RepositoryContent) : M unit :=
  match contents with
  | [] => mret ()
  | content :: rest =>
      (if bool_decide (GetType content = "file") && HasSuffix (GetContentName content) ".go"
       then
         let dir := Dir (GetPath content) in
         if bool_decide (dir = ".") then mret ()
         else
           let subPkgInfo :=
             mkPackageInfo (Join [moduleName; dir]) (GetHTMLURL repo) (GetDescription repo) in
           err ← generateHTML subPkgInfo;
           match err with
           | Some err =>
               logPrintf ("Error generating HTML for " +:+ ImportPath subPkgInfo +:+ ": " +:+ err)
           | None => mret ()
           end
       else mret ()) ;;
      subPackages moduleName repo rest
  end.

(** The body of the loop of [main] over the repositories; [packages] is
    the package list before the repository, the value is the list after
    it.  [modContent.GetContent()] is called with no check of the pointer:
    on a nil file object it reads a field through the nil pointer, and the
    run panics. *)
Definition processRepo (client : RepositoriesService) (packages : list PackageInfo)
    (repo : Repository) : M (outcome (list PackageInfo)) :=
  if negb (bool_decide (GetLanguage repo = "Go")) then mret (Returned packages)
  else
    match GetContents client orgName (GetName repo) "" with
    | Err err =>
        logPrintf ("Error getting contents for " +:+ GetName repo +:+ ": " +:+ err) ;;
        mret (Returned packages)
    | Ok (_, contents) =>
        match GetContents client orgName (GetName repo) "go.mod" with
        | Err _ => mret (Returned packages)
        | Ok (None, _) => mret Panicked
        | Ok (Some modContent, _) =>
            match GetContent modContent with
            | Err _ => mret (Returned packages)
            | Ok fileContent =>
                let moduleName := parseModuleName fileContent in
                if negb (HasPrefix moduleName basePackage) then mret (Returned packages)
                else
                  let packages :=
                    packages ++ [mkPackageInfo moduleName (GetHTMLURL repo) (GetDescription repo)] in
                  let pkgInfo :=
                    mkPackageInfo moduleName (GetHTMLURL repo) (GetDescription repo) in
                  err ← generateHTML pkgInfo;
                  match err with
                  | Some err =>
                      logPrintf ("Error generating HTML for " +:+ moduleName +:+ ": " +:+ err)
                  | None => mret ()
                  end ;;
                  subPackages moduleName repo contents ;;
                  mret (Returned packages)
            end
        end
    end.

(** The loop of [main] over the repositories: a panic of the body ends
    it. *)
Fixpoint processRepos (client : RepositoriesService) (packages : list PackageInfo)
    (repos : list Repository) : M (outcome (list PackageInfo)) :=
  match repos with
  | [] => mret (Returned packages)
  | repo :: rest =>
      after ← processRepo client packages repo;
      match after with
      | Returned packages' => processRepos client packages' rest
      | Panicked => mret Panicked
      end
  end.

(** [log.Fatal]: the line is logged and the process exits with status 1. *)
Definition logFatal (line : string) : M nat :=
  logPrintf line ;; mret 1%nat.

(** [main]; the value is the exit status of the process: 0 when [main]
    returns, 1 after [log.Fatal], 2 after a panic. *)
Definition main (env : Env) : M nat :=
  let token := Getenv env "GITHUB_TOKEN" in
  if bool_decide (token = "") then logFatal "GITHUB_TOKEN environment variable is required"
  else
    let client := Repositories env in
    match ListByOrg client orgName with
    | Err err => logFatal ("Error listing repositories: " +:+ err)
    | Ok repos =>
        after ← processRepos client [] repos;
        match after with
        | Panicked => mret 2%nat
        | Returned packages =>
            err ← generateIndexHTML packages;
            match err with
            | Some err => logPrintf ("Error generating index HTML: " +:+ err)
            | None => mret ()
            end ;;
            mret 0%nat
        end
    end.

End Generator.

(** ** The escaping functions of [html/template] for plain text values *)

(** [htmlReplacementTable]: the replacement of one byte.  Every key of the
    table is an ASCII character, so the bytes of the other runes pass
    unchanged. *)
Definition htmlReplacement (c : ascii) : string :=
  match N_of_ascii c with
  | 0 => bytes [239; 191; 189]
  | 34 => "&#34;"
  | 38 => "&amp;"
  | 39 => "&#39;"
  | 43 => "&#43;"
  | 60 => "&lt;"
  | 62 => "&gt;"
  | _ => String c ""
  end.

Fixpoint htmlReplacer (s : string) : string :=
  match s with
  | EmptyString => ""
  | String c s' => htmlReplacement c +:+ htmlReplacer s'
  end.

(** Simple case folding on the letters that count for the three safe
    schemes: ASCII upper case, and the long s (U+017F) that folds to [s]. *)
Fixpoint foldScheme (s : string) : string :=
  match s with
  | EmptyString => ""
  | String c s' =>
      let n := N_of_ascii c in
      if (65 <=? n) && (n <=? 90) then String (byte (n + 32)) (foldScheme s')
      else match s' with
           | String d s'' =>
               if (n =? 197) && (N_of_ascii d =? 191) then String "s" (foldScheme s'')
               else String c (foldScheme s')
           | EmptyString => String c ""
           end
  end.

(** [strings.Cut(s, ":")]: the text before the first colon, if any. *)
Fixpoint beforeColon (s : string) : option string :=
  match s with
  | EmptyString => None
  | String c s' =>
      if N_of_ascii c =? 58 then Some ""
      else String c <$> beforeColon s'
  end.

Fixpoint containsByte (c : ascii) (s : string) : bool :=
  match s with
  | EmptyString => false
  | String d s' => Ascii.eqb c d || containsByte c s'
  end.

Definition isSafeURL (s : string) : bool :=
  match beforeColon s with
  | Some protocol =>
      if containsByte slash protocol then true
      else bool_decide (foldScheme protocol ∈ ["http"; "https"; "mailto"])
  | None => true
  end.

Definition goURLFilter (s : string) : string :=
  if isSafeURL s then s else "#ZgotmplZ".

Definition isHex (c : ascii) : bool :=
  let n := N_of_ascii c in
  ((48 <=? n) && (n <=? 57)) || ((97 <=? n) && (n <=? 102)) || ((65 <=? n) && (n <=? 70)).

Definition hexDigit (n : N) : ascii :=
  if n <? 10 then byte (48 + n) else byte (87 + n).

(** Whether the normalizer keeps the byte [c], followed by [rest], as it
    is: reserved and unreserved characters of RFC 3986 and valid percent
    escapes are kept. *)
Definition urlKeeps (c : ascii) (rest : string) : bool :=
  let n := N_of_ascii c in
  bool_decide (n ∈ [33; 35; 36; 38; 42; 43; 44; 47; 58; 59; 61; 63; 64; 91; 93])
  || bool_decide (n ∈ [45; 46; 95; 126])
  || ((97 <=? n) && (n <=? 122)) || ((65 <=? n) && (n <=? 90)) || ((48 <=? n) && (n <=? 57))
  || ((n =? 37) &&
      match rest with
      | String h1 (String h2 _) => isHex h1 && isHex h2
      | _ => false
      end).

Fixpoint goURLNormalizer (s : string) : string :=
  match s with
  | EmptyString => ""
  | String c s' =>
      if urlKeeps c s' then String c (goURLNormalizer s')
      else
        let n := N_of_ascii c in
        String "%" (String (hexDigit (n / 16)) (String (hexDigit (n mod 16)) (goURLNormalizer s')))
  end.

Definition goEscapers : Escapers :=
  {| htmlescaper := htmlReplacer;
     attrescaper := htmlReplacer;
     urlfilter := goURLFilter;
     urlnormalizer := goURLNormalizer |}.

(** ** Views of the run used to state its properties *)

Section Views.

Context `{Escapers}.

(** The path of the import page of a package, as [generateHTML] computes
    it. *)
Definition pagePath (pkg : PackageInfo) : string :=
  Join [Join ["public"; TrimPrefix (ImportPath pkg) (baseDomain +:+ "/")]; "index.html"].

(** The gates of the loop body of [main], without its effects: the module
    name and the directory listing of a repository that passes them all. *)
Definition resolve (client : RepositoriesService) (repo : Repository)
    : option (string * list RepositoryContent) :=
  if negb (bool_decide (GetLanguage repo = "Go")) then None
  else
    match GetContents client orgName (GetName repo) "" with
    | Err _ => None
    | Ok (_, contents) =>
        match GetContents client orgName (GetName repo) "go.mod" with
        | Err _ => None
        | Ok (None, _) => None
        | Ok (Some modContent, _) =>
            match GetContent modContent with
            | Err _ => None
            | Ok fileContent =>
                let moduleName := parseModuleName fileContent in
                if negb (HasPrefix moduleName basePackage) then None
                else Some (moduleName, contents)
            end
        end
    end.

(** Whether the loop body comes to call [GetContent] on a nil file
    object: the repository has the language [Go], its root directory is
    listed, and the request for [go.mod] succeeds without a file object,
    as it does when [go.mod] is a directory. *)
Definition nilManifest (client : RepositoriesService) (repo : Repository) : bool :=
  bool_decide (GetLanguage repo = "Go")
  && match GetContents client orgName (GetName repo) "" with
     | Err _ => false
     | Ok _ =>
         match GetContents client orgName (GetName repo) "go.mod" with
         | Ok (None, _) => true
         | _ => false
         end
     end.

Definition rootRecord (moduleName : string) (repo : Repository) : PackageInfo :=
  mkPackageInfo moduleName (GetHTMLURL repo) (GetDescription repo).

(** Whether the loop over the directory listing makes a package of an
    entry: a Go file that does not lie at the root. *)
Definition isSubPackageFile (content : RepositoryContent) : bool :=
  bool_decide (GetType content = "file") && HasSuffix (GetContentName content) ".go"
  && negb (bool_decide (Dir (GetPath content) = ".")).

Definition subRecord (moduleName : string) (repo : Repository)
    (content : RepositoryContent) : PackageInfo :=
  mkPackageInfo (Join [moduleName; Dir (GetPath content)])
    (GetHTMLURL repo) (GetDescription repo).

(** The records the loop over the directory listing passes to
    [generateHTML], in the order of the listing. *)
Fixpoint subRecords (moduleName : string) (repo : Repository)
    (contents : list RepositoryContent) : list PackageInfo :=
  match contents with
  | [] => []
  | content :: rest =>
      (if bool_decide (GetType content = "file") && HasSuffix (GetContentName content) ".go"
       then
         let dir := Dir (GetPath content) in
         if bool_decide (dir = ".") then []
         else [mkPackageInfo (Join [moduleName; dir]) (GetHTMLURL repo) (GetDescription repo)]
       else [])
      ++ subRecords moduleName repo rest
  end.

(** Path expansion: the records [main] passes to [generateHTML] for one
    repository, the root record first. *)
Definition expand (moduleName : string) (repo : Repository)
    (contents : list RepositoryContent) : list PackageInfo :=
  mkPackageInfo moduleName (GetHTMLURL repo) (GetDescription repo)
  :: subRecords moduleName repo contents.

(** One call of [generateHTML] as [main] makes it: an error is logged and
    the run goes on. *)
Definition emitPage (pkg : PackageInfo) : M unit :=
  err ← generateHTML pkg;
  match err with
  | Some err => logPrintf ("Error generating HTML for " +:+ ImportPath pkg +:+ ": " +:+ err)
  | None => mret ()
  end.

Fixpoint emitPages (pkgs : list PackageInfo) : M unit :=
  match pkgs with
  | [] => mret ()
  | pkg :: rest => emitPage pkg ;; emitPages rest
  end.

(** The loop body skips the repository: it fails a gate, and its manifest
    is not one without a file object. *)
Definition skipped (client : RepositoriesService) (repo : Repository) : Prop :=
  resolve client repo = None ∧ nilManifest client repo = false.

(** No repository of the listing makes the loop body panic. *)
Definition noNilManifest (client : RepositoriesService) (repos : list Repository) : Prop :=
  Forall (λ repo, nilManifest client repo = false) repos.

(** The record a repository adds to the package list, if any. *)
Definition registered (client : RepositoriesService) (repo : Repository) : option PackageInfo :=
  match resolve client repo with
  | Some (moduleName, _) => Some (rootRecord moduleName repo)
  | None => None
  end.

(** The package list at the end of the loop of [main]. *)
Definition registry (client : RepositoriesService) (repos : list Repository) : list PackageInfo :=
  omap (registered client) repos.

End Views.

(** A path element that names a file or a directory. *)
Definition isPlainElem (elem : string) : bool :=
  negb (bool_decide (elem = "")) && negb (bool_decide (elem = "."))
  && negb (bool_decide (elem = "..")).

(** A relative path made of names only, as the paths of a listing are: no
    leading, trailing or doubled slash, no [.] and no [..]. *)
Definition isPlainPath (path : string) : bool :=
  forallb isPlainElem (Split path slash).

(** A name without slash: what [filepath.Clean] keeps of a path besides
    [..]. *)
Definition isName (elem : string) : Prop :=
  isPlainElem elem = true ∧ containsByte slash elem = false.

(** The shape of the elements written by [filepath.Clean]: names, and
    under them, in a path that is not rooted, the [..] elements that could
    not be resolved. *)
Definition validStack (rooted : bool) (out : list string) : Prop :=
  ∃ names dots,
    out = names ++ replicate dots ".."
    ∧ Forall isName names
    ∧ (rooted = true → dots = 0%nat).

(** The elements [filepath.Clean] writes for a path, innermost first. *)
Definition cleanStack (path : string) : list string :=
  foldl (cleanStep (HasPrefix path "/")) [] (Split path slash).

(** The environment [env] with a client whose listing call answers
    [repos]. *)
Definition withListing (env : Env) (repos : list Repository) : Env :=
  mkEnv (Getenv env)
    (mkRepositoriesService (fun _ => Ok repos) (GetContents (Repositories env))).

(** The insertion of a record as the specification words it: a record
    whose import path is in the list replaces the record that has it, at
    its place; any other record is appended. *)
Fixpoint insertUnique (packages : list PackageInfo) (pkg : PackageInfo) : list PackageInfo :=
  match packages with
  | [] => [pkg]
  | p :: rest =>
      if bool_decide (ImportPath p = ImportPath pkg) then pkg :: rest
      else p :: insertUnique rest pkg
  end.

(** Whether [sub] occurs in [s]. *)
Fixpoint contains (s sub : string) : bool :=
  HasPrefix s sub ||
  match s with
  | EmptyString => false
  | String _ s' => contains s' sub
  end.




(** ** The scenarios of the specification *)

Definition entry (type name path : string) : RepositoryContent :=
  mkRepositoryContent (Some type) (Some name) (Some path) (Ok "").

Definition manifest (text : string) : RepositoryContent :=
  mkRepositoryContent (Some "file") (Some "go.mod") (Some "go.mod") (Ok text).

Definition goRepo (name : string) : Repository :=
  mkRepository (Some name) (Some "Go") (Some ("https://github.com/blksails/" +:+ name)) (Some "").

(** The repository [foo] with the files [main.go] and [sub/util.go] and
    the manifest [module pkg.blksails.net/foo]. *)
Definition fooListing : list RepositoryContent :=
  [ entry "file" "go.mod" "go.mod";
    entry "file" "main.go" "main.go";
    entry "file" "util.go" "sub/util.go" ].

Definition fooManifest : string :=
  "module pkg.blksails.net/foo" +:+ nl +:+ nl +:+ "require example.org/x v1.0.0".

(** A client that lists [repos] and answers every repository with the
    listing and the manifest of [foo]. *)
Definition fooClient (repos : list Repository) : RepositoriesService :=
  mkRepositoriesService
    (fun _ => Ok repos)
    (fun _ _ path =>
       if bool_decide (path = "go.mod") then Ok (Some (manifest fooManifest), [])
       else Ok (None, fooListing)).

(** A client whose directory listings fail, whose manifests are those of
    [foo]. *)
Definition noListingClient (repos : list Repository) : RepositoriesService :=
  mkRepositoriesService
    (fun _ => Ok repos)
    (fun _ _ path =>
       if bool_decide (path = "go.mod") then Ok (Some (manifest fooManifest), [])
       else Err "500 Internal Server Error").

(** A client for an organization of five kinds of repository: [other],
    whose manifest names a module of another domain; [nomod], which has no
    manifest; [garbled], whose manifest does not decode; [dirmod], in
    which [go.mod] is a directory; and the rest, which are like [foo]. *)
Definition orgClient (repos : list Repository) : RepositoriesService :=
  mkRepositoriesService
    (fun _ => Ok repos)
    (fun _ repo path =>
       if bool_decide (path = "go.mod") then
         if bool_decide (repo = "other") then Ok (Some (manifest "module other.org/foo"), [])
         else if bool_decide (repo = "nomod") then Err "404 Not Found"
         else if bool_decide (repo = "garbled") then
           Ok (Some (mkRepositoryContent (Some "file") (Some "go.mod") (Some "go.mod")
                       (Err "illegal base64 data at input byte 0")), [])
         else if bool_decide (repo = "dirmod") then
           Ok (None, [entry "file" "notes.txt" "go.mod/notes.txt"])
         else Ok (Some (manifest fooManifest), [])
       else Ok (None, fooListing)).

Definition tokenEnv (client : RepositoriesService) : Env :=
  mkEnv (fun name => if bool_decide (name = "GITHUB_TOKEN") then "ghp_token" else "") client.

Definition fooRoot : PackageInfo :=
  mkPackageInfo "pkg.blksails.net/foo" "https://github.com/blksails/foo" "".

Definition fooSub : PackageInfo :=
  mkPackageInfo "pkg.blksails.net/foo/sub" "https://github.com/blksails/foo" "".

(** An empty working directory and an operating system without faults. *)
Definition emptyWorld : World := mkWorld ∅ [].

(** A working directory in which [public] is a regular file. *)
Definition blockedWorld : World := mkWorld {[ "public" := File "" ]} [].

(** A working directory with the pages of an earlier run. *)
Definition staleWorld : World :=
  mkWorld
    (<[ "public" := Directory ]>
       (<[ "public/foo" := Directory ]>
          (<[ "public/foo/index.html" := File "an older import page" ]>
             (<[ "public/index.html" := File "an older index page" ]> ∅))))
    [None; None; None].

(** An empty working directory and an operating system that fails the
    first file operation. *)
Definition faultyWorld : World := mkWorld ∅ [Some 0%nat].

(** A working directory with an empty [public]. *)
Definition publicWorld : World := mkWorld {[ "public" := Directory ]} [].

(** ** Views of the file tree used to state what a run leaves alone *)

(** What every file operation of the generator respects: a directory stays
    a directory, a regular file stays a regular file, and a regular file
    whose path is not among [pages] keeps its content. *)
Definition keepsTree (pages : list string) (before after : gmap string node) : Prop :=
  ∀ path,
    (before !! path = Some Directory → after !! path = Some Directory)
    ∧ (∀ content, before !! path = Some (File content) →
         (∃ content', after !! path = Some (File content'))
         ∧ (path ∉ pages → after !! path = Some (File content))).

(** The records [main] passes to [generateHTML] for a repository: its path
    expansion when it passes the gates, nothing otherwise. *)
Definition emitted (client : RepositoriesService) (repo : Repository) : list PackageInfo :=
  match resolve client repo with
  | Some (moduleName, contents) => expand moduleName repo contents
  | None => []
  end.

(** The files of the import pages a run over [repos] may write. *)
Definition writtenPages (client : RepositoriesService) (repos : list Repository) : list string :=
  pagePath <$> concat (emitted client <$> repos).

(** ** The earlier generator

    The second source file of the repository is an earlier text of the
    generator: its records have no description, its base package is
    [pkg.blksails.net/pkg], it asks for the manifest only, and it
    generates the page of the module and nothing else. *)

Module Legacy.

Definition basePackage : string := "pkg.blksails.net/pkg".

Record PackageInfo := mkPackageInfo {
  ImportPath : string;
  RepoURL : string
}.

Section Generator.

Context `{Escapers}.

(** The document the template of the earlier [generateHTML] executes
    to. *)
Definition renderImportPage (pkg : PackageInfo) : string :=
  JoinStrings
    [ "<!DOCTYPE html>";
      "<html>";
      "<head>";
      "    <meta charset=" +:+ dq +:+ "utf-8" +:+ dq +:+ ">";
      "    <meta name=" +:+ dq +:+ "go-import" +:+ dq +:+ " content=" +:+ dq
        +:+ attrescaper (ImportPath pkg) +:+ " git " +:+ attrescaper (RepoURL pkg)
        +:+ dq +:+ ">";
      "    <meta name=" +:+ dq +:+ "go-source" +:+ dq +:+ " content=" +:+ dq
        +:+ attrescaper (ImportPath pkg) +:+ " " +:+ attrescaper (RepoURL pkg)
        +:+ " " +:+ attrescaper (RepoURL pkg) +:+ "/tree/master{/dir} "
        +:+ attrescaper (RepoURL pkg) +:+ "/blob/master{/dir}/{file}#L{line}"
        +:+ dq +:+ ">";
      "    <meta http-equiv=" +:+ dq +:+ "refresh" +:+ dq +:+ " content=" +:+ dq
        +:+ "0; url=" +:+ attrescaper (RepoURL pkg) +:+ dq +:+ ">";
      "</head>";
      "<body>";
      "    Redirecting to <a href=" +:+ dq +:+ hrefescaper (RepoURL pkg) +:+ dq +:+ ">"
        +:+ htmlescaper (RepoURL pkg) +:+ "</a>...";
      "</body>";
      "</html>" ]
    nl.

Definition generateHTML (pkg : PackageInfo) : M (option error) :=
  let relPath := TrimPrefix (ImportPath pkg) (baseDomain +:+ "/") in
  let dirPath := Join ["public"; relPath] in
  err ← MkdirAll dirPath;
  match err with
  | Some err => mret (Some ("failed to create directory: " +:+ err))
  | None =>
      f ← Create (Join [dirPath; "index.html"]);
      match f with
      | Err err => mret (Some ("failed to create file: " +:+ err))
      | Ok f =>
          err ← Write f (renderImportPage pkg);
          match err with
          | Some err => mret (Some ("failed to execute template: " +:+ err))
          | None => mret None
          end
      end
  end.

(** The body of the loop of the earlier [main]; [content.GetContent()]
    is called with no check of the pointer here too. *)
Definition processRepo (client : RepositoriesService) (repo : Repository) : M (outcome unit) :=
  if negb (bool_decide (GetLanguage repo = "Go")) then mret (Returned ())
  else
    match GetContents client orgName (GetName repo) "go.mod" with
    | Err _ => mret (Returned ())
    | Ok (None, _) => mret Panicked
    | Ok (Some content, _) =>
        match GetContent content with
        | Err _ => mret (Returned ())
        | Ok fileContent =>
            let moduleName := parseModuleName fileContent in
            if negb (HasPrefix moduleName basePackage) then mret (Returned ())
            else
              let pkgInfo := mkPackageInfo moduleName (GetHTMLURL repo) in
              err ← generateHTML pkgInfo;
              match err with
              | Some err =>
                  logPrintf ("Error generating HTML for " +:+ moduleName +:+ ": " +:+ err)
              | None => mret ()
              end ;;
              mret (Returned ())
        end
    end.

Fixpoint processRepos (client : RepositoriesService) (repos : list Repository)
    : M (outcome unit) :=
  match repos with
  | [] => mret (Returned ())
  | repo :: rest =>
      after ← processRepo client repo;
      match after with
      | Returned _ => processRepos client rest
      | Panicked => mret Panicked
      end
  end.

(** The earlier [main]; the value is the exit status of the process. *)
Definition main (env : Env) : M nat :=
  let token := Getenv env "GITHUB_TOKEN" in
  if bool_decide (token = "") then logFatal "GITHUB_TOKEN environment variable is required"
  else
    let client := Repositories env in
    match ListByOrg client orgName with
    | Err err => logFatal ("Error listing repositories: " +:+ err)
    | Ok repos =>
        after ← processRepos client repos;
        match after with
        | Returned _ => mret 0%nat
        | Panicked => mret 2%nat
        end
    end.

End Generator.

End Legacy.


(** ** A scenario for the earlier generator *)

(** A client that lists [repos] and answers every repository with the
    listing of [foo] and a manifest for a module below
    [pkg.blksails.net/pkg]. *)
Definition pkgClient (repos : list Repository) : RepositoriesService :=
  mkRepositoriesService
    (fun _ => Ok repos)
    (fun _ _ path =>
       if bool_decide (path = "go.mod") then
         Ok (Some (manifest "module pkg.blksails.net/pkg/log"), [])
       else Ok (None, fooListing)).

(** The record of a fork of [foo] that declares the module of [foo]. *)
Definition forkRoot : PackageInfo :=
  mkPackageInfo "pkg.blksails.net/foo" "https://github.com/blksails/foo-fork" "".

(** A record whose import path leaves the base domain by a [..]. *)
Definition escapedRoot : PackageInfo :=
  mkPackageInfo "pkg.blksails.net/../escaped" "https://github.com/blksails/escaped" "".

(** ** The generator with a progress log

    The second text of [cmd/generator/main.go] is the generator with a
    line in the log for every step it takes.  [parseModuleName],
    [generateHTML] and [generateIndexHTML] are the same functions; the
    loops and [main] are repeated here with their log lines. *)

Module Verbose.

(** [%d] for the length of a slice and for a counter. *)
Definition decimal (n : nat) : string := pretty n.

(** The check mark of the success lines, U+2713, in UTF-8. *)
Definition checkMark : string := bytes [226; 156; 147].

Section Generator.

Context `{Escapers}.

(** The loop of [main] over the directory listing of a repository;
    [subPkgCount] counts the pages generated so far. *)
Fixpoint subPackages (moduleName : string) (repo : Repository)
    (contents : list RepositoryContent) (subPkgCount : nat) : M nat :=
  match contents with
  | [] => mret subPkgCount
  | content :: rest =>
      subPkgCount ←
        (if bool_decide (GetType content = "file") && HasSuffix (GetContentName content) ".go"
         then
           let dir := Dir (GetPath content) in
           if bool_decide (dir = ".") then mret subPkgCount
           else
             let subPkgInfo :=
               mkPackageInfo (Join [moduleName; dir]) (GetHTMLURL repo) (GetDescription repo) in
             err ← generateHTML subPkgInfo;
             match err with
             | Some err =>
                 logPrintf ("  Error generating HTML for " +:+ ImportPath subPkgInfo
                            +:+ ": " +:+ err) ;;
                 mret subPkgCount
             | None =>
                 logPrintf ("  " +:+ checkMark +:+ " Generated HTML for subpackage: "
                            +:+ ImportPath subPkgInfo) ;;
                 mret (S subPkgCount)
             end
         else mret subPkgCount);
      subPackages moduleName repo rest subPkgCount
  end.

(** The body of the loop of [main] over the repositories, with the same
    call of [GetContent] on a file object that may be nil. *)
Definition processRepo (client : RepositoriesService) (packages : list PackageInfo)
    (repo : Repository) : M (outcome (list PackageInfo)) :=
  logPrintf ("Processing repository: " +:+ GetName repo) ;;
  if negb (bool_decide (GetLanguage repo = "Go")) then
    logPrintf ("  Skipping " +:+ GetName repo +:+ ": not a Go repository (language: "
               +:+ GetLanguage repo +:+ ")") ;;
    mret (Returned packages)
  else
    logPrintf ("  Found Go repository: " +:+ GetName repo) ;;
    match GetContents client orgName (GetName repo) "" with
    | Err err =>
        logPrintf ("Error getting contents for " +:+ GetName repo +:+ ": " +:+ err) ;;
        mret (Returned packages)
    | Ok (_, contents) =>
        logPrintf ("  Checking go.mod for " +:+ GetName repo) ;;
        match GetContents client orgName (GetName repo) "go.mod" with
        | Err _ =>
            logPrintf ("  No go.mod found for " +:+ GetName repo +:+ ", skipping") ;;
            mret (Returned packages)
        | Ok (None, _) => mret Panicked
        | Ok (Some modContent, _) =>
            match GetContent modContent with
            | Err err =>
                logPrintf ("  Failed to read go.mod for " +:+ GetName repo +:+ ": " +:+ err) ;;
                mret (Returned packages)
            | Ok fileContent =>
                let moduleName := parseModuleName fileContent in
                logPrintf ("  Module name: " +:+ moduleName) ;;
                if negb (HasPrefix moduleName basePackage) then
                  logPrintf ("  Skipping " +:+ GetName repo
                             +:+ ": module name doesn't start with " +:+ basePackage) ;;
                  mret (Returned packages)
                else
                  let packages :=
                    packages ++ [mkPackageInfo moduleName (GetHTMLURL repo) (GetDescription repo)] in
                  logPrintf ("  Generating HTML for main module: " +:+ moduleName) ;;
                  let pkgInfo :=
                    mkPackageInfo moduleName (GetHTMLURL repo) (GetDescription repo) in
                  err ← generateHTML pkgInfo;
                  match err with
                  | Some err =>
                      logPrintf ("  Error generating HTML for " +:+ moduleName +:+ ": " +:+ err)
                  | None =>
                      logPrintf ("  " +:+ checkMark +:+ " Generated HTML for " +:+ moduleName)
                  end ;;
                  subPkgCount ← subPackages moduleName repo contents 0%nat;
                  (if bool_decide (0 < subPkgCount)%nat then
                     logPrintf ("  Generated " +:+ decimal subPkgCount +:+ " subpackage(s) for "
                                +:+ GetName repo)
                   else mret ()) ;;
                  mret (Returned packages)
            end
        end
    end.

(** The loop of [main] over the repositories. *)
Fixpoint processRepos (client : RepositoriesService) (packages : list PackageInfo)
    (repos : list Repository) : M (outcome (list PackageInfo)) :=
  match repos with
  | [] => mret (Returned packages)
  | repo :: rest =>
      after ← processRepo client packages repo;
      match after with
      | Returned packages' => processRepos client packages' rest
      | Panicked => mret Panicked
      end
  end.

(** [main]; the value is the exit status of the process. *)
Definition main (env : Env) : M nat :=
  logPrintf ("GITHUB_TOKEN: " +:+ Getenv env "GITHUB_TOKEN") ;;
  let token := Getenv env "GITHUB_TOKEN" in
  if bool_decide (token = "") then logFatal "GITHUB_TOKEN environment variable is required"
  else
    let client := Repositories env in
    logPrintf ("Fetching repositories for organization: " +:+ orgName) ;;
    match ListByOrg client orgName with
    | Err err => logFatal ("Error listing repositories: " +:+ err)
    | Ok repos =>
        logPrintf ("Found " +:+ decimal (length repos) +:+ " repositories") ;;
        after ← processRepos client [] repos;
        match after with
        | Panicked => mret 2%nat
        | Returned packages =>
            logPrintf (nl +:+ "Generating index HTML with " +:+ decimal (length packages)
                       +:+ " package(s)") ;;
            err ← generateIndexHTML packages;
            match err with
            | Some err => logPrintf ("Error generating index HTML: " +:+ err)
            | None => logPrintf (checkMark +:+ " Successfully generated index HTML")
            end ;;
            logPrintf (nl +:+ "=== Generation Complete ===") ;;
            logPrintf ("Total packages processed: " +:+ decimal (length packages)) ;;
            logPrintf "Index page: public/index.html" ;;
            mret 0%nat
        end
    end.

End Generator.

End Verbose.

(** * Properties *)

(** ** Strings *)

Lemma append_nil_r (s : string) : s +:+ "" = s.
Proof.
  induction s as [|c s IH]; [reflexivity|].
  exact (f_equal (String c) IH).
Qed.

Lemma append_assoc (s1 s2 s3 : string) : (s1 +:+ s2) +:+ s3 = s1 +:+ (s2 +:+ s3).
Proof.
  induction s1 as [|c s1 IH]; [reflexivity|].
  exact (f_equal (String c) IH).
Qed.


Lemma length_append (s1 s2 : string) :
  String.length (s1 +:+ s2) = (String.length s1 + String.length s2)%nat.
Proof.
  induction s1 as [|c s1 IH]; [reflexivity|].
  change (S (String.length (s1 +:+ s2)) = S (String.length s1 + String.length s2)).
  by rewrite IH.
Qed.

Lemma rev_app_append (s1 s2 : string) : String.rev_app s1 s2 = String.rev s1 +:+ s2.
Proof.
  revert s2. induction s1 as [|c s1 IH]; intros s2; [reflexivity|].
  unfold String.rev. cbn [String.rev_app]. rewrite (IH (String c s2)), (IH (String c "")).
  by rewrite append_assoc.
Qed.

Lemma string_rev_cons (c : ascii) (s : string) : String.rev (String c s) = String.rev s +:+ String c "".
Proof. unfold String.rev at 1. cbn [String.rev_app]. apply rev_app_append. Qed.

Lemma string_rev_append (s1 s2 : string) : String.rev (s1 +:+ s2) = String.rev s2 +:+ String.rev s1.
Proof.
  induction s1 as [|c s1 IH].
  - by rewrite append_nil_r.
  - change (String.rev (String c (s1 +:+ s2)) = String.rev s2 +:+ String.rev (String c s1)).
    by rewrite !string_rev_cons, IH, append_assoc.
Qed.

Lemma string_rev_involutive (s : string) : String.rev (String.rev s) = s.
Proof.
  induction s as [|c s IH]; [reflexivity|].
  rewrite string_rev_cons, string_rev_append, IH. reflexivity.
Qed.

Lemma string_length_rev (s : string) : String.length (String.rev s) = String.length s.
Proof.
  induction s as [|c s IH]; [reflexivity|].
  rewrite string_rev_cons, length_append, IH. cbn. lia.
Qed.

Lemma take_drop_bytes (n : nat) (s : string) : take_bytes n s +:+ drop_bytes n s = s.
Proof.
  revert s. induction n as [|n IH]; intros [|c s]; try reflexivity.
  cbn [take_bytes drop_bytes]. exact (f_equal (String c) (IH s)).
Qed.

Lemma length_drop_bytes (n : nat) (s : string) :
  String.length (drop_bytes n s) = (String.length s - n)%nat.
Proof.
  revert s. induction n as [|n IH]; intros [|c s]; try reflexivity.
  cbn [drop_bytes String.length]. by rewrite IH.
Qed.

Lemma HasPrefix_append (s rest prefix : string) :
  HasPrefix s prefix = true → HasPrefix (s +:+ rest) prefix = true.
Proof.
  revert s. induction prefix as [|c prefix IH]; intros s; [reflexivity|].
  destruct s as [|d s]; [discriminate|].
  change (Ascii.eqb c d && HasPrefix s prefix = true
          → Ascii.eqb c d && HasPrefix (s +:+ rest) prefix = true).
  rewrite !andb_true_iff. intros [? ?]. auto.
Qed.

Lemma HasPrefix_split (s prefix : string) :
  HasPrefix s prefix = true → s = prefix +:+ drop_bytes (String.length prefix) s.
Proof.
  revert s. induction prefix as [|c prefix IH]; intros s; [by destruct s|].
  destruct s as [|d s]; [discriminate|].
  change (Ascii.eqb c d && HasPrefix s prefix = true
          → String d s = String c (prefix +:+ drop_bytes (String.length prefix) s)).
  rewrite andb_true_iff. intros [->%Ascii.eqb_eq Hrest]. f_equal. by apply IH.
Qed.

Lemma HasPrefix_app (prefix rest : string) : HasPrefix (prefix +:+ rest) prefix = true.
Proof.
  induction prefix as [|c prefix IH]; [reflexivity|].
  change (Ascii.eqb c c && HasPrefix (prefix +:+ rest) prefix = true).
  by rewrite Ascii.eqb_refl, IH.
Qed.

Lemma drop_bytes_append (s1 s2 : string) : drop_bytes (String.length s1) (s1 +:+ s2) = s2.
Proof. induction s1 as [|c s1 IH]; [by destruct s2 | exact IH]. Qed.

Lemma TrimPrefix_append (prefix s : string) : TrimPrefix (prefix +:+ s) prefix = s.
Proof. unfold TrimPrefix. by rewrite HasPrefix_app, drop_bytes_append. Qed.

(** ** White space *)

Lemma leadingSpace_none (runes : list string) (s : string) :
  Forall (λ r, r ≠ "") runes →
  leadingSpace runes s = 0%nat ↔ ∀ r, r ∈ runes → HasPrefix s r = false.
Proof.
  intros Hrunes. unfold leadingSpace.
  destruct (List.find (HasPrefix s) runes) as [r|] eqn:Hfind.
  - apply List.find_some in Hfind as [Hin Hr].
    apply list_elem_of_In in Hin.
    split.
    + intros Hlen. rewrite Forall_forall in Hrunes. specialize (Hrunes r Hin).
      destruct r; [done | discriminate].
    + intros Hnone. rewrite (Hnone r Hin) in Hr. discriminate.
  - split; [|done]. intros _ r Hin. apply list_elem_of_In in Hin.
    by apply (List.find_none _ _ Hfind).
Qed.

Lemma trimLeftLoop_suffix (runes : list string) (rounds : nat) (s : string) :
  ∃ dropped, s = dropped +:+ trimLeftLoop runes rounds s.
Proof.
  revert s. induction rounds as [|rounds IH]; intros s; [by exists ""|].
  cbn [trimLeftLoop]. destruct (leadingSpace runes s) as [|width]; [by exists ""|].
  destruct (IH (drop_bytes (S width) s)) as [dropped Hdropped].
  exists (take_bytes (S width) s +:+ dropped).
  rewrite append_assoc, <- Hdropped. by rewrite take_drop_bytes.
Qed.

Lemma trimLeftLoop_done (runes : list string) (rounds : nat) (s : string) :
  Forall (λ r, r ≠ "") runes →
  (String.length s ≤ rounds)%nat →
  leadingSpace runes (trimLeftLoop runes rounds s) = 0%nat.
Proof.
  intros Hrunes. revert s. induction rounds as [|rounds IH]; intros s Hlen.
  - destruct s; [|cbn in Hlen; lia]. cbn [trimLeftLoop].
    apply leadingSpace_none; [done|]. intros r Hin.
    rewrite Forall_forall in Hrunes. specialize (Hrunes r Hin). by destruct r.
  - cbn [trimLeftLoop]. destruct (leadingSpace runes s) as [|width] eqn:Hwidth; [done|].
    apply IH. rewrite length_drop_bytes. lia.
Qed.

Lemma trimLeftLoop_trimmed (runes : list string) (rounds : nat) (s : string) :
  leadingSpace runes s = 0%nat → trimLeftLoop runes rounds s = s.
Proof. intros Hnone. destruct rounds; [reflexivity|]. cbn [trimLeftLoop]. by rewrite Hnone. Qed.

Lemma spaceRunes_nonempty : Forall (λ r, r ≠ "") spaceRunes.
Proof. unfold spaceRunes. repeat constructor; discriminate. Qed.

Lemma spaceRunes_rev_nonempty : Forall (λ r, r ≠ "") (map String.rev spaceRunes).
Proof. unfold spaceRunes. repeat constructor; discriminate. Qed.

(** The text [strings.TrimSpace] answers neither starts nor ends with
    white space, and trimming it again changes nothing. *)
Lemma TrimSpace_trimmed (s : string) :
  leadingSpace spaceRunes (TrimSpace s) = 0%nat
  ∧ leadingSpace (map String.rev spaceRunes) (String.rev (TrimSpace s)) = 0%nat.
Proof.
  unfold TrimSpace, TrimRightSpace.
  set (left := TrimLeftSpace s).
  assert (Hleft : leadingSpace spaceRunes left = 0%nat).
  { apply trimLeftLoop_done; [apply spaceRunes_nonempty | done]. }
  split.
  - destruct (trimLeftLoop_suffix (map String.rev spaceRunes) (String.length left)
                (String.rev left)) as [dropped Hdropped].
    apply (f_equal String.rev) in Hdropped.
    rewrite string_rev_involutive, string_rev_append in Hdropped.
    apply leadingSpace_none; [apply spaceRunes_nonempty|]. intros r Hin.
    destruct (HasPrefix _ r) eqn:Hprefix; [|reflexivity].
    apply (HasPrefix_append _ (String.rev dropped)) in Hprefix.
    rewrite <- Hdropped in Hprefix.
    apply (leadingSpace_none spaceRunes left spaceRunes_nonempty) in Hin; [|exact Hleft].
    congruence.
  - rewrite string_rev_involutive.
    apply trimLeftLoop_done; [apply spaceRunes_rev_nonempty|]. by rewrite string_length_rev.
Qed.

Lemma TrimSpace_idempotent (s : string) : TrimSpace (TrimSpace s) = TrimSpace s.
Proof.
  destruct (TrimSpace_trimmed s) as [Hleft Hright].
  set (t := TrimSpace s) in *.
  unfold TrimSpace at 1, TrimRightSpace, TrimLeftSpace.
  rewrite (trimLeftLoop_trimmed spaceRunes _ t Hleft).
  rewrite (trimLeftLoop_trimmed _ _ _ Hright). apply string_rev_involutive.
Qed.

(** ** The manifest parser *)

Lemma parseModuleLines_first (lines : list string) :
  (∃ pre line post,
      lines = pre ++ line :: post
      ∧ Forall (λ l, isModuleLine l = false) pre
      ∧ isModuleLine line = true
      ∧ parseModuleLines lines = TrimSpace (TrimPrefix (TrimSpace line) "module "))
  ∨ (Forall (λ l, isModuleLine l = false) lines ∧ parseModuleLines lines = "").
Proof.
  induction lines as [|line rest IH].
  - right. split; [constructor | reflexivity].
  - cbn [parseModuleLines]. fold (isModuleLine line).
    destruct (isModuleLine line) eqn:Hline.
    + left. exists [], line, rest. repeat split; auto.
    + destruct IH as [(pre & l & post & -> & Hpre & Hl & Heq) | [Hall Heq]].
      * left. exists (line :: pre), l, post. repeat split; auto.
      * right. split; auto.
Qed.

Lemma Split_nonempty (s : string) (sep : ascii) : Split s sep ≠ [].
Proof.
  induction s as [|c s IH]; cbn; [discriminate|].
  destruct (Ascii.eqb c sep); [discriminate|].
  destruct (Split s sep); [contradiction | discriminate].
Qed.

(** ** Paths *)

Lemma Split_cons (c : ascii) (s : string) (sep : ascii) :
  Split (String c s) sep
  = if Ascii.eqb c sep then "" :: Split s sep
    else match Split s sep with
         | field :: fields => String c field :: fields
         | [] => [String c ""]
         end.
Proof. reflexivity. Qed.

Lemma Split_append (s1 s2 : string) (sep : ascii) :
  Split (s1 +:+ String sep s2) sep = Split s1 sep ++ Split s2 sep.
Proof.
  induction s1 as [|c s1 IH].
  - change (Split (String sep s2) sep = [""] ++ Split s2 sep).
    by rewrite Split_cons, Ascii.eqb_refl.
  - change (Split (String c (s1 +:+ String sep s2)) sep = Split (String c s1) sep ++ Split s2 sep).
    rewrite !Split_cons, IH. destruct (Ascii.eqb c sep); [reflexivity|].
    pose proof (Split_nonempty s1 sep) as Hne.
    by destruct (Split s1 sep).
Qed.

Lemma Split_no_sep (s : string) (sep : ascii) :
  Forall (λ field, containsByte sep field = false) (Split s sep).
Proof.
  induction s as [|c s IH]; [by repeat constructor|].
  rewrite Split_cons. destruct (Ascii.eqb c sep) eqn:Hc; [by constructor|].
  destruct (Split s sep) as [|field fields]; [by repeat constructor; cbn; rewrite Ascii.eqb_sym, Hc|].
  inversion IH as [|? ? Hfield Hfields]; subst. constructor; [|done].
  cbn. by rewrite Ascii.eqb_sym, Hc, Hfield.
Qed.

Lemma Split_field (s : string) (sep : ascii) :
  containsByte sep s = false → Split s sep = [s].
Proof.
  induction s as [|c s IH]; [reflexivity|].
  cbn [containsByte]. rewrite orb_false_iff. intros [Hc Hs].
  rewrite Split_cons, Ascii.eqb_sym, Hc, (IH Hs). reflexivity.
Qed.

Lemma JoinStrings_cons (e e' : string) (rest : list string) (sep : string) :
  JoinStrings (e :: e' :: rest) sep = e +:+ sep +:+ JoinStrings (e' :: rest) sep.
Proof. reflexivity. Qed.

Lemma Split_JoinStrings (fields : list string) (sep : ascii) :
  fields ≠ [] →
  Forall (λ field, containsByte sep field = false) fields →
  Split (JoinStrings fields (String sep "")) sep = fields.
Proof.
  induction fields as [|field fields IH]; [done|]. intros _ Hfields.
  inversion Hfields as [|? ? Hfield Hrest]; subst.
  destruct fields as [|field' fields].
  - by apply Split_field.
  - rewrite JoinStrings_cons.
    change (field +:+ String sep "" +:+ ?t) with (field +:+ String sep t).
    rewrite Split_append, (Split_field _ _ Hfield), IH; done.
Qed.

(** *** [filepath.Clean] on the stack of elements *)

Lemma isPlainElem_iff (elem : string) :
  isPlainElem elem = true ↔ elem ≠ "" ∧ elem ≠ "." ∧ elem ≠ "..".
Proof.
  unfold isPlainElem.
  rewrite !andb_true_iff, !negb_true_iff, !bool_decide_eq_false. tauto.
Qed.

Lemma cleanStep_plain (rooted : bool) (out : list string) (elem : string) :
  isPlainElem elem = true → cleanStep rooted out elem = elem :: out.
Proof.
  intros (Hempty & Hdot & Hdots)%isPlainElem_iff. unfold cleanStep.
  by rewrite !bool_decide_eq_false_2 by done.
Qed.

Lemma foldl_cleanStep_plain (rooted : bool) (out elems : list string) :
  Forall (λ elem, isPlainElem elem = true) elems →
  foldl (cleanStep rooted) out elems = rev elems ++ out.
Proof.
  intros Helems. revert out.
  induction Helems as [|elem elems Helem _ IH]; intros out; [reflexivity|].
  cbn [foldl rev]. rewrite cleanStep_plain by done. rewrite IH, <- app_assoc. reflexivity.
Qed.

Lemma cleanStep_valid (rooted : bool) (out : list string) (elem : string) :
  containsByte slash elem = false →
  validStack rooted out → validStack rooted (cleanStep rooted out elem).
Proof.
  intros Hslash (names & dots & -> & Hnames & Hrooted). unfold cleanStep.
  destruct (decide (elem = "")) as [->|Hempty]; [by exists names, dots|].
  destruct (decide (elem = ".")) as [->|Hdot]; [by exists names, dots|].
  rewrite !bool_decide_eq_false_2 by done. cbn [orb].
  destruct (decide (elem = "..")) as [->|Hdots].
  - rewrite bool_decide_eq_true_2 by done.
    destruct names as [|name names].
    + destruct dots as [|dots]; cbn [app replicate].
      * destruct rooted; [by exists [], 0%nat|].
        exists [], 1%nat. repeat split; [constructor | discriminate].
      * rewrite bool_decide_eq_true_2 by done.
        exists [], (S (S dots)). repeat split; [constructor|].
        intros Hr. specialize (Hrooted Hr). discriminate.
    + cbn [app]. inversion Hnames as [|? ? [Hname _] Hrest]; subst.
      apply isPlainElem_iff in Hname as (_ & _ & Hname).
      rewrite bool_decide_eq_false_2 by done. by exists names, dots.
  - rewrite bool_decide_eq_false_2 by done.
    exists (elem :: names), dots. repeat split; [|done].
    constructor; [|done]. split; [|done]. by apply isPlainElem_iff.
Qed.

Lemma foldl_cleanStep_valid (rooted : bool) (out elems : list string) :
  Forall (λ elem, containsByte slash elem = false) elems →
  validStack rooted out → validStack rooted (foldl (cleanStep rooted) out elems).
Proof.
  intros Helems. revert out.
  induction Helems as [|elem elems Helem _ IH]; intros out Hout; [done|].
  cbn [foldl]. by apply IH, cleanStep_valid.
Qed.

Lemma validStack_nil (rooted : bool) : validStack rooted [].
Proof. exists [], 0%nat. repeat split; constructor. Qed.

Lemma foldl_cleanStep_dots (dots : nat) :
  foldl (cleanStep false) [] (replicate dots "..") = replicate dots "..".
Proof.
  induction dots as [|dots IH]; [reflexivity|].
  rewrite replicate_S_end, foldl_app, IH. cbn [foldl].
  destruct dots as [|dots]; [reflexivity|].
  rewrite <- replicate_S_end. reflexivity.
Qed.

Lemma rev_replicate {A} (n : nat) (x : A) : rev (replicate n x) = replicate n x.
Proof.
  induction n as [|n IH]; [reflexivity|].
  cbn [replicate rev]. rewrite IH. by rewrite <- replicate_S_end.
Qed.

(** Reading back the elements [filepath.Clean] has written gives the same
    elements: a cleaned path is clean. *)
Lemma foldl_cleanStep_replay (rooted : bool) (out : list string) :
  validStack rooted out → foldl (cleanStep rooted) [] (rev out) = out.
Proof.
  intros (names & dots & -> & Hnames & Hrooted).
  rewrite rev_app_distr, rev_replicate, foldl_app.
  assert (Hdots : foldl (cleanStep rooted) [] (replicate dots "..") = replicate dots "..").
  { destruct rooted; [by rewrite Hrooted | apply foldl_cleanStep_dots]. }
  rewrite Hdots, foldl_cleanStep_plain.
  - by rewrite rev_involutive.
  - apply Forall_forall. intros name Hname%list_elem_of_In%(proj2 (in_rev _ _))%list_elem_of_In.
    rewrite Forall_forall in Hnames. by apply Hnames.
Qed.

Lemma validStack_no_slash (rooted : bool) (out : list string) :
  validStack rooted out → Forall (λ elem, containsByte slash elem = false) out.
Proof.
  intros (names & dots & -> & Hnames & _). apply Forall_app. split.
  - eapply Forall_impl; [exact Hnames|]. by intros name [_ ?].
  - apply Forall_forall. by intros elem [-> _]%elem_of_replicate.
Qed.

Lemma HasPrefix_slash_Split (s : string) :
  HasPrefix s "/" = true → ∃ rest, Split s slash = "" :: rest.
Proof.
  destruct s as [|c s]; [discriminate|].
  change (Ascii.eqb "/" c && true = true → ∃ rest, Split (String c s) slash = "" :: rest).
  rewrite andb_true_r. intros Hc. rewrite Split_cons.
  change slash with "/"%char. rewrite Ascii.eqb_sym, Hc. by eexists.
Qed.

Lemma validStack_head (rooted : bool) (elem : string) (out : list string) :
  validStack rooted (out ++ [elem]) → elem ≠ "".
Proof.
  intros (names & dots & Heq & Hnames & _) ->.
  destruct dots as [|dots].
  - rewrite app_nil_r in Heq. subst names.
    apply Forall_app in Hnames as [_ Hlast]. by inversion Hlast as [|? ? [? _] _]; subst.
  - rewrite replicate_S_end, app_assoc in Heq. by apply app_inj_tail in Heq as [_ ?].
Qed.

Lemma cleanStack_valid (path : string) : validStack (HasPrefix path "/") (cleanStack path).
Proof. apply foldl_cleanStep_valid; [apply Split_no_sep | apply validStack_nil]. Qed.

(** A path that [filepath.Clean] answers, with at least one element, is
    read back element by element as it was written. *)
Lemma Clean_fixed_stack (path cleaned : string) :
  cleanStack path ≠ [] →
  Clean path = cleaned →
  cleanStack cleaned = cleanStack path.
Proof.
  intros Hne <-. pose proof (cleanStack_valid path) as Hvalid.
  unfold Clean. fold (cleanStack path).
  set (out := cleanStack path) in *. set (rooted := HasPrefix path "/") in *.
  assert (Hrev : rev out ≠ []).
  { intros Hnil. apply Hne. by rewrite <- (rev_involutive out), Hnil. }
  assert (Hsplit : Split (JoinStrings (rev out) "/") slash = rev out).
  { apply (Split_JoinStrings (rev out) slash Hrev).
    apply Forall_forall. intros elem Helem%list_elem_of_In%(proj2 (in_rev _ _))%list_elem_of_In.
    pose proof (validStack_no_slash _ _ Hvalid) as Hslash.
    rewrite Forall_forall in Hslash. by apply Hslash. }
  assert (Hhead : HasPrefix (JoinStrings (rev out) "/") "/" = false).
  { destruct (HasPrefix (JoinStrings (rev out) "/") "/") eqn:Hprefix; [|reflexivity].
    apply HasPrefix_slash_Split in Hprefix as [rest Hrest]. rewrite Hsplit in Hrest.
    apply (f_equal (@rev string)) in Hrest. rewrite rev_involutive in Hrest.
    cbn [rev] in Hrest. rewrite Hrest in Hvalid. by apply validStack_head in Hvalid. }
  destruct rooted eqn:Hrooted.
  - unfold cleanStack at 1.
    change ("/" +:+ ?body) with (String slash body).
    assert (Hslash : HasPrefix (String slash (JoinStrings (rev out) "/")) "/" = true)
      by reflexivity.
    rewrite Hslash, Split_cons, Ascii.eqb_refl, Hsplit. cbn [foldl].
    change (cleanStep true [] "") with (@nil string).
    by apply foldl_cleanStep_replay.
  - rewrite bool_decide_eq_false_2.
    + unfold cleanStack at 1. rewrite Hhead, Hsplit. by apply foldl_cleanStep_replay.
    + intros Hbody. rewrite Hbody in Hsplit. cbn in Hsplit.
      apply (f_equal (@rev string)) in Hsplit. rewrite rev_involutive in Hsplit.
      cbn [rev app] in Hsplit. rewrite <- Hsplit in Hvalid.
      by apply (validStack_head false "" []) in Hvalid.
Qed.

Lemma Clean_nonempty (path : string) : Clean path ≠ "".
Proof.
  unfold Clean. destruct (HasPrefix path "/"); [discriminate|].
  case_bool_decide; [discriminate | done].
Qed.

Lemma isPlainPath_elems (path : string) :
  isPlainPath path = true → Forall (λ elem, isPlainElem elem = true) (Split path slash).
Proof.
  unfold isPlainPath. intros Hall. apply Forall_forall. intros elem Helem%list_elem_of_In.
  rewrite forallb_forall in Hall. by apply Hall.
Qed.

(** Joining a path of names to an identifier never gives the identifier
    back. *)
Lemma Join_plain_differs (id dir : string) :
  isPlainPath dir = true → Join [id; dir] ≠ id.
Proof.
  intros Hplain. pose proof (isPlainPath_elems dir Hplain) as Helems.
  destruct (decide (id = "")) as [->|Hid].
  - assert (Hdir : dir ≠ "") by (by intros ->).
    cbn [Join]. rewrite bool_decide_eq_true_2 by done.
    rewrite bool_decide_eq_false_2 by done. cbn [JoinStrings]. apply Clean_nonempty.
  - cbn [Join]. rewrite bool_decide_eq_false_2 by done. rewrite JoinStrings_cons.
    cbn [JoinStrings]. change (id +:+ "/" +:+ dir) with (id +:+ String slash dir).
    intros Hfixed.
    assert (Hrooted : HasPrefix (id +:+ String slash dir) "/" = HasPrefix id "/").
    { by destruct id. }
    assert (Hstack : cleanStack (id +:+ String slash dir)
                     = rev (Split dir slash) ++ cleanStack id).
    { unfold cleanStack. rewrite Hrooted, Split_append, foldl_app.
      by apply foldl_cleanStep_plain. }
    apply Clean_fixed_stack in Hfixed.
    + rewrite Hstack in Hfixed. apply (f_equal length) in Hfixed.
      rewrite length_app, length_rev in Hfixed.
      pose proof (Split_nonempty dir slash) as Hne.
      destruct (Split dir slash); [done | cbn in Hfixed; lia].
    + rewrite Hstack. pose proof (Split_nonempty dir slash) as Hne.
      intros [Hnil _]%app_eq_nil. apply Hne.
      by rewrite <- (rev_involutive (Split dir slash)), Hnil.
Qed.

Lemma Split_empty (s : string) (sep : ascii) : Split s sep = [""] → s = "".
Proof.
  destruct s as [|c s]; [done|]. rewrite Split_cons.
  destruct (Ascii.eqb c sep).
  - intros [= Hs]. by apply Split_nonempty in Hs.
  - by destruct (Split s sep).
Qed.

(** The part of a path up to its last slash has the elements of the path
    but the last, and an empty element after them. *)
Lemma uptoLastSlash_Split (path : string) :
  Split (uptoLastSlash path) slash = removelast (Split path slash) ++ [""].
Proof.
  induction path as [|c path IH]; [reflexivity|].
  cbn [uptoLastSlash]. rewrite (Split_cons c path).
  pose proof (Split_nonempty path slash) as Hne.
  destruct (uptoLastSlash path) as [|k kept] eqn:Hkept.
  - assert (Hlast : removelast (Split path slash) = []).
    { destruct (removelast (Split path slash)); [done|]. by destruct l. }
    destruct (Ascii.eqb c slash) eqn:Hc.
    + apply Ascii.eqb_eq in Hc as ->.
      destruct (Split path slash) as [|field [|? ?]]; [done | reflexivity | discriminate].
    + destruct (Split path slash) as [|field [|? ?]]; [done | reflexivity | discriminate].
  - rewrite (Split_cons c (String k kept)), IH.
    destruct (Ascii.eqb c slash).
    + destruct (Split path slash) as [|field fields]; [done|].
      by destruct fields.
    + destruct (Split path slash) as [|field [|field' fields]]; [done| |reflexivity].
      cbn [removelast app] in IH. by apply Split_empty in IH.
Qed.

Lemma Forall_removelast {A} (P : A → Prop) (l : list A) :
  Forall P l → Forall P (removelast l).
Proof.
  induction 1 as [|x l Hx Hl IH]; [constructor|].
  cbn [removelast]. destruct l; [constructor | by constructor].
Qed.

(** The directory of a path of names is the root [.] or a path of names. *)
Lemma Dir_plain (path : string) :
  isPlainPath path = true → Dir path = "." ∨ isPlainPath (Dir path) = true.
Proof.
  intros Hplain%isPlainPath_elems.
  apply (Forall_removelast _ _) in Hplain.
  unfold Dir, Clean. rewrite uptoLastSlash_Split.
  set (init := removelast (Split path slash)) in *.
  assert (Hrooted : HasPrefix (uptoLastSlash path) "/" = false).
  { destruct (HasPrefix (uptoLastSlash path) "/") eqn:Hprefix; [exfalso | reflexivity].
    pose proof (uptoLastSlash_Split path) as Hsplit. fold init in Hsplit.
    destruct init as [|elem init].
    - apply Split_empty in Hsplit. rewrite Hsplit in Hprefix. discriminate.
    - apply HasPrefix_slash_Split in Hprefix as [rest Hrest].
      rewrite Hsplit in Hrest. injection Hrest as -> _. by inversion Hplain. }
  rewrite Hrooted, foldl_app, (foldl_cleanStep_plain _ _ init Hplain), app_nil_r.
  cbn [foldl]. change (cleanStep false (rev init) "") with (rev init).
  rewrite rev_involutive. case_bool_decide as Hbody; [by left | right].
  unfold isPlainPath.
  assert (Hinit : init ≠ []) by (by intros Hnil; rewrite Hnil in Hbody).
  pose proof (Split_JoinStrings init slash Hinit
                (Forall_removelast _ _ (Split_no_sep path slash))) as Hsplit.
  change (String slash "") with "/" in Hsplit. rewrite Hsplit.
  apply forallb_forall. intros elem Helem%list_elem_of_In.
  rewrite Forall_forall in Hplain. by apply Hplain.
Qed.

(** ** Runs *)

Lemma value_bind {A B} (m : M A) (k : A → M B) (w : World) :
  value ((m ≫= k) w) = value (k (value (m w)) (world (m w))).
Proof. reflexivity. Qed.

Lemma world_bind {A B} (m : M A) (k : A → M B) (w : World) :
  world ((m ≫= k) w) = world (k (value (m w)) (world (m w))).
Proof. reflexivity. Qed.

Lemma logged_bind {A B} (m : M A) (k : A → M B) (w : World) :
  logged ((m ≫= k) w) = logged (m w) ++ logged (k (value (m w)) (world (m w))).
Proof. reflexivity. Qed.

Lemma run_eq {A} (r1 r2 : Run A) :
  value r1 = value r2 → world r1 = world r2 → logged r1 = logged r2 → r1 = r2.
Proof. destruct r1, r2; cbn; intros -> -> ->; reflexivity. Qed.

Lemma mret_bind {A B} (a : A) (k : A → M B) (w : World) :
  (mret a ≫= k) w = k a w.
Proof. apply run_eq; reflexivity. Qed.

Lemma bind_assoc {A B C} (m : M A) (k : A → M B) (k' : B → M C) (w : World) :
  ((m ≫= k) ≫= k') w = (m ≫= (λ a, k a ≫= k')) w.
Proof.
  apply run_eq; try reflexivity.
  rewrite !logged_bind, value_bind, world_bind. by rewrite <- app_assoc.
Qed.

(** ** The file operations *)

Lemma Create_ok (name : string) (w : World) (f : string) :
  value (Create name w) = Ok f →
  f = name ∧ fs (world (Create name w)) !! name = Some (File "").
Proof.
  unfold Create, nextFault, getTree, putTree, mbind, M_bind, mret, M_ret.
  destruct (faults w) as [|[n|] rest]; cbn.
  all: try discriminate.
  all: destruct (isDirectory _ _); cbn; try discriminate.
  all: destruct (fs w !! name) as [[|c]|] eqn:E; cbn; try discriminate.
  all: intros [= <-]; split; auto; apply lookup_insert_eq.
Qed.

Lemma Write_ok (f data : string) (w : World) :
  value (Write f data w) = None →
  fs (world (Write f data w)) !! f = Some (File (fileContent (fs w) f +:+ data)).
Proof.
  unfold Write, nextFault, getTree, putTree, mbind, M_bind, mret, M_ret.
  destruct (faults w) as [|[n|] rest]; cbn.
  all: try discriminate.
  all: intros _; apply lookup_insert_eq.
Qed.

Section PageProperties.

Context `{Escapers}.

(** A call of [generateHTML] that reports no error leaves the document of
    the package, and nothing else, in the file of its import page. *)
Lemma generateHTML_ok (pkg : PackageInfo) (w : World) :
  value (generateHTML pkg w) = None →
  fs (world (generateHTML pkg w)) !! pagePath pkg = Some (File (renderImportPage pkg)).
Proof.
  unfold generateHTML, pagePath.
  set (dirPath := Join ["public"; _]).
  set (name := Join [dirPath; "index.html"]).
  rewrite value_bind, world_bind.
  destruct (value (MkdirAll dirPath w)) as [e|]; [by cbn|].
  set (w1 := world (MkdirAll dirPath w)).
  rewrite value_bind, world_bind.
  destruct (value (Create name w1)) as [f|e] eqn:Ecr; [|by cbn].
  apply Create_ok in Ecr as [-> Hempty].
  set (w2 := world (Create name w1)) in *.
  rewrite value_bind, world_bind.
  destruct (value (Write name (renderImportPage pkg) w2)) as [e|] eqn:Ewr; [by cbn|].
  intros _. cbn [world mret M_ret].
  rewrite (Write_ok _ _ _ Ewr). unfold fileContent. by rewrite Hempty.
Qed.

Lemma generateIndexHTML_ok (packages : list PackageInfo) (w : World) :
  value (generateIndexHTML packages w) = None →
  fs (world (generateIndexHTML packages w)) !! "public/index.html"
  = Some (File (renderIndexPage packages)).
Proof.
  unfold generateIndexHTML.
  rewrite value_bind, world_bind.
  destruct (value (Create "public/index.html" w)) as [f|e] eqn:Ecr; [|by cbn].
  apply Create_ok in Ecr as [-> Hempty].
  set (w1 := world (Create "public/index.html" w)) in *.
  rewrite value_bind, world_bind.
  destruct (value (Write "public/index.html" (renderIndexPage packages) w1)) as [e|] eqn:Ewr;
    [by cbn|].
  intros _. cbn [world mret M_ret].
  rewrite (Write_ok _ _ _ Ewr). unfold fileContent. by rewrite Hempty.
Qed.

(** C8: the renderers are deterministic.  Whatever the file tree and the
    faults of the two worlds they run in, two calls of [generateHTML] on
    equal records that succeed leave byte-identical documents in the file
    of the import page, and two calls of [generateIndexHTML] on equal
    package lists that succeed leave byte-identical index pages. *)
Theorem renderers_deterministic
    (pkg1 pkg2 : PackageInfo) (packages1 packages2 : list PackageInfo)
    (w1 w2 v1 v2 : World) :
  pkg1 = pkg2 →
  packages1 = packages2 →
  value (generateHTML pkg1 w1) = None →
  value (generateHTML pkg2 w2) = None →
  value (generateIndexHTML packages1 v1) = None →
  value (generateIndexHTML packages2 v2) = None →
  (∃ doc,
      fs (world (generateHTML pkg1 w1)) !! pagePath pkg1 = Some (File doc)
      ∧ fs (world (generateHTML pkg2 w2)) !! pagePath pkg2 = Some (File doc)
      ∧ doc = renderImportPage pkg1)
  ∧ (∃ doc,
      fs (world (generateIndexHTML packages1 v1)) !! "public/index.html" = Some (File doc)
      ∧ fs (world (generateIndexHTML packages2 v2)) !! "public/index.html" = Some (File doc)
      ∧ doc = renderIndexPage packages1).
Proof.
  intros <- <- Hp1 Hp2 Hi1 Hi2. split.
  - exists (renderImportPage pkg1). auto using generateHTML_ok.
  - exists (renderIndexPage packages1). auto using generateIndexHTML_ok.
Qed.

(** C10: the import page depends on the import path and the repository
    URL of the record only: records that agree on both render to the same
    document and make [generateHTML] run alike, whatever their
    descriptions.  On the index page the description stands in a
    conditional: a record without description gets no paragraph for it, a
    record with one gets the paragraph with the escaped description. *)
Theorem import_page_ignores_description (p1 p2 : PackageInfo) (w : World) :
  ImportPath p1 = ImportPath p2 →
  RepoURL p1 = RepoURL p2 →
  renderImportPage p1 = renderImportPage p2
  ∧ generateHTML p1 w = generateHTML p2 w
  ∧ ((Description p1 = ""
      ∧ indexItem p1
        = JoinStrings
            [ "";
              "        <div class=" +:+ dq +:+ "package-item" +:+ dq +:+ ">";
              "            <h3><a href=" +:+ dq +:+ hrefescaper (RepoURL p1) +:+ dq +:+ ">"
                +:+ htmlescaper (ImportPath p1) +:+ "</a></h3>";
              "            ";
              "            <p><code>go get " +:+ htmlescaper (ImportPath p1) +:+ "</code></p>";
              "        </div>";
              "        " ]
            nl)
     ∨ (Description p1 ≠ ""
        ∧ indexItem p1
          = JoinStrings
              [ "";
                "        <div class=" +:+ dq +:+ "package-item" +:+ dq +:+ ">";
                "            <h3><a href=" +:+ dq +:+ hrefescaper (RepoURL p1) +:+ dq +:+ ">"
                  +:+ htmlescaper (ImportPath p1) +:+ "</a></h3>";
                "            ";
                "            <p>" +:+ htmlescaper (Description p1) +:+ "</p>";
                "            ";
                "            <p><code>go get " +:+ htmlescaper (ImportPath p1) +:+ "</code></p>";
                "        </div>";
                "        " ]
              nl)).
Proof.
  intros Hpath Hurl.
  assert (Hdoc : renderImportPage p1 = renderImportPage p2).
  { unfold renderImportPage. by rewrite Hpath, Hurl. }
  split; [exact Hdoc|]. split.
  - unfold generateHTML. by rewrite Hpath, Hdoc.
  - destruct (decide (Description p1 = "")) as [Hdesc|Hdesc]; [left | right].
    + split; [exact Hdesc|]. unfold indexItem, indexDescription.
      rewrite bool_decide_eq_true_2 by exact Hdesc. cbn [JoinStrings].
      by rewrite append_nil_r.
    + split; [exact Hdesc|]. unfold indexItem, indexDescription.
      rewrite bool_decide_eq_false_2 by exact Hdesc. cbn [JoinStrings].
      rewrite !append_assoc. reflexivity.
Qed.

End PageProperties.

(** ** The loop over the repositories *)

Lemma bind_ext {A B} (m : M A) (k k' : A → M B) (w : World) :
  (∀ a w', k a w' = k' a w') → (m ≫= k) w = (m ≫= k') w.
Proof.
  intros Hk. apply run_eq.
  - by rewrite !value_bind, Hk.
  - by rewrite !world_bind, Hk.
  - by rewrite !logged_bind, Hk.
Qed.

Lemma bind_ext_run {A B} (m m' : M A) (k : A → M B) (w : World) :
  m w = m' w → (m ≫= k) w = (m' ≫= k) w.
Proof.
  intros Hm. apply run_eq.
  - by rewrite !value_bind, Hm.
  - by rewrite !world_bind, Hm.
  - by rewrite !logged_bind, Hm.
Qed.

Section LoopProperties.

Context `{Escapers}.

Lemma emitPages_app (pkgs1 pkgs2 : list PackageInfo) (w : World) :
  emitPages (pkgs1 ++ pkgs2) w = (emitPages pkgs1 ;; emitPages pkgs2) w.
Proof.
  revert w. induction pkgs1 as [|pkg pkgs1 IH]; intros w.
  - cbn [app emitPages]. by rewrite mret_bind.
  - cbn [app emitPages]. rewrite bind_assoc. apply bind_ext. intros _ w'. apply IH.
Qed.

(** The loop over the directory listing calls [generateHTML] on the
    records [subRecords] lists, and does nothing else. *)
Lemma subPackages_emits (moduleName : string) (repo : Repository)
    (contents : list RepositoryContent) (w : World) :
  subPackages moduleName repo contents w
  = emitPages (subRecords moduleName repo contents) w.
Proof.
  revert w. induction contents as [|content rest IH]; intros w; [reflexivity|].
  cbn [subPackages subRecords].
  destruct (bool_decide (GetType content = "file") && HasSuffix (GetContentName content) ".go").
  - cbn zeta. destruct (bool_decide (Dir (GetPath content) = ".")).
    + rewrite mret_bind. cbn [app]. apply IH.
    + cbn [app emitPages]. apply bind_ext. intros _ w'. apply IH.
  - rewrite mret_bind. cbn [app]. apply IH.
Qed.

(** For a repository that passes the gates, the loop body calls
    [generateHTML] on the records of the expansion, in order, and appends
    the root record to the package list. *)
Lemma processRepo_resolved (client : RepositoriesService) (packages : list PackageInfo)
    (repo : Repository) (moduleName : string) (contents : list RepositoryContent)
    (w : World) :
  resolve client repo = Some (moduleName, contents) →
  processRepo client packages repo w
  = (emitPages (expand moduleName repo contents)
     ;; mret (Returned (packages ++ [rootRecord moduleName repo]))) w.
Proof.
  unfold resolve, processRepo.
  destruct (negb (bool_decide (GetLanguage repo = "Go"))); [discriminate|].
  destruct (GetContents client orgName (GetName repo) "") as [[? listing]|?]; [|discriminate].
  destruct (GetContents client orgName (GetName repo) "go.mod") as [[[modContent|] ?]|?];
    [|discriminate|discriminate].
  destruct (GetContent modContent) as [text|?]; [|discriminate].
  cbn zeta.
  destruct (negb (HasPrefix (parseModuleName text) basePackage)); [discriminate|].
  intros [= <- <-]. unfold expand. cbn [emitPages]. unfold emitPage, rootRecord.
  rewrite !bind_assoc. apply bind_ext. intros err w1.
  apply bind_ext. intros _ w2.
  apply run_eq.
  - reflexivity.
  - by rewrite !world_bind, subPackages_emits.
  - by rewrite !logged_bind, subPackages_emits.
Qed.

(** A repository that passes the gates has a file object for its
    manifest. *)
Lemma resolve_not_nil (client : RepositoriesService) (repo : Repository)
    (moduleName : string) (contents : list RepositoryContent) :
  resolve client repo = Some (moduleName, contents) → nilManifest client repo = false.
Proof.
  unfold resolve, nilManifest.
  destruct (bool_decide (GetLanguage repo = "Go")); [|done]. cbn [negb andb].
  destruct (GetContents client orgName (GetName repo) "") as [[? listing]|?]; [|done].
  by destruct (GetContents client orgName (GetName repo) "go.mod") as [[[modContent|] ?]|?].
Qed.

(** A repository that fails a gate leaves the package list and the world
    as they are. *)
Lemma processRepo_skipped (client : RepositoriesService) (packages : list PackageInfo)
    (repo : Repository) (w : World) :
  resolve client repo = None →
  nilManifest client repo = false →
  value (processRepo client packages repo w) = Returned packages
  ∧ world (processRepo client packages repo w) = w.
Proof.
  unfold resolve, nilManifest, processRepo.
  destruct (bool_decide (GetLanguage repo = "Go")); [|done]. cbn [negb andb].
  destruct (GetContents client orgName (GetName repo) "") as [[? listing]|?]; [|done].
  destruct (GetContents client orgName (GetName repo) "go.mod") as [[[modContent|] ?]|?];
    [|done|done].
  destruct (GetContent modContent) as [text|?]; [|done].
  cbn zeta.
  destruct (negb (HasPrefix (parseModuleName text) basePackage)); [done|discriminate].
Qed.

(** On a repository whose manifest comes without a file object the loop
    body panics, before it has logged or written anything. *)
Lemma processRepo_panicked (client : RepositoriesService) (packages : list PackageInfo)
    (repo : Repository) (w : World) :
  nilManifest client repo = true →
  processRepo client packages repo w = mkRun Panicked w [].
Proof.
  unfold nilManifest, processRepo.
  destruct (bool_decide (GetLanguage repo = "Go")); [|done]. cbn [negb andb].
  destruct (GetContents client orgName (GetName repo) "") as [[? listing]|?]; [|done].
  by destruct (GetContents client orgName (GetName repo) "go.mod") as [[[modContent|] ?]|?].
Qed.

(** The loop body panics on such a repository only. *)
Lemma processRepo_panics_iff (client : RepositoriesService) (packages : list PackageInfo)
    (repo : Repository) (w : World) :
  value (processRepo client packages repo w) = Panicked ↔ nilManifest client repo = true.
Proof.
  split; [|intros Hnil; by rewrite processRepo_panicked].
  destruct (nilManifest client repo) eqn:Hnil; [done|].
  destruct (resolve client repo) as [[moduleName contents]|] eqn:Hres.
  - by rewrite (processRepo_resolved _ _ _ _ _ _ Hres).
  - by rewrite (proj1 (processRepo_skipped _ packages _ w Hres Hnil)).
Qed.

Lemma processRepo_value (client : RepositoriesService) (packages : list PackageInfo)
    (repo : Repository) (w : World) :
  nilManifest client repo = false →
  value (processRepo client packages repo w)
  = Returned (packages ++ option_list (registered client repo)).
Proof.
  intros Hnil. unfold registered.
  destruct (resolve client repo) as [[moduleName contents]|] eqn:Hres.
  - by rewrite (processRepo_resolved _ _ _ _ _ _ Hres).
  - cbn. rewrite app_nil_r. by apply processRepo_skipped.
Qed.

(** When no repository makes the loop body panic, the package list at the
    end of the loop holds the root records of the repositories that pass
    the gates, in the order of the listing, and nothing else. *)
Lemma processRepos_value (client : RepositoriesService) (packages : list PackageInfo)
    (repos : list Repository) (w : World) :
  noNilManifest client repos →
  value (processRepos client packages repos w) = Returned (packages ++ registry client repos).
Proof.
  intros Hrepos. revert packages w.
  induction Hrepos as [|repo rest Hnil _ IH]; intros packages w.
  - cbn. by rewrite app_nil_r.
  - cbn [processRepos]. rewrite value_bind, (processRepo_value _ _ _ _ Hnil), IH.
    unfold registry. cbn [omap list_omap].
    destruct (registered client repo); cbn; by rewrite <- app_assoc.
Qed.

(** The loop ends in a panic exactly when some repository of the listing
    makes the loop body panic. *)
Lemma processRepos_panics_iff (client : RepositoriesService) (packages : list PackageInfo)
    (repos : list Repository) (w : World) :
  value (processRepos client packages repos w) = Panicked
  ↔ Exists (λ repo, nilManifest client repo = true) repos.
Proof.
  revert packages w. induction repos as [|repo rest IH]; intros packages w.
  - cbn. split; [discriminate|]. by intros ?%Exists_nil.
  - cbn [processRepos]. rewrite value_bind, Exists_cons.
    destruct (nilManifest client repo) eqn:Hnil.
    + rewrite (processRepo_panicked _ _ _ _ Hnil). cbn. by split; [left|].
    + rewrite (processRepo_value _ _ _ _ Hnil). rewrite IH.
      split; [by right | by intros [?|?]].
Qed.

End LoopProperties.

Lemma concatStrings_app (l1 l2 : list string) :
  concatStrings (l1 ++ l2) = concatStrings l1 +:+ concatStrings l2.
Proof.
  induction l1 as [|s l1 IH]; [reflexivity|].
  cbn [app concatStrings]. by rewrite IH, append_assoc.
Qed.

Section RunProperties.

Context `{Escapers}.

(** The index page has the item of every record of the package list. *)
Lemma renderIndexPage_lists (packages : list PackageInfo) (pkg : PackageInfo) :
  pkg ∈ packages →
  ∃ pre post, renderIndexPage packages = pre +:+ indexItem pkg +:+ post.
Proof.
  intros (l1 & l2 & ->)%list_elem_of_split.
  exists (indexHead +:+ concatStrings (map indexItem l1)),
         (concatStrings (map indexItem l2) +:+ indexTail).
  unfold renderIndexPage. rewrite map_app, concatStrings_app. cbn [map concatStrings].
  by rewrite !append_assoc.
Qed.

Lemma processRepos_app (client : RepositoriesService) (packages : list PackageInfo)
    (repos1 repos2 : list Repository) (w : World) :
  processRepos client packages (repos1 ++ repos2) w
  = (processRepos client packages repos1
     ≫= λ after,
          match after with
          | Returned packages' => processRepos client packages' repos2
          | Panicked => mret Panicked
          end) w.
Proof.
  revert packages w. induction repos1 as [|repo rest IH]; intros packages w.
  - cbn [app processRepos]. by rewrite mret_bind.
  - cbn [app processRepos]. rewrite bind_assoc. apply bind_ext.
    intros [packages'|] w'; [apply IH | by rewrite mret_bind].
Qed.

Lemma registry_app (client : RepositoriesService) (repos1 repos2 : list Repository) :
  registry client (repos1 ++ repos2) = registry client repos1 ++ registry client repos2.
Proof. unfold registry. apply omap_app. Qed.

Lemma registry_elem (client : RepositoriesService) (repos : list Repository)
    (pkg : PackageInfo) :
  pkg ∈ registry client repos
  ↔ ∃ repo moduleName contents,
      repo ∈ repos ∧ resolve client repo = Some (moduleName, contents)
      ∧ pkg = rootRecord moduleName repo.
Proof.
  unfold registry. rewrite list_elem_of_omap. unfold registered. split.
  - intros (repo & Hin & Hreg).
    destruct (resolve client repo) as [[moduleName contents]|] eqn:Hres; [|discriminate].
    injection Hreg as <-. by exists repo, moduleName, contents.
  - intros (repo & moduleName & contents & Hin & Hres & ->).
    exists repo. by rewrite Hres.
Qed.

(** Either no repository of a listing makes the loop body panic, or there
    is a first one that does. *)
Lemma nilManifest_first (client : RepositoriesService) (repos : list Repository) :
  noNilManifest client repos
  ∨ ∃ before repo after,
      repos = before ++ repo :: after
      ∧ noNilManifest client before ∧ nilManifest client repo = true.
Proof.
  induction repos as [|repo rest IH]; [left; constructor|].
  destruct (nilManifest client repo) eqn:Hnil.
  - right. exists [], repo, rest. split; [reflexivity|]. split; [constructor | exact Hnil].
  - destruct IH as [Hrest|(before & repo' & after & -> & Hbefore & Hnil')].
    + left. by constructor.
    + right. exists (repo :: before), repo', after.
      split; [reflexivity|]. split; [by constructor | exact Hnil'].
Qed.

Lemma noNilManifest_Exists (client : RepositoriesService) (repos : list Repository) :
  noNilManifest client repos →
  ¬ Exists (λ repo, nilManifest client repo = true) repos.
Proof.
  intros Hnone (repo & Hin & Hnil)%Exists_exists.
  unfold noNilManifest in Hnone. rewrite Forall_forall in Hnone.
  specialize (Hnone repo Hin). congruence.
Qed.

(** The loop stops at the first repository that makes its body panic:
    the repositories after it are not processed. *)
Lemma processRepos_panicked (client : RepositoriesService) (packages : list PackageInfo)
    (before after : list Repository) (repo : Repository) (w : World) :
  noNilManifest client before →
  nilManifest client repo = true →
  let reached := processRepos client packages before w in
  value (processRepos client packages (before ++ repo :: after) w) = Panicked
  ∧ world (processRepos client packages (before ++ repo :: after) w) = world reached
  ∧ logged (processRepos client packages (before ++ repo :: after) w) = logged reached.
Proof.
  intros Hbefore Hnil reached. rewrite processRepos_app.
  rewrite value_bind, world_bind, logged_bind. unfold reached.
  rewrite (processRepos_value _ _ _ _ Hbefore).
  cbn [processRepos]. rewrite value_bind, world_bind, logged_bind.
  rewrite (processRepo_panicked _ _ _ _ Hnil). cbn [value world logged].
  split; [reflexivity|]. split; [reflexivity|]. by rewrite !app_nil_r.
Qed.

(** A loop that returns has met no repository that makes its body panic,
    and returns the root records of the repositories that pass the
    gates. *)
Lemma processRepos_returned (client : RepositoriesService) (packages final : list PackageInfo)
    (repos : list Repository) (w : World) :
  value (processRepos client packages repos w) = Returned final →
  noNilManifest client repos ∧ final = packages ++ registry client repos.
Proof.
  intros Hfinal.
  destruct (nilManifest_first client repos)
    as [Hrepos|(before & repo & after & -> & Hbefore & Hnil)].
  - split; [exact Hrepos|]. rewrite (processRepos_value _ _ _ _ Hrepos) in Hfinal.
    by injection Hfinal.
  - destruct (processRepos_panicked client packages before after repo w Hbefore Hnil)
      as (Hpanic & _). congruence.
Qed.

(** A run with a token and a listing in which no repository makes the
    loop body panic completes: it processes every repository, generates
    the index page from the package list and exits with status 0. *)
Lemma main_completes (env : Env) (repos : list Repository) (w : World) :
  Getenv env "GITHUB_TOKEN" ≠ "" →
  ListByOrg (Repositories env) orgName = Ok repos →
  noNilManifest (Repositories env) repos →
  let client := Repositories env in
  value (main env w) = 0%nat
  ∧ world (main env w)
    = world (generateIndexHTML (registry client repos)
               (world (processRepos client [] repos w))).
Proof.
  intros Htoken Hlist Hrepos client. unfold main.
  rewrite bool_decide_eq_false_2 by exact Htoken. rewrite Hlist.
  rewrite value_bind, world_bind. fold client.
  rewrite (processRepos_value _ _ _ _ Hrepos). cbn [app].
  split; [reflexivity|].
  rewrite !world_bind.
  by destruct (value (generateIndexHTML _ _)).
Qed.

(** A run in whose listing a repository makes the loop body panic ends
    there, with exit status 2: the repositories after it are not
    processed and the index page is not generated. *)
Lemma main_panics (env : Env) (before after : list Repository) (repo : Repository)
    (w : World) :
  let client := Repositories env in
  Getenv env "GITHUB_TOKEN" ≠ "" →
  ListByOrg client orgName = Ok (before ++ repo :: after) →
  noNilManifest client before →
  nilManifest client repo = true →
  value (main env w) = 2%nat
  ∧ world (main env w) = world (processRepos client [] before w)
  ∧ logged (main env w) = logged (processRepos client [] before w).
Proof.
  intros client Htoken Hlist Hbefore Hnil. unfold main.
  rewrite bool_decide_eq_false_2 by exact Htoken. fold client. rewrite Hlist.
  rewrite value_bind, world_bind, logged_bind.
  destruct (processRepos_panicked client [] before after repo w Hbefore Hnil)
    as (-> & -> & ->).
  cbn [value world logged mret M_ret]. by rewrite app_nil_r.
Qed.

(** C7: what ends a run, and how.  The run exits with status 1, having
    done nothing, exactly when the token is absent or the listing call
    fails.  It exits with status 2, by a panic, exactly when the token is
    there, the listing call succeeds and some repository of the listing
    has the language [Go], a root directory that is listed and a [go.mod]
    that is answered without a file object: the run then ends at the
    first such repository, the repositories after it are not processed
    and the index page is not generated.  In every other case, whatever
    the answers of the client and the faults of the operating system, it
    goes through all the repositories, generates the index page and exits
    with status 0. *)
Theorem main_exit_status (env : Env) (w : World) :
  let client := Repositories env in
  let status := value (main env w) in
  (status = 1%nat
   ↔ Getenv env "GITHUB_TOKEN" = "" ∨ ∃ e, ListByOrg client orgName = Err e)
  ∧ (status = 2%nat
     ↔ Getenv env "GITHUB_TOKEN" ≠ ""
       ∧ ∃ repos, ListByOrg client orgName = Ok repos
                  ∧ Exists (λ repo, nilManifest client repo = true) repos)
  ∧ (status = 0%nat
     ↔ Getenv env "GITHUB_TOKEN" ≠ ""
       ∧ ∃ repos, ListByOrg client orgName = Ok repos ∧ noNilManifest client repos)
  ∧ (status = 1%nat ∧ world (main env w) = w
     ∨ status = 2%nat
       ∧ (∃ before repo after,
             ListByOrg client orgName = Ok (before ++ repo :: after)
             ∧ noNilManifest client before
             ∧ nilManifest client repo = true
             ∧ world (main env w) = world (processRepos client [] before w))
     ∨ status = 0%nat
       ∧ ∃ repos,
           ListByOrg client orgName = Ok repos
           ∧ world (main env w)
             = world (generateIndexHTML (registry client repos)
                        (world (processRepos client [] repos w)))).
Proof.
  intros client status.
  destruct (decide (Getenv env "GITHUB_TOKEN" = "")) as [Htoken|Htoken].
  { assert (Hrun : main env w = logFatal "GITHUB_TOKEN environment variable is required" w).
    { unfold main. by rewrite bool_decide_eq_true_2 by exact Htoken. }
    unfold status. rewrite Hrun. cbn.
    split; [split; [by left | done]|].
    split; [split; [discriminate | by intros [? _]]|].
    split; [split; [discriminate | by intros [? _]]|].
    by left. }
  destruct (ListByOrg client orgName) as [repos|e] eqn:Hlist.
  2: { assert (Hrun : main env w = logFatal ("Error listing repositories: " +:+ e) w).
       { unfold main. rewrite bool_decide_eq_false_2 by exact Htoken.
         fold client. by rewrite Hlist. }
       unfold status. rewrite Hrun. cbn.
       split; [split; [intros _; right; by exists e | done]|].
       split; [split; [discriminate | by intros [_ (? & ? & _)]]|].
       split; [split; [discriminate | by intros [_ (? & ? & _)]]|].
       by left. }
  destruct (nilManifest_first client repos)
    as [Hrepos|(before & repo & after & -> & Hbefore & Hnil)].
  - destruct (main_completes env repos w Htoken Hlist Hrepos) as [Hstatus Hworld].
    unfold status. rewrite Hstatus.
    split; [split; [discriminate | by intros [?|[? ?]]]|].
    split.
    { split; [discriminate|]. intros [_ (repos' & [= <-] & Hsome)].
      by apply noNilManifest_Exists in Hrepos. }
    split; [split; [intros _; split; [done | by exists repos] | done]|].
    right. right. split; [reflexivity|]. by exists repos.
  - destruct (main_panics env before after repo w Htoken Hlist Hbefore Hnil)
      as (Hstatus & Hworld & _).
    assert (Hsome : Exists (λ repo, nilManifest client repo = true) (before ++ repo :: after)).
    { apply Exists_app. right. by apply Exists_cons_hd. }
    unfold status. rewrite Hstatus.
    split; [split; [discriminate | by intros [?|[? ?]]]|].
    split; [split; [intros _; split; [done | by eexists] | done]|].
    split.
    { split; [discriminate|]. intros [_ (repos' & [= <-] & Hnone)].
      by apply noNilManifest_Exists in Hnone. }
    right. left. split; [reflexivity|]. by exists before, repo, after.
Qed.

(** C1, as the code has it: for a repository that passes the gates the
    loop body generates an import page for every record of the path
    expansion, the root record and the records of the subdirectories, but
    appends the root record alone to the package list.  In a run that no
    panic ends, the package list at the end of the loop is the list of the
    root records of the repositories that pass the gates, and the index
    page, when it is written, is rendered from it: it has the item of the
    root import path of every such repository, and items of root records
    only. *)
Theorem registry_holds_root_records
    (env : Env) (repos : list Repository) (repo : Repository)
    (moduleName : string) (contents : list RepositoryContent) (w : World) :
  let client := Repositories env in
  let root := rootRecord moduleName repo in
  let final := processRepos client [] repos w in
  let packages := registry client repos in
  Getenv env "GITHUB_TOKEN" ≠ "" →
  ListByOrg client orgName = Ok repos →
  noNilManifest client repos →
  repo ∈ repos →
  resolve client repo = Some (moduleName, contents) →
  value (generateIndexHTML packages (world final)) = None →
  (∀ packages' w',
      processRepo client packages' repo w'
      = (emitPages (expand moduleName repo contents)
         ;; mret (Returned (packages' ++ [root]))) w')
  ∧ value final = Returned packages
  ∧ root ∈ packages
  ∧ (∀ pkg, pkg ∈ packages →
        ∃ repo' moduleName' contents',
          repo' ∈ repos ∧ resolve client repo' = Some (moduleName', contents')
          ∧ pkg = rootRecord moduleName' repo')
  ∧ fs (world (main env w)) !! "public/index.html"
    = Some (File (renderIndexPage packages))
  ∧ ∃ pre post, renderIndexPage packages = pre +:+ indexItem root +:+ post.
Proof.
  intros client root final packages Htoken Hlist Hrepos Hin Hres Hindex.
  assert (Hfinal : value final = Returned packages).
  { unfold final. by rewrite (processRepos_value _ _ _ _ Hrepos). }
  assert (Hroot : root ∈ packages).
  { apply registry_elem. by exists repo, moduleName, contents. }
  split; [|split; [|split; [|split; [|split]]]].
  - intros packages' w'. by apply processRepo_resolved.
  - exact Hfinal.
  - exact Hroot.
  - intros pkg Hpkg. by apply registry_elem.
  - destruct (main_completes env repos w Htoken Hlist Hrepos) as [_ ->].
    by apply generateIndexHTML_ok.
  - by apply renderIndexPage_lists.
Qed.

(** C2, as the code has it: the package list is not kept unique.  The
    loop body appends the root record of a repository that passes the gates
    at the end of the list, whether or not the list has a record with its
    import path: the list grows by one, the records it held stay where they
    were, and the number of its records with that import path grows by one.
    No error is raised. *)
Theorem registry_insert_appends
    (client : RepositoriesService) (packages : list PackageInfo) (repo : Repository)
    (moduleName : string) (contents : list RepositoryContent) (w : World) :
  resolve client repo = Some (moduleName, contents) →
  let packages' := packages ++ [rootRecord moduleName repo] in
  let sameImportPath := λ pkg : PackageInfo, ImportPath pkg = moduleName in
  value (processRepo client packages repo w) = Returned packages'
  ∧ length packages' = S (length packages)
  ∧ (∀ i, (i < length packages)%nat → packages' !! i = packages !! i)
  ∧ packages' !! length packages = Some (rootRecord moduleName repo)
  ∧ length (filter sameImportPath packages') = S (length (filter sameImportPath packages)).
Proof.
  intros Hres packages' sameImportPath.
  split; [by rewrite (processRepo_resolved _ _ _ _ _ _ Hres)|].
  unfold packages'. repeat split.
  - rewrite length_app. cbn. lia.
  - intros i Hi. by apply lookup_app_l.
  - by rewrite list_lookup_middle.
  - rewrite filter_app, length_app.
    rewrite filter_cons_True by reflexivity. cbn. lia.
Qed.

End RunProperties.

(** ** Path expansion *)

Lemma isSubPackageFile_iff (content : RepositoryContent) :
  isSubPackageFile content = true
  ↔ GetType content = "file"
    ∧ HasSuffix (GetContentName content) ".go" = true
    ∧ Dir (GetPath content) ≠ ".".
Proof.
  unfold isSubPackageFile.
  rewrite !andb_true_iff, negb_true_iff, bool_decide_eq_true, bool_decide_eq_false.
  tauto.
Qed.

Lemma subRecords_filter (moduleName : string) (repo : Repository)
    (contents : list RepositoryContent) :
  subRecords moduleName repo contents
  = subRecord moduleName repo <$> filter isSubPackageFile contents.
Proof.
  induction contents as [|content rest IH]; [reflexivity|].
  cbn [subRecords]. rewrite IH, filter_cons.
  assert (Hsub : isSubPackageFile content
                 = bool_decide (GetType content = "file")
                   && HasSuffix (GetContentName content) ".go"
                   && negb (bool_decide (Dir (GetPath content) = "."))) by reflexivity.
  destruct (bool_decide (GetType content = "file") && HasSuffix (GetContentName content) ".go");
    cbn zeta; [destruct (bool_decide (Dir (GetPath content) = "."))|].
  all: cbn in Hsub.
  all: destruct (decide (isSubPackageFile content)) as [Hdec|Hdec]; rewrite Hsub in Hdec.
  all: try done.
  all: exfalso; apply Hdec; exact I.
Qed.

Lemma remove_dups_map_length {A B} `{EqDecision A, EqDecision B} (f : A → B) (l : list A) :
  (length (remove_dups (f <$> l)) ≤ length (remove_dups l))%nat.
Proof.
  rewrite <- (length_fmap f (remove_dups l)).
  apply submseteq_length, NoDup_submseteq; [apply NoDup_remove_dups|].
  intros y Hy. rewrite elem_of_remove_dups in Hy.
  apply list_elem_of_fmap in Hy as (x & -> & Hx).
  apply list_elem_of_fmap. exists x. by rewrite elem_of_remove_dups.
Qed.

(** No subdirectory record of entries with paths of names has the module
    identifier for import path. *)
Lemma subRecords_plain_differ (id : string) (repo : Repository)
    (contents : list RepositoryContent) :
  filter (λ pkg, ImportPath pkg = id)
    (subRecords id repo (filter (λ content, isPlainPath (GetPath content)) contents))
  = [].
Proof.
  induction contents as [|content rest IH]; [reflexivity|].
  rewrite filter_cons. destruct (decide (isPlainPath (GetPath content))) as [Hplain|]; [|exact IH].
  cbn [subRecords].
  destruct (bool_decide (GetType content = "file") && HasSuffix (GetContentName content) ".go");
    [|exact IH].
  cbn zeta. case_bool_decide as Hdir; [exact IH|].
  cbn [app]. rewrite filter_cons_False; [exact IH|].
  cbn [ImportPath]. apply Join_plain_differs.
  apply Is_true_true in Hplain. by destruct (Dir_plain _ Hplain).
Qed.

(** C3, as the code has it: the path expansion of a repository starts
    with the one root record, whose import path is the module identifier
    whatever the files are, followed by one record for every entry of the
    listing of type [file] whose name ends in [.go] and whose directory is
    not the root [.]: the record of the import path joined from the
    identifier and that directory, with the URL and the description of the
    repository.  The entries at the root add no record, and two Go files
    of one subdirectory yield the same record, hence one distinct import
    path: the distinct import paths of the subdirectory records are no
    more than the distinct directories.  The root record is the only
    record with the import path of the module among those of the entries
    whose paths are made of names; an entry with a leading slash or a
    [..] element can add a second one. *)
Theorem expand_root_and_subdirectories
    (id : string) (repo : Repository) (contents : list RepositoryContent)
    (file1 file2 : RepositoryContent) :
  isSubPackageFile file1 = true →
  isSubPackageFile file2 = true →
  Dir (GetPath file1) = Dir (GetPath file2) →
  let root := mkPackageInfo id (GetHTMLURL repo) (GetDescription repo) in
  let subdirectory := λ content : RepositoryContent,
    mkPackageInfo (Join [id; Dir (GetPath content)]) (GetHTMLURL repo) (GetDescription repo) in
  expand id repo contents = root :: (subdirectory <$> filter isSubPackageFile contents)
  ∧ ImportPath root = id
  ∧ (∀ pkg,
        pkg ∈ expand id repo contents
        ↔ pkg = root
          ∨ ∃ content,
              content ∈ contents
              ∧ GetType content = "file"
              ∧ HasSuffix (GetContentName content) ".go" = true
              ∧ Dir (GetPath content) ≠ "."
              ∧ pkg = subdirectory content)
  ∧ expand id repo (filter (λ content, Dir (GetPath content) = ".") contents) = [root]
  ∧ expand id repo [file1; file2] = [root; subdirectory file1; subdirectory file1]
  ∧ remove_dups (ImportPath <$> (subdirectory <$> [file1; file2]))
    = [Join [id; Dir (GetPath file1)]]
  ∧ (length (remove_dups (ImportPath <$> (subdirectory <$> filter isSubPackageFile contents)))
     ≤ length (remove_dups ((λ content, Dir (GetPath content))
                              <$> filter isSubPackageFile contents)))%nat
  ∧ filter (λ pkg, ImportPath pkg = id)
      (expand id repo (filter (λ content, isPlainPath (GetPath content)) contents))
    = [root].
Proof.
  intros Hfile1 Hfile2 Hdir root subdirectory.
  assert (Hexpand : ∀ cs,
             expand id repo cs = root :: (subdirectory <$> filter isSubPackageFile cs)).
  { intros cs. unfold expand. by rewrite subRecords_filter. }
  split; [apply Hexpand|]. split; [reflexivity|]. split; [|split; [|split; [|split; [|split]]]].
  - intros pkg. rewrite Hexpand, elem_of_cons, list_elem_of_fmap.
    split; (intros [->|(content & Hpkg & Hcontent)]; [by left | right]).
    + apply list_elem_of_filter in Hcontent as [Hsub Hin].
      apply Is_true_true, isSubPackageFile_iff in Hsub as (? & ? & ?).
      by exists content.
    + destruct Hcontent as (? & ? & ? & ->). exists content. split; [reflexivity|].
      apply list_elem_of_filter. split; [|done].
      apply Is_true_true, isSubPackageFile_iff. done.
  - rewrite Hexpand. f_equal.
    induction contents as [|content rest IH]; [reflexivity|].
    rewrite (filter_cons (λ content, Dir (GetPath content) = ".")).
    destruct (decide (Dir (GetPath content) = ".")) as [Hroot|Hroot]; [|exact IH].
    rewrite filter_cons_False; [exact IH|].
    intros Hsub%Is_true_true%isSubPackageFile_iff. tauto.
  - rewrite Hexpand.
    rewrite !filter_cons_True by (by apply Is_true_true). rewrite filter_nil.
    cbn [fmap list_fmap]. unfold subdirectory. by rewrite Hdir.
  - cbn [fmap list_fmap]. unfold subdirectory. cbn [ImportPath]. rewrite Hdir.
    cbn [remove_dups].
    destruct (decide_rel elem_of _ [_]) as [_|Hout];
      [|exfalso; apply Hout, list_elem_of_here].
    destruct (decide_rel elem_of _ []) as [Hin|_]; [|reflexivity].
    by apply not_elem_of_nil in Hin.
  - rewrite <- list_fmap_compose.
    change (ImportPath ∘ subdirectory)
      with ((λ dir, Join [id; dir]) ∘ (λ content, Dir (GetPath content))).
    rewrite list_fmap_compose.
    apply remove_dups_map_length.
  - unfold expand. rewrite filter_cons_True by reflexivity. f_equal.
    apply subRecords_plain_differ.
Qed.

(** ** The inclusion gate and the skipped repositories *)

Lemma resolve_gate (client : RepositoriesService) (repo : Repository) :
  (∃ moduleName contents, resolve client repo = Some (moduleName, contents))
  ↔ GetLanguage repo = "Go"
    ∧ (∃ root contents, GetContents client orgName (GetName repo) "" = Ok (root, contents))
    ∧ (∃ modContent listing text,
          GetContents client orgName (GetName repo) "go.mod" = Ok (Some modContent, listing)
          ∧ GetContent modContent = Ok text
          ∧ HasPrefix (parseModuleName text) basePackage = true).
Proof.
  unfold resolve.
  destruct (decide (GetLanguage repo = "Go")) as [Hgo|Hgo].
  2: { rewrite bool_decide_eq_false_2 by exact Hgo. cbn [negb].
       split; [intros (? & ? & ?); discriminate | tauto]. }
  rewrite bool_decide_eq_true_2 by exact Hgo. cbn [negb].
  destruct (GetContents client orgName (GetName repo) "") as [[root contents]|e].
  2: { split; [intros (? & ? & ?); discriminate|].
       intros (_ & (? & ? & ?) & _). discriminate. }
  destruct (GetContents client orgName (GetName repo) "go.mod")
    as [[[modContent|] listing]|e].
  2,3: split; [intros (? & ? & ?); discriminate|];
       intros (_ & _ & (? & ? & ? & ? & _)); discriminate.
  destruct (GetContent modContent) as [text|e] eqn:Htext.
  2: { split; [intros (? & ? & ?); discriminate|].
       intros (_ & _ & (? & ? & ? & [= <- <-] & ? & _)). congruence. }
  cbn zeta.
  destruct (HasPrefix (parseModuleName text) basePackage) eqn:Hprefix; cbn [negb].
  - split; [|by eauto]. intros _. split; [done|]. split; [by eauto|].
    by exists modContent, listing, text.
  - split; [intros (? & ? & ?); discriminate|].
    intros (_ & _ & (? & ? & ? & [= <- <-] & ? & ?)). congruence.
Qed.

Lemma resolve_None (client : RepositoriesService) (repo : Repository) :
  resolve client repo = None
  ↔ ¬ ∃ moduleName contents, resolve client repo = Some (moduleName, contents).
Proof.
  destruct (resolve client repo) as [[moduleName contents]|].
  - split; [discriminate|]. intros Hnot. exfalso. apply Hnot. eauto.
  - split; [|done]. intros _ (? & ? & ?). discriminate.
Qed.

Lemma nilManifest_true (client : RepositoriesService) (repo : Repository) :
  nilManifest client repo = true
  ↔ GetLanguage repo = "Go"
    ∧ (∃ root contents, GetContents client orgName (GetName repo) "" = Ok (root, contents))
    ∧ (∃ listing, GetContents client orgName (GetName repo) "go.mod" = Ok (None, listing)).
Proof.
  unfold nilManifest.
  destruct (decide (GetLanguage repo = "Go")) as [Hgo|Hgo].
  2: { rewrite bool_decide_eq_false_2 by exact Hgo. cbn [andb].
       split; [discriminate | tauto]. }
  rewrite bool_decide_eq_true_2 by exact Hgo. cbn [andb].
  destruct (GetContents client orgName (GetName repo) "") as [[root contents]|e].
  2: { split; [discriminate|]. intros (_ & (? & ? & ?) & _). discriminate. }
  destruct (GetContents client orgName (GetName repo) "go.mod")
    as [[[modContent|] listing]|e].
  - split; [discriminate|]. intros (_ & _ & (? & ?)). discriminate.
  - split; [|done]. intros _. split; [done|]. split; by eauto.
  - split; [discriminate|]. intros (_ & _ & (? & ?)). discriminate.
Qed.

Section GateProperties.

Context `{Escapers}.

(** C5, as the code has it: a repository adds a record exactly when its
    language is [Go], its root directory is listed without error, its
    manifest is fetched and decoded without error, and the module
    identifier of the manifest starts with the base package; a repository
    that fails one of these adds nothing and leaves the world as it is.
    The base package itself and every text that starts with it pass the
    prefix check, the empty identifier does not, and a repository excluded
    by the prefix check is excluded without a line in the log. *)
Theorem inclusion_gate
    (client : RepositoriesService) (packages : list PackageInfo) (repo : Repository)
    (w : World) :
  let run := processRepo client packages repo w in
  ((∃ pkg, value run = Returned (packages ++ [pkg]))
   ↔ GetLanguage repo = "Go"
     ∧ (∃ root contents, GetContents client orgName (GetName repo) "" = Ok (root, contents))
     ∧ (∃ modContent listing text,
           GetContents client orgName (GetName repo) "go.mod" = Ok (Some modContent, listing)
           ∧ GetContent modContent = Ok text
           ∧ HasPrefix (parseModuleName text) basePackage = true))
  ∧ ((∃ pkg, value run = Returned (packages ++ [pkg]))
     ∨ (value run = Returned packages ∧ world run = w)
     ∨ (value run = Panicked ∧ world run = w))
  ∧ HasPrefix basePackage basePackage = true
  ∧ (∀ rest, HasPrefix (basePackage +:+ rest) basePackage = true)
  ∧ HasPrefix "" basePackage = false
  ∧ (∀ root contents modContent listing text,
        GetLanguage repo = "Go" →
        GetContents client orgName (GetName repo) "" = Ok (root, contents) →
        GetContents client orgName (GetName repo) "go.mod" = Ok (Some modContent, listing) →
        GetContent modContent = Ok text →
        HasPrefix (parseModuleName text) basePackage = false →
        run = mkRun (Returned packages) w []).
Proof.
  intros run.
  assert (Hcases : (∃ moduleName contents,
                       resolve client repo = Some (moduleName, contents)
                       ∧ value run = Returned (packages ++ [rootRecord moduleName repo]))
                   ∨ (resolve client repo = None
                      ∧ (value run = Returned packages ∨ value run = Panicked)
                      ∧ world run = w)).
  { destruct (resolve client repo) as [[moduleName contents]|] eqn:Hres.
    - left. exists moduleName, contents. split; [reflexivity|].
      unfold run. by rewrite (processRepo_resolved _ _ _ _ _ _ Hres).
    - right. split; [reflexivity|]. unfold run.
      destruct (nilManifest client repo) eqn:Hnil.
      + rewrite (processRepo_panicked _ _ _ _ Hnil). by split; [right|].
      + destruct (processRepo_skipped _ packages _ w Hres Hnil) as [-> ->].
        by split; [left|]. }
  split; [|split; [|split; [|split; [|split]]]].
  - rewrite <- resolve_gate. split.
    + intros [pkg Hpkg].
      destruct Hcases as [(m & c & Hres & _)|(_ & [Hsame|Hpanic] & _)]; [by eauto| |].
      * rewrite Hsame in Hpkg. injection Hpkg as Hpkg. apply (f_equal length) in Hpkg.
        rewrite length_app in Hpkg. cbn in Hpkg. lia.
      * rewrite Hpanic in Hpkg. discriminate.
    + intros (m & c & Hres). destruct Hcases as [(m' & c' & _ & Hval)|(Hnone & _)]; [by eauto|].
      congruence.
  - destruct Hcases as [(m & c & _ & Hval)|(_ & [Hsame|Hpanic] & Hworld)];
      [left; by eauto | right; by left | right; by right].
  - reflexivity.
  - intros rest. apply HasPrefix_app.
  - reflexivity.
  - intros root contents modContent listing text Hgo Hroot Hmod Htext Hprefix.
    unfold run, processRepo.
    rewrite bool_decide_eq_true_2 by exact Hgo. cbn [negb].
    rewrite Hroot, Hmod, Htext. cbn zeta. by rewrite Hprefix.
Qed.

Lemma processRepos_skip (client : RepositoriesService) (packages : list PackageInfo)
    (before after : list Repository) (repo : Repository) (w : World) :
  resolve client repo = None →
  nilManifest client repo = false →
  value (processRepos client packages (before ++ repo :: after) w)
  = value (processRepos client packages (before ++ after) w)
  ∧ world (processRepos client packages (before ++ repo :: after) w)
    = world (processRepos client packages (before ++ after) w).
Proof.
  intros Hres Hnil. rewrite !processRepos_app.
  rewrite !value_bind, !world_bind.
  destruct (value (processRepos client packages before w)) as [reached|]; [|done].
  cbn [processRepos]. rewrite !value_bind, !world_bind.
  by destruct (processRepo_skipped client reached repo
                 (world (processRepos client packages before w)) Hres Hnil) as [-> ->].
Qed.

(** The loop reads the client through [GetContents] only. *)
Lemma resolve_client (client1 client2 : RepositoriesService) (repo : Repository) :
  GetContents client1 = GetContents client2 →
  resolve client1 repo = resolve client2 repo.
Proof. intros Hsame. unfold resolve. by rewrite Hsame. Qed.

Lemma nilManifest_client (client1 client2 : RepositoriesService) (repo : Repository) :
  GetContents client1 = GetContents client2 →
  nilManifest client1 repo = nilManifest client2 repo.
Proof. intros Hsame. unfold nilManifest. by rewrite Hsame. Qed.

Lemma noNilManifest_client (client1 client2 : RepositoriesService) (repos : list Repository) :
  GetContents client1 = GetContents client2 →
  noNilManifest client1 repos → noNilManifest client2 repos.
Proof.
  intros Hsame Hnone. eapply Forall_impl; [exact Hnone|]. intros repo. cbn beta.
  by rewrite (nilManifest_client _ _ _ Hsame).
Qed.

Lemma registry_client (client1 client2 : RepositoriesService) (repos : list Repository) :
  GetContents client1 = GetContents client2 →
  registry client1 repos = registry client2 repos.
Proof.
  intros Hsame. unfold registry, registered.
  induction repos as [|repo rest IH]; [reflexivity|].
  cbn [omap list_omap]. by rewrite IH, (resolve_client _ _ _ Hsame).
Qed.

Lemma processRepos_client (client1 client2 : RepositoriesService)
    (packages : list PackageInfo) (repos : list Repository) (w : World) :
  GetContents client1 = GetContents client2 →
  processRepos client1 packages repos w = processRepos client2 packages repos w.
Proof.
  intros Hsame. revert packages w.
  induction repos as [|repo rest IH]; intros packages w; [reflexivity|].
  cbn [processRepos].
  assert (Hbody : processRepo client1 packages repo = processRepo client2 packages repo).
  { unfold processRepo. by rewrite Hsame. }
  rewrite Hbody. apply bind_ext. intros [packages'|] w'; [apply IH | reflexivity].
Qed.

(** What [main] does once it has the listing. *)
Lemma main_listed (env : Env) (repos : list Repository) (w : World) :
  Getenv env "GITHUB_TOKEN" ≠ "" →
  main (withListing env repos) w
  = (after ← processRepos (Repositories env) [] repos;
     match after with
     | Panicked => mret 2%nat
     | Returned packages =>
         err ← generateIndexHTML packages;
         match err with
         | Some err => logPrintf ("Error generating index HTML: " +:+ err)
         | None => mret ()
         end ;;
         mret 0%nat
     end) w.
Proof.
  intros Htoken. unfold main.
  change (Getenv (withListing env repos)) with (Getenv env).
  rewrite bool_decide_eq_false_2 by exact Htoken.
  change (ListByOrg (Repositories (withListing env repos)) orgName) with (Ok repos).
  apply bind_ext_run. by apply processRepos_client.
Qed.

Lemma unusable_manifest_resolve (client : RepositoriesService) (repo : Repository) :
  (∃ e, GetContents client orgName (GetName repo) "go.mod" = Err e)
  ∨ (∃ modContent listing e,
        GetContents client orgName (GetName repo) "go.mod" = Ok (Some modContent, listing)
        ∧ GetContent modContent = Err e)
  ∨ (∃ modContent listing text,
        GetContents client orgName (GetName repo) "go.mod" = Ok (Some modContent, listing)
        ∧ GetContent modContent = Ok text
        ∧ HasPrefix (parseModuleName text) basePackage = false) →
  resolve client repo = None ∧ nilManifest client repo = false.
Proof.
  intros Hbad. split.
  - apply resolve_None. rewrite resolve_gate.
    intros (_ & _ & (modContent & listing & text & Hmod & Htext & Hprefix)).
    destruct Hbad as [[e He]|[(? & ? & e & Hmod' & He)|(? & ? & ? & Hmod' & Htext' & Hno)]];
      congruence.
  - apply not_true_is_false. rewrite nilManifest_true.
    intros (_ & _ & (listing & Hnil)).
    destruct Hbad as [[e He]|[(? & ? & e & Hmod' & He)|(? & ? & ? & Hmod' & Htext' & Hno)]];
      congruence.
Qed.

(** A repository whose manifest cannot be fetched, whose manifest is a
    file object that does not decode, or whose manifest names a module
    outside the base package adds no record and no page: the loop body
    leaves the package list and the world as they are, and the run with
    that repository in the listing exits with the status of the run
    without it and leaves the same world, hence the same index page. *)
Lemma unusable_manifest_skips
    (env : Env) (before after : list Repository) (repo : Repository) (w : World) :
  let client := Repositories env in
  let present := main (withListing env (before ++ repo :: after)) w in
  let absent := main (withListing env (before ++ after)) w in
  Getenv env "GITHUB_TOKEN" ≠ "" →
  (∃ e, GetContents client orgName (GetName repo) "go.mod" = Err e)
  ∨ (∃ modContent listing e,
        GetContents client orgName (GetName repo) "go.mod" = Ok (Some modContent, listing)
        ∧ GetContent modContent = Err e)
  ∨ (∃ modContent listing text,
        GetContents client orgName (GetName repo) "go.mod" = Ok (Some modContent, listing)
        ∧ GetContent modContent = Ok text
        ∧ HasPrefix (parseModuleName text) basePackage = false) →
  (∀ packages w',
      value (processRepo client packages repo w') = Returned packages
      ∧ world (processRepo client packages repo w') = w')
  ∧ registered client repo = None
  ∧ registry client (before ++ repo :: after) = registry client (before ++ after)
  ∧ value present = value absent
  ∧ world present = world absent
  ∧ fs (world present) !! "public/index.html" = fs (world absent) !! "public/index.html".
Proof.
  intros client present absent Htoken Hbad.
  apply unusable_manifest_resolve in Hbad as [Hres Hnil].
  assert (Hregistry : registry client (before ++ repo :: after)
                      = registry client (before ++ after)).
  { rewrite !registry_app. unfold registry at 2. cbn [omap list_omap].
    unfold registered. by rewrite Hres. }
  destruct (processRepos_skip client [] before after repo w Hres Hnil) as [Hvalue Hworld].
  assert (Hrun : value present = value absent ∧ world present = world absent).
  { unfold present, absent. rewrite !main_listed by exact Htoken.
    rewrite !value_bind, !world_bind. fold client. by rewrite Hvalue, Hworld. }
  split; [intros packages w'; by apply processRepo_skipped|].
  split; [unfold registered; by rewrite Hres|].
  split; [exact Hregistry|].
  split; [apply Hrun|].
  split; [apply Hrun | by rewrite (proj2 Hrun)].
Qed.

(** C6: a repository in which [go.mod] is a directory is not skipped.
    The request for its manifest succeeds without a file object, the loop
    body calls [GetContent] through the nil pointer, and the run panics:
    it exits with status 2 at that repository, where the run without the
    repository exits with status 0; the repositories listed after it are
    not processed and the index page is not generated. *)
Theorem nil_manifest_aborts_run
    (env : Env) (before after : list Repository) (repo : Repository) (w : World) :
  let client := Repositories env in
  let present := main (withListing env (before ++ repo :: after)) w in
  let absent := main (withListing env (before ++ after)) w in
  Getenv env "GITHUB_TOKEN" ≠ "" →
  noNilManifest client before →
  noNilManifest client after →
  GetLanguage repo = "Go" →
  (∃ root contents, GetContents client orgName (GetName repo) "" = Ok (root, contents)) →
  (∃ listing, GetContents client orgName (GetName repo) "go.mod" = Ok (None, listing)) →
  (∀ packages w', processRepo client packages repo w' = mkRun Panicked w' [])
  ∧ value present = 2%nat
  ∧ world present = world (processRepos client [] before w)
  ∧ value absent = 0%nat
  ∧ world absent
    = world (generateIndexHTML (registry client (before ++ after))
               (world (processRepos client [] (before ++ after) w))).
Proof.
  intros client present absent Htoken Hbefore Hafter Hgo Hroot Hmod.
  assert (Hnil : nilManifest client repo = true).
  { apply nilManifest_true. by split; [|split]. }
  split; [intros packages w'; by apply processRepo_panicked|].
  assert (Hpresent : value present = 2%nat
                     ∧ world present = world (processRepos client [] before w)).
  { destruct (main_panics (withListing env (before ++ repo :: after)) before after repo w)
      as (Hstatus & Hworld & _); [exact Htoken | reflexivity | exact Hbefore | exact Hnil |].
    split; [exact Hstatus|]. unfold present. rewrite Hworld.
    by rewrite (processRepos_client _ client) by reflexivity. }
  assert (Habsent : noNilManifest client (before ++ after)).
  { by apply Forall_app. }
  destruct (main_completes (withListing env (before ++ after)) (before ++ after) w)
    as [Hstatus Hworld]; [exact Htoken | reflexivity | exact Habsent |].
  split; [apply Hpresent|]. split; [apply Hpresent|]. split; [exact Hstatus|].
  unfold absent. rewrite Hworld.
  rewrite (registry_client _ client) by reflexivity.
  by rewrite (processRepos_client _ client) by reflexivity.
Qed.

End GateProperties.

(** ** Failures of the import page *)

Section FailureProperties.

Context `{Escapers}.

Lemma emitPage_failed (pkg : PackageInfo) (w : World) (e : string) :
  value (generateHTML pkg w) = Some e →
  ("Error generating HTML for " +:+ ImportPath pkg +:+ ": " +:+ e) ∈ logged (emitPage pkg w).
Proof.
  intros Hfail. unfold emitPage. rewrite logged_bind, Hfail.
  apply elem_of_app. right. apply list_elem_of_here.
Qed.

Lemma contains_prefix (s sub : string) : HasPrefix s sub = true → contains s sub = true.
Proof. intros Hpre. destruct s; cbn [contains]; by rewrite Hpre. Qed.

Lemma contains_here (s rest : string) : contains (s +:+ rest) s = true.
Proof. apply contains_prefix, HasPrefix_app. Qed.

Lemma contains_later (pre s sub : string) :
  contains s sub = true → contains (pre +:+ s) sub = true.
Proof.
  intros Hsub. induction pre as [|c pre IH]; [exact Hsub|].
  change (contains (String c (pre +:+ s)) sub = true).
  cbn [contains]. rewrite IH. apply orb_true_r.
Qed.

Lemma contains_middle (pre s post : string) : contains (pre +:+ s +:+ post) s = true.
Proof. apply contains_later, contains_here. Qed.

Lemma contains_inner (pre s post sub : string) :
  contains s sub = true → contains (pre +:+ s +:+ post) sub = true.
Proof.
  intros Hsub. apply contains_later. clear pre.
  induction s as [|c s IH].
  - destruct sub as [|d sub]; [by destruct post | discriminate].
  - change (contains (String c (s +:+ post)) sub = true).
    cbn [contains] in *. apply orb_true_iff in Hsub as [Hpre|Hsub].
    + apply HasPrefix_split in Hpre.
      change (String c (s +:+ post)) with (String c s +:+ post).
      rewrite Hpre, append_assoc, HasPrefix_app. reflexivity.
    + rewrite (IH Hsub). apply orb_true_r.
Qed.

(** The item of a record on the index page shows the record: it has the
    link to the repository, labelled with the import path, and the
    [go get] command for the import path. *)
Lemma indexItem_shows (pkg : PackageInfo) :
  contains (indexItem pkg)
    ("<h3><a href=" +:+ dq +:+ hrefescaper (RepoURL pkg) +:+ dq +:+ ">"
     +:+ htmlescaper (ImportPath pkg) +:+ "</a></h3>") = true
  ∧ contains (indexItem pkg)
      ("<p><code>go get " +:+ htmlescaper (ImportPath pkg) +:+ "</code></p>") = true.
Proof.
  set (link := "<h3><a href=" +:+ dq +:+ hrefescaper (RepoURL pkg) +:+ dq +:+ ">"
               +:+ htmlescaper (ImportPath pkg) +:+ "</a></h3>").
  set (command := "<p><code>go get " +:+ htmlescaper (ImportPath pkg) +:+ "</code></p>").
  set (opening := nl +:+ "        <div class=" +:+ dq +:+ "package-item" +:+ dq +:+ ">" +:+ nl
                  +:+ "            ").
  set (between := nl +:+ "            " +:+ indexDescription pkg +:+ nl +:+ "            ").
  set (closing := nl +:+ "        </div>" +:+ nl +:+ "        ").
  assert (Hitem : indexItem pkg = opening +:+ link +:+ between +:+ command +:+ closing).
  { unfold indexItem, opening, link, between, command, closing.
    generalize (indexDescription pkg), (hrefescaper (RepoURL pkg)),
      (htmlescaper (ImportPath pkg)).
    intros description href text. cbn [JoinStrings].
    rewrite !append_assoc. vm_compute. reflexivity. }
  split.
  - rewrite Hitem. apply contains_middle.
  - rewrite Hitem.
    replace (opening +:+ link +:+ between +:+ command +:+ closing)
      with ((opening +:+ link +:+ between) +:+ command +:+ closing)
      by (by rewrite !append_assoc).
    apply contains_middle.
Qed.

(** The index page shows every record of the package list. *)
Lemma renderIndexPage_shows (packages : list PackageInfo) (pkg : PackageInfo) :
  pkg ∈ packages →
  contains (renderIndexPage packages)
    ("<h3><a href=" +:+ dq +:+ hrefescaper (RepoURL pkg) +:+ dq +:+ ">"
     +:+ htmlescaper (ImportPath pkg) +:+ "</a></h3>") = true
  ∧ contains (renderIndexPage packages)
      ("<p><code>go get " +:+ htmlescaper (ImportPath pkg) +:+ "</code></p>") = true.
Proof.
  intros (pre & post & ->)%renderIndexPage_lists.
  destruct (indexItem_shows pkg) as [Hlink Hcommand].
  split; by apply contains_inner.
Qed.

(** C9, as the code has it: the root record of a repository that passes
    the gates is in the package list whatever becomes of its import page.
    When [generateHTML] fails on the root record, the loop body still
    appends the record, the error goes to the log and the run completes
    with status 0; and when the index page is written, it is the page of
    a package list that holds the record, and it shows the record: the
    link to the repository under the import path, and the [go get]
    command. *)
Theorem failed_page_keeps_record
    (env : Env) (before after : list Repository) (repo : Repository)
    (moduleName : string) (contents : list RepositoryContent) (w : World) (e : string) :
  let client := Repositories env in
  let repos := before ++ repo :: after in
  let root := rootRecord moduleName repo in
  let reached := processRepos client [] before w in
  let final := processRepos client [] repos w in
  let packages := registry client repos in
  Getenv env "GITHUB_TOKEN" ≠ "" →
  ListByOrg client orgName = Ok repos →
  noNilManifest client repos →
  resolve client repo = Some (moduleName, contents) →
  value (generateHTML root (world reached)) = Some e →
  value (generateIndexHTML packages (world final)) = None →
  value reached = Returned (registry client before)
  ∧ value (processRepo client (registry client before) repo (world reached))
    = Returned (registry client before ++ [root])
  ∧ value final = Returned packages
  ∧ root ∈ packages
  ∧ ("Error generating HTML for " +:+ moduleName +:+ ": " +:+ e) ∈ logged (main env w)
  ∧ value (main env w) = 0%nat
  ∧ fs (world (main env w)) !! "public/index.html" = Some (File (renderIndexPage packages))
  ∧ contains (renderIndexPage packages)
      ("<h3><a href=" +:+ dq +:+ hrefescaper (GetHTMLURL repo) +:+ dq +:+ ">"
       +:+ htmlescaper moduleName +:+ "</a></h3>") = true
  ∧ contains (renderIndexPage packages)
      ("<p><code>go get " +:+ htmlescaper moduleName +:+ "</code></p>") = true.
Proof.
  intros client repos root reached final packages Htoken Hlist Hrepos Hres Hfail Hindex.
  assert (Hbefore : noNilManifest client before).
  { by apply Forall_app in Hrepos as [? _]. }
  assert (Hreached : value reached = Returned (registry client before)).
  { unfold reached. by rewrite (processRepos_value _ _ _ _ Hbefore). }
  assert (Hfinal : value final = Returned packages).
  { unfold final. by rewrite (processRepos_value _ _ _ _ Hrepos). }
  assert (Hroot : root ∈ packages).
  { apply registry_elem. exists repo, moduleName, contents.
    split; [|done]. apply elem_of_app. right. apply list_elem_of_here. }
  destruct (main_completes env _ w Htoken Hlist Hrepos) as [Hstatus Hworld].
  destruct (renderIndexPage_shows packages root Hroot) as [Hlink Hcommand].
  split; [exact Hreached|].
  split; [by rewrite (processRepo_resolved _ _ _ _ _ _ Hres)|].
  split; [exact Hfinal|]. split; [exact Hroot|].
  split.
  { unfold main. rewrite bool_decide_eq_false_2 by exact Htoken.
    fold client. rewrite Hlist. rewrite logged_bind.
    apply elem_of_app. left. fold repos. unfold repos.
    rewrite processRepos_app, logged_bind. apply elem_of_app. right.
    fold reached. rewrite Hreached.
    cbn [processRepos]. rewrite logged_bind. apply elem_of_app. left.
    rewrite (processRepo_resolved _ _ _ _ _ _ Hres).
    rewrite logged_bind. apply elem_of_app. left.
    unfold expand. cbn [emitPages]. rewrite logged_bind. apply elem_of_app. left.
    by apply (emitPage_failed root). }
  split; [exact Hstatus|].
  split; [rewrite Hworld; by apply generateIndexHTML_ok|].
  split; [exact Hlink | exact Hcommand].
Qed.

End FailureProperties.

(** * Further properties of the generator *)

(** ** Paths of names *)

Lemma JoinStrings_String (c : ascii) (field : string) (fields : list string) (sep : string) :
  JoinStrings (String c field :: fields) sep = String c (JoinStrings (field :: fields) sep).
Proof. by destruct fields. Qed.

(** Splitting a text at a byte and joining the fields with that byte gives
    the text back. *)
Lemma JoinStrings_Split (s : string) (sep : ascii) :
  JoinStrings (Split s sep) (String sep "") = s.
Proof.
  induction s as [|c s IH]; [reflexivity|].
  rewrite Split_cons. pose proof (Split_nonempty s sep) as Hne.
  destruct (Ascii.eqb c sep) eqn:Hc.
  - apply Ascii.eqb_eq in Hc as ->.
    destruct (Split s sep) as [|field fields] eqn:Hsplit; [done|].
    rewrite JoinStrings_cons, IH. reflexivity.
  - destruct (Split s sep) as [|field fields] eqn:Hsplit; [done|].
    by rewrite JoinStrings_String, IH.
Qed.

Lemma isPlainPath_rooted (path : string) :
  isPlainPath path = true → HasPrefix path "/" = false.
Proof.
  intros Hplain%isPlainPath_elems.
  destruct (HasPrefix path "/") eqn:Hprefix; [|reflexivity].
  apply HasPrefix_slash_Split in Hprefix as [rest Hrest].
  rewrite Hrest in Hplain. by inversion Hplain.
Qed.

Lemma isPlainPath_nonempty (path : string) : isPlainPath path = true → path ≠ "".
Proof. by intros Hplain ->. Qed.

(** [filepath.Clean] leaves a path of names as it is. *)
Lemma Clean_plain (path : string) : isPlainPath path = true → Clean path = path.
Proof.
  intros Hplain. unfold Clean.
  rewrite (isPlainPath_rooted _ Hplain).
  rewrite (foldl_cleanStep_plain _ _ _ (isPlainPath_elems _ Hplain)), app_nil_r, rev_involutive.
  pose proof (JoinStrings_Split path slash) as Hjoin.
  change (String slash "") with "/" in Hjoin. rewrite Hjoin.
  by rewrite bool_decide_eq_false_2 by (by apply isPlainPath_nonempty).
Qed.

Lemma isPlainPath_append (path1 path2 : string) :
  isPlainPath path1 = true → isPlainPath path2 = true →
  isPlainPath (path1 +:+ "/" +:+ path2) = true.
Proof.
  intros H1 H2. unfold isPlainPath in *.
  change (path1 +:+ "/" +:+ path2) with (path1 +:+ String slash path2).
  by rewrite Split_append, forallb_app, H1, H2.
Qed.

(** [filepath.Join] of two paths of names puts a slash between them. *)
Lemma Join_plain (path1 path2 : string) :
  isPlainPath path1 = true → isPlainPath path2 = true →
  Join [path1; path2] = path1 +:+ "/" +:+ path2.
Proof.
  intros H1 H2. cbn [Join].
  rewrite bool_decide_eq_false_2 by (by apply isPlainPath_nonempty).
  rewrite JoinStrings_cons. cbn [JoinStrings].
  by apply Clean_plain, isPlainPath_append.
Qed.

Lemma Split_last_field (dir file : string) :
  containsByte slash file = false →
  Split (dir +:+ "/" +:+ file) slash = Split dir slash ++ [file].
Proof.
  intros Hfile. change (dir +:+ "/" +:+ file) with (dir +:+ String slash file).
  by rewrite Split_append, (Split_field _ _ Hfile).
Qed.

(** [filepath.Dir] of a file in a directory with a path of names is that
    directory. *)
Lemma Dir_file (dir file : string) :
  isPlainPath dir = true → containsByte slash file = false →
  Dir (dir +:+ "/" +:+ file) = dir.
Proof.
  intros Hdir Hfile. unfold Dir, Clean.
  pose proof (uptoLastSlash_Split (dir +:+ "/" +:+ file)) as Hsplit.
  rewrite (Split_last_field _ _ Hfile), removelast_last in Hsplit.
  assert (Hrooted : HasPrefix (uptoLastSlash (dir +:+ "/" +:+ file)) "/" = false).
  { destruct (HasPrefix _ "/") eqn:Hprefix; [|reflexivity].
    apply HasPrefix_slash_Split in Hprefix as [rest Hrest]. rewrite Hsplit in Hrest.
    pose proof (isPlainPath_elems _ Hdir) as Helems.
    pose proof (Split_nonempty dir slash) as Hne.
    destruct (Split dir slash) as [|elem elems]; [done|].
    injection Hrest as -> _. by inversion Helems. }
  rewrite Hrooted, Hsplit, foldl_app.
  rewrite (foldl_cleanStep_plain _ _ _ (isPlainPath_elems _ Hdir)), app_nil_r.
  cbn [foldl]. change (cleanStep false ?out "") with out. rewrite rev_involutive.
  pose proof (JoinStrings_Split dir slash) as Hjoin.
  change (String slash "") with "/" in Hjoin. rewrite Hjoin.
  by rewrite bool_decide_eq_false_2 by (by apply isPlainPath_nonempty).
Qed.

Lemma append_inj_r (s1 s2 suffix : string) : s1 +:+ suffix = s2 +:+ suffix → s1 = s2.
Proof.
  intros Heq. apply (f_equal String.rev) in Heq. rewrite !string_rev_append in Heq.
  apply String.app_inj in Heq. apply (f_equal String.rev) in Heq.
  by rewrite !string_rev_involutive in Heq.
Qed.

Lemma isPlainPath_public : isPlainPath "public" = true.
Proof. vm_compute. reflexivity. Qed.

Lemma isPlainPath_index : isPlainPath "index.html" = true.
Proof. vm_compute. reflexivity. Qed.

(** The file of the import page of a package whose path below the base
    domain is a path of names. *)
Lemma pagePath_plain (pkg : PackageInfo) :
  let rel := TrimPrefix (ImportPath pkg) (baseDomain +:+ "/") in
  isPlainPath rel = true →
  pagePath pkg = "public/" +:+ rel +:+ "/index.html".
Proof.
  intros rel Hrel. unfold pagePath. fold rel.
  rewrite (Join_plain "public" rel isPlainPath_public Hrel).
  rewrite Join_plain; [|by apply isPlainPath_append, Hrel|exact isPlainPath_index].
  by rewrite !append_assoc.
Qed.

(** A [..] right below the base domain takes the directory of the import
    page, and the import page, out of [public]. *)
Lemma dirPath_parent (rel : string) :
  isPlainPath rel = true → Join ["public"; "../" +:+ rel] = rel.
Proof.
  intros Hrel. cbn [Join]. rewrite bool_decide_eq_false_2 by done.
  rewrite JoinStrings_cons. cbn [JoinStrings]. unfold Clean.
  assert (Hrooted : HasPrefix ("public" +:+ "/" +:+ "../" +:+ rel) "/" = false) by reflexivity.
  rewrite Hrooted.
  change ("public" +:+ "/" +:+ "../" +:+ rel)
    with ("public" +:+ String slash (".." +:+ String slash rel)).
  rewrite !Split_append, !foldl_app.
  change (foldl (cleanStep false) (foldl (cleanStep false) [] (Split "public" slash))
            (Split ".." slash)) with (@nil string).
  rewrite (foldl_cleanStep_plain _ _ _ (isPlainPath_elems _ Hrel)), app_nil_r, rev_involutive.
  pose proof (JoinStrings_Split rel slash) as Hjoin.
  change (String slash "") with "/" in Hjoin. rewrite Hjoin.
  by rewrite bool_decide_eq_false_2 by (by apply isPlainPath_nonempty).
Qed.

Lemma pagePath_parent (pkg : PackageInfo) (rel : string) :
  ImportPath pkg = baseDomain +:+ "/../" +:+ rel →
  isPlainPath rel = true →
  pagePath pkg = rel +:+ "/index.html".
Proof.
  intros Hpath Hrel. unfold pagePath. rewrite Hpath.
  change (baseDomain +:+ "/../" +:+ rel) with ((baseDomain +:+ "/") +:+ ("../" +:+ rel)).
  rewrite TrimPrefix_append, (dirPath_parent rel Hrel).
  by apply Join_plain, isPlainPath_index.
Qed.

Section PageLocation.

Context `{Escapers}.

(** X1: the import page of a package lies in [public], at the path of the
    package below the base domain: a call of [generateHTML] that succeeds
    on an import path [pkg.blksails.net/<rel>], [<rel>] a path of names,
    leaves the document in [public/<rel>/index.html].  An import path that
    does not start with the base domain and a slash is not shortened: its
    page lies at [public/<import path>/index.html]. *)
Theorem import_page_location (pkg : PackageInfo) (w : World) :
  let rel := TrimPrefix (ImportPath pkg) (baseDomain +:+ "/") in
  isPlainPath rel = true →
  value (generateHTML pkg w) = None →
  fs (world (generateHTML pkg w)) !! ("public/" +:+ rel +:+ "/index.html")
  = Some (File (renderImportPage pkg))
  ∧ (∀ below, ImportPath pkg = baseDomain +:+ "/" +:+ below → rel = below)
  ∧ (HasPrefix (ImportPath pkg) (baseDomain +:+ "/") = false → rel = ImportPath pkg).
Proof.
  intros rel Hrel Hok. split; [|split].
  - pose proof (generateHTML_ok pkg w Hok) as Hpage.
    by rewrite (pagePath_plain pkg Hrel) in Hpage.
  - intros below Hpath. unfold rel. rewrite Hpath.
    change (baseDomain +:+ "/" +:+ below) with ((baseDomain +:+ "/") +:+ below).
    apply TrimPrefix_append.
  - intros Hprefix. unfold rel, TrimPrefix. by rewrite Hprefix.
Qed.

End PageLocation.

(** X3: the record of a Go file in a subdirectory: for a module identifier and
    a directory that are paths of names, the import path is the identifier,
    a slash and the directory, and the expansion of the one entry is the
    root record and that record. *)
Theorem subdirectory_import_path
    (id dir file : string) (repo : Repository) (content : RepositoryContent) :
  isPlainPath id = true →
  isPlainPath dir = true →
  containsByte slash file = false →
  GetType content = "file" →
  HasSuffix (GetContentName content) ".go" = true →
  GetPath content = dir +:+ "/" +:+ file →
  Dir (GetPath content) = dir
  ∧ Join [id; dir] = id +:+ "/" +:+ dir
  ∧ expand id repo [content]
    = [ mkPackageInfo id (GetHTMLURL repo) (GetDescription repo);
        mkPackageInfo (id +:+ "/" +:+ dir) (GetHTMLURL repo) (GetDescription repo) ].
Proof.
  intros Hid Hdir Hfile Htype Hname Hpath.
  assert (Hparent : Dir (GetPath content) = dir) by (rewrite Hpath; by apply Dir_file).
  assert (Hjoin : Join [id; dir] = id +:+ "/" +:+ dir) by (by apply Join_plain).
  split; [exact Hparent|]. split; [exact Hjoin|].
  unfold expand. cbn [subRecords].
  rewrite bool_decide_eq_true_2 by exact Htype. rewrite Hname. cbn [andb].
  rewrite Hparent, Hjoin.
  rewrite bool_decide_eq_false_2; [reflexivity|].
  intros ->. discriminate.
Qed.

(** ** What the file operations leave alone *)

Lemma keepsTree_refl (pages : list string) (tree : gmap string node) :
  keepsTree pages tree tree.
Proof. intros path. split; [done|]. intros content Hfile. split; [by exists content | done]. Qed.

Lemma keepsTree_trans (pages1 pages2 : list string) (t1 t2 t3 : gmap string node) :
  keepsTree pages1 t1 t2 → keepsTree pages2 t2 t3 → keepsTree (pages1 ++ pages2) t1 t3.
Proof.
  intros H12 H23 path. destruct (H12 path) as [Hdir12 Hfile12], (H23 path) as [Hdir23 Hfile23].
  split; [by auto|]. intros content Hfile.
  destruct (Hfile12 content Hfile) as [[content' Hfile'] Hsame12].
  destruct (Hfile23 content' Hfile') as [Hsome _]. split; [exact Hsome|].
  intros Hout. rewrite not_elem_of_app in Hout. destruct Hout as [Hout1 Hout2].
  by apply (Hfile23 content (Hsame12 Hout1)).
Qed.

Lemma keepsTree_weaken (pages pages' : list string) (t1 t2 : gmap string node) :
  pages ⊆ pages' → keepsTree pages t1 t2 → keepsTree pages' t1 t2.
Proof.
  intros Hsub Hkeeps path. destruct (Hkeeps path) as [Hdir Hfile]. split; [done|].
  intros content Hcontent. destruct (Hfile content Hcontent) as [Hsome Hsame].
  split; [done|]. intros Hout. apply Hsame. intros Hin. by apply Hout, Hsub.
Qed.

Lemma keepsTree_insert_dir (tree : gmap string node) (dir : string) :
  (∀ content, tree !! dir ≠ Some (File content)) →
  keepsTree [] tree (<[dir := Directory]> tree).
Proof.
  intros Hnofile path. destruct (decide (dir = path)) as [<-|Hne].
  - split; [intros _; apply lookup_insert_eq|]. intros content Hfile. by destruct (Hnofile content).
  - rewrite lookup_insert_ne by done. apply keepsTree_refl.
Qed.

Lemma keepsTree_insert_file (tree : gmap string node) (name content : string) :
  tree !! name ≠ Some Directory →
  keepsTree [name] tree (<[name := File content]> tree).
Proof.
  intros Hnodir path. destruct (decide (name = path)) as [<-|Hne].
  - split; [done|]. intros old _. split; [exists content; apply lookup_insert_eq|].
    intros Hout. destruct Hout. apply list_elem_of_here.
  - rewrite lookup_insert_ne by done. apply (keepsTree_refl [name]).
Qed.

Lemma mkdirs_keeps (dirs : list string) (tree tree' : gmap string node) :
  mkdirs dirs tree = Ok tree' → keepsTree [] tree tree'.
Proof.
  revert tree. induction dirs as [|dir dirs IH]; intros tree.
  - intros [= <-]. apply keepsTree_refl.
  - cbn [mkdirs]. intros Hrest.
    assert (Hstep : keepsTree [] tree (<[dir := Directory]> tree)
                    ∧ mkdirs dirs (<[dir := Directory]> tree) = Ok tree').
    { destruct (tree !! dir) as [[|content]|] eqn:Hdir; [| discriminate |].
      - split; [|done]. apply keepsTree_insert_dir. intros content. by rewrite Hdir.
      - split; [|done]. apply keepsTree_insert_dir. intros content. by rewrite Hdir. }
    destruct Hstep as [Hfirst Hrest'].
    apply (keepsTree_trans [] [] _ _ _ Hfirst). by apply IH.
Qed.

Lemma MkdirAll_keeps (path : string) (w : World) :
  keepsTree [] (fs w) (fs (world (MkdirAll path w))).
Proof.
  unfold MkdirAll, nextFault, getTree, putTree, mbind, M_bind, mret, M_ret.
  destruct (faults w) as [|[n|] rest]; cbn [value world fs]; try apply keepsTree_refl.
  all: destruct (mkdirs _ (fs w)) as [tree'|e] eqn:Hmk; cbn [value world fs];
    [by apply (mkdirs_keeps _ _ _ Hmk) | apply keepsTree_refl].
Qed.

Lemma Create_keeps (name : string) (w : World) :
  keepsTree [name] (fs w) (fs (world (Create name w))).
Proof.
  unfold Create, nextFault, getTree, putTree, mbind, M_bind, mret, M_ret.
  destruct (faults w) as [|[n|] rest]; cbn [value world fs]; try apply keepsTree_refl.
  all: destruct (negb (isDirectory _ _)); cbn [value world fs]; try apply keepsTree_refl.
  all: destruct (fs w !! name) as [[|content]|] eqn:Hname; cbn [value world fs];
    try apply keepsTree_refl.
  all: apply keepsTree_insert_file; by rewrite Hname.
Qed.

Lemma Write_keeps (f data : string) (w : World) :
  fs w !! f ≠ Some Directory →
  keepsTree [f] (fs w) (fs (world (Write f data w))).
Proof.
  intros Hnodir.
  unfold Write, nextFault, getTree, putTree, mbind, M_bind, mret, M_ret.
  destruct (faults w) as [|[n|] rest]; cbn [value world fs].
  all: by apply keepsTree_insert_file.
Qed.

Section TreeProperties.

Context `{Escapers}.

Lemma generateHTML_keeps (pkg : PackageInfo) (w : World) :
  keepsTree [pagePath pkg] (fs w) (fs (world (generateHTML pkg w))).
Proof.
  unfold generateHTML, pagePath.
  set (dirPath := Join ["public"; _]). set (name := Join [dirPath; "index.html"]).
  rewrite world_bind.
  apply (keepsTree_trans [] [name] _ _ _ (MkdirAll_keeps dirPath w)).
  destruct (value (MkdirAll dirPath w)) as [e|]; [apply keepsTree_refl|].
  set (w1 := world (MkdirAll dirPath w)).
  rewrite world_bind.
  pose proof (Create_keeps name w1) as Hcreate.
  destruct (value (Create name w1)) as [f|e] eqn:Hf; [|exact Hcreate].
  apply Create_ok in Hf as [-> Hempty].
  apply (keepsTree_weaken ([name] ++ [name])); [by intros path [?|?]%elem_of_app|].
  apply (keepsTree_trans [name] [name] _ _ _ Hcreate).
  rewrite world_bind.
  assert (Hwrite : keepsTree [name] (fs (world (Create name w1)))
                     (fs (world (Write name (renderImportPage pkg) (world (Create name w1)))))).
  { apply Write_keeps. by rewrite Hempty. }
  by destruct (value (Write name _ _)).
Qed.

Lemma generateIndexHTML_keeps (packages : list PackageInfo) (w : World) :
  keepsTree ["public/index.html"] (fs w) (fs (world (generateIndexHTML packages w))).
Proof.
  unfold generateIndexHTML. rewrite world_bind.
  pose proof (Create_keeps "public/index.html" w) as Hcreate.
  destruct (value (Create "public/index.html" w)) as [f|e] eqn:Hf; [|exact Hcreate].
  apply Create_ok in Hf as [-> Hempty].
  apply (keepsTree_weaken (["public/index.html"] ++ ["public/index.html"]));
    [by intros path [?|?]%elem_of_app|].
  apply (keepsTree_trans _ _ _ _ _ Hcreate).
  rewrite world_bind.
  assert (Hwrite : keepsTree ["public/index.html"] (fs (world (Create "public/index.html" w)))
                     (fs (world (Write "public/index.html" (renderIndexPage packages)
                                   (world (Create "public/index.html" w)))))).
  { apply Write_keeps. by rewrite Hempty. }
  by destruct (value (Write "public/index.html" _ _)).
Qed.

Lemma emitPages_keeps (pkgs : list PackageInfo) (w : World) :
  keepsTree (pagePath <$> pkgs) (fs w) (fs (world (emitPages pkgs w))).
Proof.
  revert w. induction pkgs as [|pkg pkgs IH]; intros w; [apply keepsTree_refl|].
  cbn [emitPages]. rewrite world_bind.
  change (pagePath <$> pkg :: pkgs) with ([pagePath pkg] ++ (pagePath <$> pkgs)).
  eapply keepsTree_trans; [|apply IH].
  unfold emitPage. rewrite world_bind.
  pose proof (generateHTML_keeps pkg w) as Hpage.
  by destruct (value (generateHTML pkg w)).
Qed.

Lemma processRepo_keeps (client : RepositoriesService) (packages : list PackageInfo)
    (repo : Repository) (w : World) :
  keepsTree (pagePath <$> emitted client repo) (fs w)
    (fs (world (processRepo client packages repo w))).
Proof.
  unfold emitted. destruct (resolve client repo) as [[moduleName contents]|] eqn:Hres.
  - rewrite (processRepo_resolved _ _ _ _ _ _ Hres), world_bind. apply emitPages_keeps.
  - destruct (nilManifest client repo) eqn:Hnil.
    + rewrite (processRepo_panicked _ _ _ _ Hnil). apply keepsTree_refl.
    + destruct (processRepo_skipped client packages repo w Hres Hnil) as [_ ->].
      apply keepsTree_refl.
Qed.

Lemma processRepos_keeps (client : RepositoriesService) (packages : list PackageInfo)
    (repos : list Repository) (w : World) :
  keepsTree (writtenPages client repos) (fs w)
    (fs (world (processRepos client packages repos w))).
Proof.
  unfold writtenPages. revert packages w.
  induction repos as [|repo repos IH]; intros packages w; [apply keepsTree_refl|].
  cbn [processRepos fmap list_fmap concat]. rewrite world_bind, fmap_app.
  eapply keepsTree_trans; [apply processRepo_keeps|].
  destruct (value (processRepo client packages repo w)) as [packages'|]; [apply IH|].
  apply (keepsTree_weaken []); [by intros path ?%elem_of_nil | apply keepsTree_refl].
Qed.

(** X7: a run never removes a file or a directory and never turns one into
    the other, and the only regular files whose content it may change are
    the index page and the import pages of the records it expands: every
    other file, the page of an earlier run for a package that is gone
    among them, is left as it was.  When the listing call fails, no file
    that was there changes. *)
Theorem main_keeps_other_files (env : Env) (w : World) :
  let client := Repositories env in
  let pages :=
    match ListByOrg client orgName with
    | Ok repos => writtenPages client repos ++ ["public/index.html"]
    | Err _ => []
    end in
  ∀ path,
    (fs w !! path = Some Directory → fs (world (main env w)) !! path = Some Directory)
    ∧ (∀ content, fs w !! path = Some (File content) →
         (∃ content', fs (world (main env w)) !! path = Some (File content'))
         ∧ (path ∉ pages → fs (world (main env w)) !! path = Some (File content))).
Proof.
  intros client pages.
  change (keepsTree pages (fs w) (fs (world (main env w)))).
  unfold main, pages. fold client.
  destruct (bool_decide (Getenv env "GITHUB_TOKEN" = "")).
  { apply (keepsTree_weaken []); [by intros path ?%elem_of_nil | apply keepsTree_refl]. }
  destruct (ListByOrg client orgName) as [repos|e]; [|apply keepsTree_refl].
  rewrite world_bind.
  eapply keepsTree_trans; [apply processRepos_keeps|].
  destruct (value (processRepos client [] repos w)) as [packages|].
  - rewrite !world_bind.
    pose proof (generateIndexHTML_keeps packages
                  (world (processRepos client [] repos w))) as Hindex.
    by destruct (value (generateIndexHTML _ _)).
  - apply (keepsTree_weaken []); [by intros path ?%elem_of_nil | apply keepsTree_refl].
Qed.

End TreeProperties.

(** ** What a page leaves alone *)

Lemma mkdirs_frame (dirs : list string) (tree tree' : gmap string node) (path : string) :
  mkdirs dirs tree = Ok tree' → path ∉ dirs → tree' !! path = tree !! path.
Proof.
  revert tree. induction dirs as [|d dirs IH]; intros tree Hmk Hout; [by injection Hmk as <-|].
  apply not_elem_of_cons in Hout as [Hd Hout]. cbn [mkdirs] in Hmk.
  assert (Hrest : mkdirs dirs (<[d := Directory]> tree) = Ok tree').
  { by destruct (tree !! d) as [[|content]|]. }
  rewrite (IH _ Hrest Hout). by apply lookup_insert_ne.
Qed.

Lemma MkdirAll_frame (dir : string) (w : World) (path : string) :
  path ∉ leadingDirs "" (Split dir slash) →
  fs (world (MkdirAll dir w)) !! path = fs w !! path.
Proof.
  intros Hout.
  unfold MkdirAll, nextFault, getTree, putTree, mbind, M_bind, mret, M_ret.
  destruct (faults w) as [|[n|] rest]; cbn [value world fs]; try reflexivity.
  all: destruct (mkdirs _ (fs w)) as [tree'|e] eqn:Hmk; cbn [value world fs];
    [by apply (mkdirs_frame _ _ _ _ Hmk) | reflexivity].
Qed.

Lemma Create_frame (name : string) (w : World) (path : string) :
  path ≠ name → fs (world (Create name w)) !! path = fs w !! path.
Proof.
  intros Hother.
  unfold Create, nextFault, getTree, putTree, mbind, M_bind, mret, M_ret.
  destruct (faults w) as [|[n|] rest]; cbn [value world fs]; try reflexivity.
  all: destruct (negb (isDirectory (fs w) (Dir name))); cbn [value world fs];
    [reflexivity|].
  all: destruct (fs w !! name) as [[|content]|]; cbn [value world fs]; try reflexivity.
  all: by apply lookup_insert_ne.
Qed.

Lemma Write_frame (f data : string) (w : World) (path : string) :
  path ≠ f → fs (world (Write f data w)) !! path = fs w !! path.
Proof.
  intros Hother.
  unfold Write, nextFault, getTree, putTree, mbind, M_bind, mret, M_ret.
  destruct (faults w) as [|[n|] rest]; cbn [value world fs]; by apply lookup_insert_ne.
Qed.

(** The directories [os.MkdirAll] walks start with the first element of
    the path. *)
Lemma leadingDirs_prefix (done : string) (elems : list string) (d : string) :
  d ∈ leadingDirs done elems → HasPrefix d done = true.
Proof.
  revert done. induction elems as [|e elems IH]; intros done Hd; [by apply elem_of_nil in Hd|].
  cbn [leadingDirs] in Hd. apply elem_of_app in Hd as [Hd|Hd].
  - case_bool_decide; [by apply elem_of_nil in Hd|].
    apply list_elem_of_singleton in Hd as ->. apply HasPrefix_app.
  - apply IH, HasPrefix_split in Hd. rewrite Hd, !append_assoc. apply HasPrefix_app.
Qed.

Lemma Split_head_append (s rest : string) :
  hd "" (Split (s +:+ "/" +:+ rest) slash) = hd "" (Split s slash).
Proof.
  change (s +:+ "/" +:+ rest) with (s +:+ String slash rest). rewrite Split_append.
  pose proof (Split_nonempty s slash). by destruct (Split s slash).
Qed.

Lemma leadingDirs_head (path d : string) :
  d ∈ leadingDirs "" (Split path slash) →
  hd "" (Split d slash) = hd "" (Split path slash).
Proof.
  pose proof (Split_no_sep path slash) as Hfields.
  destruct (Split path slash) as [|e elems]; [by intros ?%elem_of_nil|].
  apply Forall_cons in Hfields as [He _].
  cbn [leadingDirs hd]. intros [Hd|Hd]%elem_of_app.
  - case_bool_decide; [by apply elem_of_nil in Hd|].
    apply list_elem_of_singleton in Hd as ->. change ("" +:+ e) with e.
    by rewrite (Split_field _ _ He).
  - apply leadingDirs_prefix, HasPrefix_split in Hd. rewrite Hd.
    change ("" +:+ e +:+ "/") with (e +:+ "/"). rewrite append_assoc.
    by rewrite Split_head_append, (Split_field _ _ He).
Qed.

Section OutsidePublic.

Context `{Escapers}.

(** A call of [generateHTML] touches the directories on the way to the
    page and the page, and nothing else. *)
Lemma generateHTML_frame (pkg : PackageInfo) (w : World) (path : string) :
  let dirPath := Join ["public"; TrimPrefix (ImportPath pkg) (baseDomain +:+ "/")] in
  path ∉ leadingDirs "" (Split dirPath slash) →
  path ≠ pagePath pkg →
  fs (world (generateHTML pkg w)) !! path = fs w !! path.
Proof.
  intros dirPath Hdirs Hpage. unfold generateHTML. fold dirPath.
  change (Join [dirPath; "index.html"]) with (pagePath pkg).
  rewrite world_bind.
  pose proof (MkdirAll_frame dirPath w path Hdirs) as Hmk.
  destruct (value (MkdirAll dirPath w)) as [e|]; [exact Hmk|].
  rewrite world_bind.
  pose proof (Create_frame (pagePath pkg) (world (MkdirAll dirPath w)) path Hpage) as Hcreate.
  destruct (value (Create (pagePath pkg) (world (MkdirAll dirPath w)))) as [f|e] eqn:Hf;
    [|exact (eq_trans Hcreate Hmk)].
  apply Create_ok in Hf as [-> _].
  rewrite world_bind.
  pose proof (Write_frame (pagePath pkg) (renderImportPage pkg)
                (world (Create (pagePath pkg) (world (MkdirAll dirPath w)))) path Hpage)
    as Hwrite.
  destruct (value (Write (pagePath pkg) _ _)); exact (eq_trans Hwrite (eq_trans Hcreate Hmk)).
Qed.

(** X2: a module identifier with a [..] element right below the base domain
    passes the prefix check of the inclusion gate, and [generateHTML]
    writes its page outside [public]: for [pkg.blksails.net/../<rel>],
    [<rel>] a path of names that does not start with the name [public],
    the document goes to [<rel>/index.html], a path that does not start
    with [public] either, and neither [public] nor anything below it is
    made or changed. *)
Theorem import_page_outside_public (pkg : PackageInfo) (rel : string) (w : World) :
  ImportPath pkg = baseDomain +:+ "/../" +:+ rel →
  isPlainPath rel = true →
  hd "" (Split rel slash) ≠ "public" →
  value (generateHTML pkg w) = None →
  HasPrefix (ImportPath pkg) basePackage = true
  ∧ fs (world (generateHTML pkg w)) !! (rel +:+ "/index.html")
    = Some (File (renderImportPage pkg))
  ∧ hd "" (Split (rel +:+ "/index.html") slash) ≠ "public"
  ∧ (∀ path,
        hd "" (Split path slash) = "public" →
        fs (world (generateHTML pkg w)) !! path = fs w !! path).
Proof.
  intros Hpath Hrel Hfirst Hok.
  pose proof (pagePath_parent pkg rel Hpath Hrel) as Hpage.
  split; [rewrite Hpath; apply HasPrefix_app|].
  split; [rewrite <- Hpage; by apply generateHTML_ok|].
  assert (Hhead : hd "" (Split (rel +:+ "/index.html") slash) = hd "" (Split rel slash)).
  { change (rel +:+ "/index.html") with (rel +:+ "/" +:+ "index.html").
    apply Split_head_append. }
  split; [by rewrite Hhead|].
  intros path Hpublic. apply generateHTML_frame.
  - rewrite Hpath.
    change (baseDomain +:+ "/../" +:+ rel) with ((baseDomain +:+ "/") +:+ ("../" +:+ rel)).
    rewrite TrimPrefix_append, (dirPath_parent rel Hrel).
    intros Hin%leadingDirs_head. congruence.
  - rewrite Hpage. intros ->. by rewrite Hhead in Hpublic.
Qed.

End OutsidePublic.

(** ** Generating a page again *)

Lemma mkdirs_made (dirs : list string) (tree tree' : gmap string node) :
  mkdirs dirs tree = Ok tree' → ∀ dir, dir ∈ dirs → tree' !! dir = Some Directory.
Proof.
  revert tree. induction dirs as [|d dirs IH]; intros tree Hmk dir Hin.
  - by apply elem_of_nil in Hin.
  - cbn [mkdirs] in Hmk.
    assert (Hrest : mkdirs dirs (<[d := Directory]> tree) = Ok tree').
    { by destruct (tree !! d) as [[|content]|]. }
    apply elem_of_cons in Hin as [->|Hin]; [|by apply (IH _ Hrest)].
    apply (mkdirs_keeps _ _ _ Hrest). apply lookup_insert_eq.
Qed.

Lemma mkdirs_present (dirs : list string) (tree : gmap string node) :
  (∀ dir, dir ∈ dirs → tree !! dir = Some Directory) → mkdirs dirs tree = Ok tree.
Proof.
  induction dirs as [|d dirs IH]; intros Hall; [reflexivity|].
  cbn [mkdirs]. rewrite (Hall d) by apply list_elem_of_here.
  rewrite insert_id by (apply Hall, list_elem_of_here).
  apply IH. intros dir Hin. by apply Hall, list_elem_of_further.
Qed.

Section Idempotence.

Context `{Escapers}.

(** [generateHTML] in a world without faults, step by step. *)
Lemma generateHTML_quiet (pkg : PackageInfo) (tree : gmap string node) :
  let dirs := leadingDirs "" (Split (Join ["public"; TrimPrefix (ImportPath pkg) (baseDomain +:+ "/")]) slash) in
  generateHTML pkg (mkWorld tree [])
  = match mkdirs dirs tree with
    | Err e => mkRun (Some ("failed to create directory: " +:+ e)) (mkWorld tree []) []
    | Ok made =>
        match value (Create (pagePath pkg) (mkWorld made [])) with
        | Err e => mkRun (Some ("failed to create file: " +:+ e)) (mkWorld made []) []
        | Ok _ =>
            mkRun None (mkWorld (<[pagePath pkg := File (renderImportPage pkg)]> made) []) []
        end
    end.
Proof.
  intros dirs. unfold generateHTML, pagePath.
  set (dirPath := Join ["public"; _]) in *. set (name := Join [dirPath; "index.html"]).
  unfold MkdirAll, Create, Write, nextFault, getTree, putTree, mbind, M_bind, mret, M_ret.
  cbn [faults fs value world logged]. fold dirs.
  destruct (mkdirs dirs tree) as [made|e]; [|reflexivity].
  cbn [faults fs value world logged app].
  destruct (negb (isDirectory made (Dir name))); [reflexivity|].
  destruct (made !! name) as [[|content]|] eqn:Hname; cbn [faults fs value world logged app].
  - reflexivity.
  - unfold fileContent. rewrite lookup_insert_eq, insert_insert_eq. reflexivity.
  - unfold fileContent. rewrite lookup_insert_eq, insert_insert_eq. reflexivity.
Qed.

Lemma Create_quiet_value (name : string) (tree : gmap string node) (f : string) :
  value (Create name (mkWorld tree [])) = Ok f
  ↔ f = name ∧ isDirectory tree (Dir name) = true ∧ tree !! name ≠ Some Directory.
Proof.
  unfold Create, nextFault, getTree, putTree, mbind, M_bind, mret, M_ret.
  cbn [faults fs value world].
  destruct (isDirectory tree (Dir name)); cbn [negb value].
  - destruct (tree !! name) as [[|content]|]; cbn [value]; split.
    all: try (intros [= <-]; by repeat split).
    all: try (by intros (-> & _ & ?)).
    all: try discriminate.
  - split; [discriminate | by intros (_ & ? & _)].
Qed.

(** X6: on a file system without faults, calling [generateHTML] again for
    the same record changes nothing: the second call reports what the
    first reported and leaves the world the first left.  So the second Go
    file of a subdirectory, for which [main] generates the page of the
    directory again, adds nothing to what the first has done. *)
Theorem generateHTML_again (pkg : PackageInfo) (w : World) :
  faults w = [] →
  let once := generateHTML pkg w in
  let again := generateHTML pkg (world once) in
  value again = value once
  ∧ world again = world once
  ∧ world (emitPages [pkg; pkg] w) = world (emitPages [pkg] w).
Proof.
  intros Hfaults once again. destruct w as [tree fl]. cbn [faults] in Hfaults. subst fl.
  assert (Hagain : value again = value once ∧ world again = world once).
  { unfold again, once. rewrite (generateHTML_quiet pkg tree). cbn zeta.
    set (dirs := leadingDirs "" _).
    destruct (mkdirs dirs tree) as [made|e] eqn:Hmk.
    2: { cbn [world]. rewrite (generateHTML_quiet pkg tree). cbn zeta. fold dirs.
         by rewrite Hmk. }
    pose proof (mkdirs_made _ _ _ Hmk) as Hmade.
    destruct (value (Create (pagePath pkg) (mkWorld made []))) as [f|e] eqn:Hcreate.
    - apply Create_quiet_value in Hcreate as (-> & Hparent & Hname).
      cbn [world]. rewrite (generateHTML_quiet pkg _). cbn zeta. fold dirs.
      set (page := <[pagePath pkg := File (renderImportPage pkg)]> made).
      assert (Hpage : mkdirs dirs page = Ok page).
      { apply mkdirs_present. intros dir Hdir. unfold page.
        rewrite lookup_insert_ne; [by apply Hmade|].
        intros <-. by rewrite (Hmade _ Hdir) in Hname. }
      rewrite Hpage.
      assert (Hcreate : value (Create (pagePath pkg) (mkWorld page [])) = Ok (pagePath pkg)).
      { apply Create_quiet_value. split; [reflexivity|]. split.
        - unfold isDirectory in *. unfold page.
          destruct (decide (pagePath pkg = Dir (pagePath pkg))) as [Heq|Hne].
          + rewrite <- Heq in *. rewrite !orb_true_iff in Hparent.
            destruct Hparent as [[Hdot|Hroot]|Hdir].
            * by rewrite Hdot.
            * rewrite Hroot. by rewrite orb_true_r.
            * by destruct (made !! pagePath pkg) as [[|?]|].
          + by rewrite lookup_insert_ne.
        - unfold page. by rewrite lookup_insert_eq. }
      rewrite Hcreate. unfold page. by rewrite insert_insert_eq.
    - cbn [world]. rewrite (generateHTML_quiet pkg made). cbn zeta. fold dirs.
      rewrite (mkdirs_present dirs made Hmade). by rewrite Hcreate. }
  destruct Hagain as [Hvalue Hworld]. split; [exact Hvalue|]. split; [exact Hworld|].
  cbn [emitPages]. unfold emitPage. rewrite !world_bind. fold once.
  assert (Hlog : ∀ (err : option string) (v : World),
             world (match err with
                    | Some e => logPrintf ("Error generating HTML for " +:+ ImportPath pkg
                                           +:+ ": " +:+ e)
                    | None => mret ()
                    end v) = v) by (by intros [e|] v).
  rewrite !Hlog. fold again. cbn [world mret M_ret]. exact Hworld.
Qed.

End Idempotence.

(** ** The index page without [public] *)

Lemma Create_index_fails (w : World) :
  fs w !! "public" ≠ Some Directory →
  ∃ e, value (Create "public/index.html" w) = Err e
       ∧ fs (world (Create "public/index.html" w)) = fs w.
Proof.
  intros Hpublic.
  unfold Create, nextFault, getTree, putTree, mbind, M_bind, mret, M_ret.
  assert (Hdir : Dir "public/index.html" = "public") by (vm_compute; reflexivity).
  assert (Hparent : isDirectory (fs w) "public" = false).
  { unfold isDirectory. rewrite !bool_decide_eq_false_2 by discriminate.
    by destruct (fs w !! "public") as [[|content]|]. }
  destruct (faults w) as [|[n|] rest]; cbn [value world fs faults].
  all: try (eexists; split; reflexivity).
  all: rewrite Hdir, Hparent; cbn [negb value world fs]; eexists; split; reflexivity.
Qed.

Section EmptyRun.

Context `{Escapers}.

Lemma processRepos_all_skipped (client : RepositoriesService) (packages : list PackageInfo)
    (repos : list Repository) (w : World) :
  Forall (skipped client) repos →
  value (processRepos client packages repos w) = Returned packages
  ∧ world (processRepos client packages repos w) = w.
Proof.
  intros Hall. revert packages w.
  induction Hall as [|repo repos [Hres Hnil] _ IH]; intros packages w; [done|].
  cbn [processRepos]. rewrite value_bind, world_bind.
  destruct (processRepo_skipped client packages repo w Hres Hnil) as [-> ->]. apply IH.
Qed.

(** X8: [generateIndexHTML] does not make the directory [public]: it relies
    on an import page having been generated before.  A run in which no
    repository passes the gates, in a working directory without [public],
    writes no index page: it leaves the file tree as it was, logs the
    error of the index page and still exits with status 0. *)
Theorem index_page_needs_public (env : Env) (repos : list Repository) (w : World) :
  let client := Repositories env in
  Getenv env "GITHUB_TOKEN" ≠ "" →
  ListByOrg client orgName = Ok repos →
  Forall (skipped client) repos →
  fs w !! "public" ≠ Some Directory →
  value (main env w) = 0%nat
  ∧ fs (world (main env w)) = fs w
  ∧ fs (world (main env w)) !! "public/index.html" = fs w !! "public/index.html"
  ∧ ∃ e, ("Error generating index HTML: failed to create index file: " +:+ e)
         ∈ logged (main env w).
Proof.
  intros client Htoken Hlist Hnone Hpublic.
  destruct (processRepos_all_skipped client [] repos w Hnone) as [Hvalue Hworld].
  destruct (Create_index_fails w Hpublic) as (e & Hcreate & Htree).
  assert (Hindex : value (generateIndexHTML [] w)
                   = Some ("failed to create index file: " +:+ e)
                   ∧ fs (world (generateIndexHTML [] w)) = fs w).
  { unfold generateIndexHTML. rewrite value_bind, world_bind, Hcreate. by split. }
  destruct Hindex as [Hfailed Hsame].
  split.
  { unfold main. rewrite bool_decide_eq_false_2 by exact Htoken. fold client. rewrite Hlist.
    rewrite value_bind, Hvalue. reflexivity. }
  assert (Hfs : fs (world (main env w)) = fs w).
  { unfold main. rewrite bool_decide_eq_false_2 by exact Htoken. fold client. rewrite Hlist.
    rewrite world_bind, Hvalue, Hworld, !world_bind, Hfailed. exact Hsame. }
  split; [exact Hfs|].
  split; [by rewrite Hfs|]. exists e.
  unfold main. rewrite bool_decide_eq_false_2 by exact Htoken. fold client. rewrite Hlist.
  rewrite logged_bind. apply elem_of_app. right.
  rewrite Hvalue, Hworld, logged_bind, Hfailed.
  apply elem_of_app. right. rewrite logged_bind.
  apply elem_of_app. left. apply list_elem_of_here.
Qed.

End EmptyRun.

(** ** The module identifier of a manifest *)

Lemma leadingSpace_found (runes : list string) (s : string) (width : nat) :
  leadingSpace runes s = S width →
  ∃ r, r ∈ runes ∧ HasPrefix s r = true ∧ String.length r = S width.
Proof.
  unfold leadingSpace. destruct (List.find (HasPrefix s) runes) as [r|] eqn:Hfind; [|done].
  apply List.find_some in Hfind as [Hin%list_elem_of_In Hr]. intros Hlen. by exists r.
Qed.

(** What the loop of [strings.TrimLeftFunc] drops is made of space runes:
    it is empty or ends with one. *)
Lemma trimLeftLoop_dropped (runes : list string) (rounds : nat) (s : string) :
  ∃ dropped,
    s = dropped +:+ trimLeftLoop runes rounds s
    ∧ (dropped = "" ∨ ∃ r before, r ∈ runes ∧ dropped = before +:+ r).
Proof.
  revert s. induction rounds as [|rounds IH]; intros s; [exists ""; by split; [|left]|].
  cbn [trimLeftLoop].
  destruct (leadingSpace runes s) as [|width] eqn:Hwidth; [exists ""; by split; [|left]|].
  apply leadingSpace_found in Hwidth as (r & Hin & Hprefix & Hlen).
  apply HasPrefix_split in Hprefix. rewrite Hlen in Hprefix.
  destruct (IH (drop_bytes (S width) s)) as (dropped & Hdropped & Hshape).
  exists (r +:+ dropped). split.
  - by rewrite append_assoc, <- Hdropped.
  - right. destruct Hshape as [->|(r' & before & Hin' & ->)].
    + exists r, "". split; [done|]. by rewrite append_nil_r.
    + exists r', (r +:+ before). split; [done|]. by rewrite append_assoc.
Qed.

Lemma string_rev_empty (s : string) : String.rev s = "" → s = "".
Proof. intros Hrev. apply (f_equal String.rev) in Hrev. by rewrite string_rev_involutive in Hrev. Qed.

(** A text that is not empty and does not end with white space is not
    trimmed away. *)
Lemma TrimSpace_nonempty (s : string) :
  s ≠ "" →
  (∀ r before, r ∈ spaceRunes → s ≠ before +:+ r) →
  TrimSpace s ≠ "".
Proof.
  intros Hs Hend Hempty. unfold TrimSpace, TrimRightSpace in Hempty.
  set (left := TrimLeftSpace s) in *.
  assert (Hleft : leadingSpace spaceRunes left = 0%nat).
  { apply trimLeftLoop_done; [apply spaceRunes_nonempty | done]. }
  destruct (trimLeftLoop_dropped spaceRunes (String.length s) s) as (dropped1 & Hs1 & Hshape1).
  fold (TrimLeftSpace s) in Hs1. fold left in Hs1.
  apply string_rev_empty in Hempty.
  destruct (trimLeftLoop_dropped (map String.rev spaceRunes) (String.length left)
              (String.rev left)) as (dropped2 & Hs2 & Hshape2).
  rewrite Hempty, append_nil_r in Hs2.
  destruct Hshape2 as [->|(r' & before & Hin' & ->)].
  - apply string_rev_empty in Hs2. rewrite Hs2, append_nil_r in Hs1.
    destruct Hshape1 as [->|(r & before & Hin & ->)]; [done|]. by apply (Hend r before).
  - apply list_elem_of_In, in_map_iff in Hin' as (r & <- & Hin%list_elem_of_In).
    apply (f_equal String.rev) in Hs2.
    rewrite string_rev_involutive, string_rev_append, string_rev_involutive in Hs2.
    apply (leadingSpace_none spaceRunes left spaceRunes_nonempty) in Hin; [|exact Hleft].
    rewrite Hs2, HasPrefix_app in Hin. discriminate.
Qed.

(** The remainder of a manifest line after the token is never trimmed
    away: a trimmed line that starts with [module ] names a module. *)
Lemma module_line_names (line : string) :
  HasPrefix (TrimSpace line) "module " = true →
  TrimSpace (TrimPrefix (TrimSpace line) "module ") ≠ "".
Proof.
  intros Hmodule. destruct (TrimSpace_trimmed line) as [_ Hright].
  set (trimmed := TrimSpace line) in *.
  unfold TrimPrefix. rewrite Hmodule.
  pose proof (HasPrefix_split _ _ Hmodule) as Hsplit.
  set (rest := drop_bytes (String.length "module ") trimmed) in *.
  assert (Hend : ∀ r, r ∈ spaceRunes → HasPrefix (String.rev trimmed) (String.rev r) = false).
  { intros r Hin. apply (leadingSpace_none _ _ spaceRunes_rev_nonempty); [exact Hright|].
    apply list_elem_of_In, in_map, list_elem_of_In, Hin. }
  apply TrimSpace_nonempty.
  - intros Hrest. rewrite Hrest in Hsplit. rewrite Hsplit in Hend.
    assert (Hspace : " " ∈ spaceRunes) by (apply list_elem_of_In; vm_compute; tauto).
    specialize (Hend " " Hspace). vm_compute in Hend. discriminate.
  - intros r before Hin Hrest. rewrite Hrest in Hsplit.
    specialize (Hend r Hin). rewrite Hsplit in Hend.
    rewrite !string_rev_append, append_assoc, HasPrefix_app in Hend. discriminate.
Qed.

(** X9: the empty answer of [parseModuleName] means that the manifest has no
    module line, and nothing else: the parser answers an identifier that is
    not empty exactly when some line of the text, trimmed, starts with the
    token [module ]. *)
Theorem parseModuleName_empty_iff (content : string) :
  parseModuleName content = ""
  ↔ Forall (λ line, HasPrefix (TrimSpace line) "module " = false) (Split content (byte 10)).
Proof.
  unfold parseModuleName.
  induction (Split content (byte 10)) as [|line rest IH]; [by split|].
  cbn [parseModuleLines].
  destruct (HasPrefix (TrimSpace line) "module ") eqn:Hline.
  - split.
    + intros Hempty. by apply module_line_names in Hline.
    + intros Hall. inversion Hall; congruence.
  - rewrite IH. split; [by constructor | by inversion 1].
Qed.

Lemma containsByte_append (c : ascii) (s1 s2 : string) :
  containsByte c (s1 +:+ s2) = containsByte c s1 || containsByte c s2.
Proof.
  induction s1 as [|d s1 IH]; [reflexivity|].
  change (Ascii.eqb c d || containsByte c (s1 +:+ s2)
          = Ascii.eqb c d || containsByte c s1 || containsByte c s2).
  by rewrite IH, orb_assoc.
Qed.

Lemma containsByte_rev (c : ascii) (s : string) :
  containsByte c (String.rev s) = containsByte c s.
Proof.
  induction s as [|d s IH]; [reflexivity|].
  rewrite string_rev_cons, containsByte_append, IH. cbn [containsByte].
  by rewrite orb_false_r, orb_comm.
Qed.

(** [strings.TrimSpace] answers a part of its argument. *)
Lemma TrimSpace_part (s : string) : ∃ before after, s = before +:+ TrimSpace s +:+ after.
Proof.
  unfold TrimSpace, TrimRightSpace.
  destruct (trimLeftLoop_suffix spaceRunes (String.length s) s) as [before Hbefore].
  fold (TrimLeftSpace s) in Hbefore. set (left := TrimLeftSpace s) in *.
  destruct (trimLeftLoop_suffix (map String.rev spaceRunes) (String.length left)
              (String.rev left)) as [after Hafter].
  apply (f_equal String.rev) in Hafter.
  rewrite string_rev_involutive, string_rev_append in Hafter.
  exists before, (String.rev after). by rewrite <- Hafter.
Qed.

Lemma TrimSpace_bytes (c : ascii) (s : string) :
  containsByte c s = false → containsByte c (TrimSpace s) = false.
Proof.
  destruct (TrimSpace_part s) as (before & after & Hs). intros Hc. rewrite Hs in Hc.
  rewrite !containsByte_append, !orb_false_iff in Hc. tauto.
Qed.

Lemma TrimPrefix_bytes (c : ascii) (s prefix : string) :
  containsByte c s = false → containsByte c (TrimPrefix s prefix) = false.
Proof.
  unfold TrimPrefix. destruct (HasPrefix s prefix); [|done]. intros Hc.
  rewrite <- (take_drop_bytes (String.length prefix) s), containsByte_append in Hc.
  by apply orb_false_iff in Hc as [_ ?].
Qed.

Lemma parseModuleLines_bytes (c : ascii) (lines : list string) :
  Forall (λ line, containsByte c line = false) lines →
  containsByte c (parseModuleLines lines) = false.
Proof.
  induction 1 as [|line rest Hline _ IH]; [reflexivity|].
  cbn [parseModuleLines]. destruct (HasPrefix (TrimSpace line) "module "); [|exact IH].
  by apply TrimSpace_bytes, TrimPrefix_bytes, TrimSpace_bytes.
Qed.

Lemma Split_bytes (c sep : ascii) (s : string) :
  containsByte c s = false → Forall (λ field, containsByte c field = false) (Split s sep).
Proof.
  induction s as [|d s IH]; [by repeat constructor|].
  cbn [containsByte]. rewrite orb_false_iff. intros [Hd Hs]. specialize (IH Hs).
  rewrite Split_cons. destruct (Ascii.eqb d sep); [by constructor|].
  destruct (Split s sep) as [|field fields]; [by repeat constructor; cbn; rewrite Hd|].
  inversion IH as [|? ? Hfield Hfields]; subst. constructor; [|done].
  cbn. by rewrite Hd, Hfield.
Qed.

Lemma parseModuleName_no_line_feed (content : string) :
  containsByte (byte 10) (parseModuleName content) = false.
Proof. apply parseModuleLines_bytes, Split_no_sep. Qed.

Lemma parseModuleName_trimmed (content : string) :
  TrimSpace (parseModuleName content) = parseModuleName content.
Proof.
  unfold parseModuleName.
  destruct (parseModuleLines_first (Split content (byte 10)))
    as [(pre & line & post & _ & _ & _ & ->) | [_ ->]]; [|reflexivity].
  apply TrimSpace_idempotent.
Qed.

(** X10: the identifier [parseModuleName] answers is cut out of one line of
    the manifest: it holds no line feed, and no byte that the manifest
    does not hold. *)
Theorem parseModuleName_one_line (content : string) :
  containsByte (byte 10) (parseModuleName content) = false
  ∧ ∀ c, containsByte c content = false → containsByte c (parseModuleName content) = false.
Proof.
  split; [apply parseModuleName_no_line_feed|].
  intros c Hc. unfold parseModuleName. by apply parseModuleLines_bytes, Split_bytes.
Qed.

Lemma TrimSpace_fixed (s : string) :
  leadingSpace spaceRunes s = 0%nat →
  leadingSpace (map String.rev spaceRunes) (String.rev s) = 0%nat →
  TrimSpace s = s.
Proof.
  intros Hleft Hright. unfold TrimSpace, TrimRightSpace, TrimLeftSpace.
  rewrite (trimLeftLoop_trimmed spaceRunes _ s Hleft).
  rewrite (trimLeftLoop_trimmed _ _ _ Hright). apply string_rev_involutive.
Qed.

Lemma HasPrefix_extend_inner (c : ascii) (rest r s : string) :
  containsByte c r = false →
  HasPrefix s r = false → HasPrefix (s +:+ String c rest) r = false.
Proof.
  revert s. induction r as [|x r IH]; intros s Hr Hs; [discriminate|].
  cbn [containsByte] in Hr. apply orb_false_iff in Hr as [Hx Hr].
  destruct s as [|d s].
  - change (Ascii.eqb x c && HasPrefix rest r = false). by rewrite Ascii.eqb_sym, Hx.
  - change (Ascii.eqb x d && HasPrefix s r = false) in Hs.
    change (Ascii.eqb x d && HasPrefix (s +:+ String c rest) r = false).
    destruct (Ascii.eqb x d); [|reflexivity]. cbn [andb] in *. by apply IH.
Qed.

(** Appending a text that starts with the byte [c] to a text that is not
    empty makes no space rune appear at its start, when [c] is no later
    byte of a rune. *)
Lemma HasPrefix_extend (c : ascii) (rest r s : string) :
  containsByte c (drop_bytes 1 r) = false →
  s ≠ "" →
  HasPrefix s r = false → HasPrefix (s +:+ String c rest) r = false.
Proof.
  intros Hr Hne Hs. destruct r as [|x r]; [discriminate|]. destruct s as [|d s]; [done|].
  change (Ascii.eqb x d && HasPrefix s r = false) in Hs.
  change (Ascii.eqb x d && HasPrefix (s +:+ String c rest) r = false).
  destruct (Ascii.eqb x d); [|reflexivity]. cbn [andb] in *.
  by apply HasPrefix_extend_inner.
Qed.

Lemma module_token_line (name : string) :
  name ≠ "" → TrimSpace name = name → TrimSpace ("module " +:+ name) = "module " +:+ name.
Proof.
  intros Hne Htrimmed. destruct (TrimSpace_trimmed name) as [_ Hright].
  rewrite Htrimmed in Hright.
  apply TrimSpace_fixed.
  - apply (leadingSpace_none _ _ spaceRunes_nonempty).
    assert (Hall : Forall (λ r, ∀ s, HasPrefix (String "m" s) r = false) spaceRunes).
    { unfold spaceRunes. repeat constructor. }
    rewrite Forall_forall in Hall. intros r Hin. by apply Hall.
  - apply (leadingSpace_none _ _ spaceRunes_rev_nonempty). intros r Hin.
    rewrite string_rev_append.
    change (String.rev "module ") with (String " " "eludom").
    apply HasPrefix_extend.
    + assert (Hall : Forall (λ r, containsByte " " (drop_bytes 1 r) = false)
                       (map String.rev spaceRunes)).
      { unfold spaceRunes. repeat constructor. }
      rewrite Forall_forall in Hall. by apply Hall.
    + intros Hrev. by apply string_rev_empty in Hrev.
    + by apply (leadingSpace_none _ _ spaceRunes_rev_nonempty).
Qed.

(** X11: the parser finds the module a manifest declares: for an identifier
    without white space at its ends and without line feed, the manifest
    whose first module line is [module <identifier>] parses to the
    identifier, whatever lines follow, and whatever lines that are no
    module lines come before. *)
Theorem parseModuleName_declared (name before after : string) :
  name ≠ "" →
  TrimSpace name = name →
  containsByte (byte 10) name = false →
  Forall (λ line, HasPrefix (TrimSpace line) "module " = false) (Split before (byte 10)) →
  parseModuleName ("module " +:+ name) = name
  ∧ parseModuleName ("module " +:+ name +:+ nl +:+ after) = name
  ∧ parseModuleName (before +:+ nl +:+ "module " +:+ name +:+ nl +:+ after) = name.
Proof.
  intros Hne Htrimmed Hline Hbefore.
  assert (Hfield : containsByte (byte 10) ("module " +:+ name) = false).
  { by rewrite containsByte_append, Hline. }
  assert (Hfirst : ∀ rest, parseModuleLines (("module " +:+ name) :: rest) = name).
  { intros rest. cbn [parseModuleLines]. rewrite (module_token_line name Hne Htrimmed).
    by rewrite HasPrefix_app, TrimPrefix_append. }
  assert (Hcut : ∀ rest, Split ("module " +:+ name +:+ nl +:+ rest) (byte 10)
                         = ("module " +:+ name) :: Split rest (byte 10)).
  { intros rest.
    change ("module " +:+ name +:+ nl +:+ rest)
      with ("module " +:+ (name +:+ String (byte 10) rest)).
    rewrite <- append_assoc, Split_append, (Split_field _ _ Hfield). reflexivity. }
  unfold parseModuleName. split; [|split].
  - by rewrite (Split_field _ _ Hfield).
  - by rewrite Hcut.
  - change (before +:+ nl +:+ ?text) with (before +:+ String (byte 10) text).
    rewrite Split_append, Hcut.
    induction Hbefore as [|line lines Hnot _ IH]; [apply Hfirst|].
    cbn [app parseModuleLines]. by rewrite Hnot.
Qed.

(** ** White space around the module line *)
















(** ** The records of the package list *)

Lemma resolve_Some (client : RepositoriesService) (repo : Repository)
    (moduleName : string) (contents : list RepositoryContent) :
  resolve client repo = Some (moduleName, contents) →
  GetLanguage repo = "Go"
  ∧ HasPrefix moduleName basePackage = true
  ∧ ∃ text, moduleName = parseModuleName text.
Proof.
  unfold resolve. case_bool_decide as Hgo; [|discriminate]. cbn [negb].
  destruct (GetContents client orgName (GetName repo) "") as [[? listing]|?]; [|discriminate].
  destruct (GetContents client orgName (GetName repo) "go.mod") as [[[modContent|] ?]|?];
    [|discriminate|discriminate].
  destruct (GetContent modContent) as [text|?]; [|discriminate].
  cbn zeta. destruct (HasPrefix (parseModuleName text) basePackage) eqn:Hprefix; [|discriminate].
  intros [= <- <-]. split; [done|]. split; [done|]. by exists text.
Qed.

Lemma registry_length (client : RepositoriesService) (repos : list Repository) :
  (length (registry client repos) ≤ length repos)%nat.
Proof.
  unfold registry. induction repos as [|repo repos IH]; [done|].
  cbn [omap list_omap length]. destruct (registered client repo); cbn [length]; lia.
Qed.

Section RegistryProperties.

Context `{Escapers}.

(** X12: every record of the package list is the record of a Go repository of
    the listing, with the URL and the description of that repository, and
    its import path is a module identifier that passed the prefix check:
    it starts with the base package, so it is not empty, it has no white
    space at its ends and it holds no line feed.  The list has at most one
    record for each repository listed. *)
Theorem registry_records_valid
    (client : RepositoriesService) (repos : list Repository) (w : World)
    (packages : list PackageInfo) (pkg : PackageInfo) :
  value (processRepos client [] repos w) = Returned packages →
  pkg ∈ packages →
  HasPrefix (ImportPath pkg) basePackage = true
  ∧ ImportPath pkg ≠ ""
  ∧ TrimSpace (ImportPath pkg) = ImportPath pkg
  ∧ containsByte (byte 10) (ImportPath pkg) = false
  ∧ (∃ repo,
        repo ∈ repos ∧ GetLanguage repo = "Go"
        ∧ RepoURL pkg = GetHTMLURL repo ∧ Description pkg = GetDescription repo)
  ∧ (length packages ≤ length repos)%nat.
Proof.
  intros [_ ->]%processRepos_returned. cbn [app].
  intros (repo & moduleName & contents & Hin & Hres & ->)%registry_elem.
  apply resolve_Some in Hres as (Hgo & Hprefix & text & ->).
  cbn [rootRecord ImportPath RepoURL Description].
  split; [exact Hprefix|]. split; [|split; [|split; [|split]]].
  - intros Hempty. by rewrite Hempty in Hprefix.
  - apply parseModuleName_trimmed.
  - apply parseModuleName_no_line_feed.
  - by exists repo.
  - apply registry_length.
Qed.

End RegistryProperties.

(** ** One file for each import path *)

Section PageFiles.

Context `{Escapers}.

(** X5: the file of an import page is decided by the import path.  Two
    records with the same import path share their file, and a call of
    [generateHTML] that succeeds on the second leaves its document there,
    whatever the first had written: of two repositories that declare the
    same module, the one listed later gets the page.  Two records whose
    paths below the base domain are different paths of names have
    different files, and generating the page of one leaves the page of the
    other as it was. *)
Theorem import_pages_by_path (pkg1 pkg2 : PackageInfo) (w : World) (content : string) :
  let rel1 := TrimPrefix (ImportPath pkg1) (baseDomain +:+ "/") in
  let rel2 := TrimPrefix (ImportPath pkg2) (baseDomain +:+ "/") in
  fs w !! pagePath pkg1 = Some (File content) →
  (ImportPath pkg1 = ImportPath pkg2 →
   value (generateHTML pkg2 w) = None →
   fs (world (generateHTML pkg2 w)) !! pagePath pkg1 = Some (File (renderImportPage pkg2)))
  ∧ (isPlainPath rel1 = true → isPlainPath rel2 = true → rel1 ≠ rel2 →
     pagePath pkg1 ≠ pagePath pkg2
     ∧ fs (world (generateHTML pkg2 w)) !! pagePath pkg1 = Some (File content)).
Proof.
  intros rel1 rel2 Hpage. split.
  - intros Hsame Hok. unfold pagePath. rewrite Hsame. by apply generateHTML_ok.
  - intros Hrel1 Hrel2 Hdiffer.
    assert (Hfiles : pagePath pkg1 ≠ pagePath pkg2).
    { rewrite (pagePath_plain pkg1 Hrel1), (pagePath_plain pkg2 Hrel2). fold rel1 rel2.
      intros Heq. apply String.app_inj, append_inj_r in Heq. by apply Hdiffer. }
    split; [exact Hfiles|].
    destruct (generateHTML_keeps pkg2 w (pagePath pkg1)) as [_ Hfile].
    apply (Hfile content Hpage). intros Heq%list_elem_of_singleton. by apply Hfiles.
Qed.

(** X4: the page of the package of a subdirectory lies below the directory of
    the page of its module: for the module [pkg.blksails.net/<rel>] and
    the directory [<dir>], both paths of names, [generateHTML] leaves the
    document in [public/<rel>/<dir>/index.html]. *)
Theorem subdirectory_page_location
    (rel dir url description : string) (w : World) :
  let pkg :=
    mkPackageInfo (Join [baseDomain +:+ "/" +:+ rel; dir]) url description in
  isPlainPath rel = true →
  isPlainPath dir = true →
  value (generateHTML pkg w) = None →
  ImportPath pkg = baseDomain +:+ "/" +:+ rel +:+ "/" +:+ dir
  ∧ fs (world (generateHTML pkg w)) !! ("public/" +:+ rel +:+ "/" +:+ dir +:+ "/index.html")
    = Some (File (renderImportPage pkg)).
Proof.
  intros pkg Hrel Hdir Hok.
  assert (Hdomain : isPlainPath baseDomain = true) by (vm_compute; reflexivity).
  assert (Hpath : ImportPath pkg = baseDomain +:+ "/" +:+ rel +:+ "/" +:+ dir).
  { unfold pkg. cbn [ImportPath].
    rewrite Join_plain; [by rewrite !append_assoc | by apply isPlainPath_append | done]. }
  split; [exact Hpath|].
  pose proof (generateHTML_ok pkg w Hok) as Hpage.
  assert (Hbelow : TrimPrefix (ImportPath pkg) (baseDomain +:+ "/") = rel +:+ "/" +:+ dir).
  { rewrite Hpath.
    change (baseDomain +:+ "/" +:+ rel +:+ "/" +:+ dir)
      with ((baseDomain +:+ "/") +:+ (rel +:+ "/" +:+ dir)).
    apply TrimPrefix_append. }
  rewrite pagePath_plain in Hpage; rewrite Hbelow in *.
  - by rewrite !append_assoc in Hpage.
  - by apply isPlainPath_append.
Qed.

End PageFiles.

(** ** The earlier generator *)

Lemma HasPrefix_trans (s prefix1 prefix2 : string) :
  HasPrefix s prefix1 = true → HasPrefix prefix1 prefix2 = true → HasPrefix s prefix2 = true.
Proof.
  intros H1%HasPrefix_split H2%HasPrefix_split. rewrite H1, H2, append_assoc.
  apply HasPrefix_app.
Qed.

Section EarlierGenerator.

Context `{Escapers}.

Lemma Legacy_generateHTML (importPath url description : string) (w : World) :
  Legacy.generateHTML (Legacy.mkPackageInfo importPath url) w
  = generateHTML (mkPackageInfo importPath url description) w.
Proof. reflexivity. Qed.

(** X13: nothing the earlier generator published is lost by the current one.
    A repository for which the earlier [main] generates a page passes the
    prefix check of the current [main] too, the page the earlier text
    writes for it is the page the current text writes for its root record,
    and, when the listing of its root directory succeeds, the current text
    takes it for a module of the package list. *)
Theorem earlier_pages_kept
    (client : RepositoriesService) (repo : Repository)
    (modContent : RepositoryContent) (listing : list RepositoryContent) (text : string)
    (w : World) :
  let moduleName := parseModuleName text in
  GetLanguage repo = "Go" →
  GetContents client orgName (GetName repo) "go.mod" = Ok (Some modContent, listing) →
  GetContent modContent = Ok text →
  HasPrefix moduleName Legacy.basePackage = true →
  HasPrefix moduleName basePackage = true
  ∧ Legacy.processRepo client repo w
    = (emitPage (rootRecord moduleName repo) ;; mret (Returned ())) w
  ∧ (∀ root contents,
        GetContents client orgName (GetName repo) "" = Ok (root, contents) →
        resolve client repo = Some (moduleName, contents)
        ∧ emitted client repo = rootRecord moduleName repo :: subRecords moduleName repo contents).
Proof.
  intros moduleName Hgo Hmod Htext Hprefix.
  assert (Hcurrent : HasPrefix moduleName basePackage = true).
  { by apply (HasPrefix_trans _ _ _ Hprefix). }
  split; [exact Hcurrent|]. split.
  - unfold Legacy.processRepo. rewrite bool_decide_eq_true_2 by exact Hgo. cbn [negb].
    rewrite Hmod, Htext. cbn zeta. fold moduleName. rewrite Hprefix. cbn [negb].
    unfold emitPage. rewrite bind_assoc. reflexivity.
  - intros root contents Hroot.
    assert (Hres : resolve client repo = Some (moduleName, contents)).
    { unfold resolve. rewrite bool_decide_eq_true_2 by exact Hgo. cbn [negb].
      rewrite Hroot, Hmod, Htext. cbn zeta. fold moduleName. by rewrite Hcurrent. }
    split; [exact Hres|]. unfold emitted. by rewrite Hres.
Qed.

End EarlierGenerator.

(** ** The generator with a progress log *)

Section ProgressLog.

Context `{Escapers}.

Lemma Verbose_subPackages_world (moduleName : string) (repo : Repository)
    (contents : list RepositoryContent) (count : nat) (w : World) :
  world (Verbose.subPackages moduleName repo contents count w)
  = world (subPackages moduleName repo contents w).
Proof.
  revert count w. induction contents as [|content rest IH]; intros count w; [reflexivity|].
  cbn [Verbose.subPackages subPackages]. rewrite !world_bind.
  destruct (bool_decide (GetType content = "file") && HasSuffix (GetContentName content) ".go");
    [|apply IH].
  cbn zeta. destruct (bool_decide (Dir (GetPath content) = ".")); [apply IH|].
  set (pkg := mkPackageInfo _ _ _).
  rewrite !world_bind.
  destruct (value (generateHTML pkg w)); apply IH.
Qed.

Lemma Verbose_processRepo (client : RepositoriesService) (packages : list PackageInfo)
    (repo : Repository) (w : World) :
  value (Verbose.processRepo client packages repo w) = value (processRepo client packages repo w)
  ∧ world (Verbose.processRepo client packages repo w)
    = world (processRepo client packages repo w).
Proof.
  unfold Verbose.processRepo, processRepo.
  rewrite value_bind, world_bind.
  destruct (negb (bool_decide (GetLanguage repo = "Go"))); [done|].
  rewrite value_bind, world_bind.
  destruct (GetContents client orgName (GetName repo) "") as [[? contents]|?]; [|done].
  rewrite value_bind, world_bind.
  destruct (GetContents client orgName (GetName repo) "go.mod") as [[[modContent|] ?]|?];
    [|done|done].
  destruct (GetContent modContent) as [text|?]; [|done].
  cbn zeta. rewrite value_bind, world_bind.
  destruct (negb (HasPrefix (parseModuleName text) basePackage)); [done|].
  split; [reflexivity|].
  rewrite !world_bind.
  set (pkg := mkPackageInfo _ _ _).
  assert (Hroot : ∀ w',
             world (match value (generateHTML pkg w') with
                    | Some err =>
                        logPrintf ("  Error generating HTML for " +:+ parseModuleName text
                                   +:+ ": " +:+ err)
                    | None =>
                        logPrintf ("  " +:+ Verbose.checkMark +:+ " Generated HTML for "
                                   +:+ parseModuleName text)
                    end (world (generateHTML pkg w')))
             = world (match value (generateHTML pkg w') with
                      | Some err =>
                          logPrintf ("Error generating HTML for " +:+ parseModuleName text
                                     +:+ ": " +:+ err)
                      | None => mret ()
                      end (world (generateHTML pkg w')))).
  { intros w'. by destruct (value (generateHTML pkg w')). }
  cbn [world logPrintf] in *.
  rewrite Hroot, Verbose_subPackages_world.
  by destruct (bool_decide _).
Qed.

Lemma Verbose_processRepos (client : RepositoriesService) (packages : list PackageInfo)
    (repos : list Repository) (w : World) :
  value (Verbose.processRepos client packages repos w)
  = value (processRepos client packages repos w)
  ∧ world (Verbose.processRepos client packages repos w)
    = world (processRepos client packages repos w).
Proof.
  revert packages w. induction repos as [|repo rest IH]; intros packages w; [done|].
  cbn [Verbose.processRepos processRepos]. rewrite !value_bind, !world_bind.
  destruct (Verbose_processRepo client packages repo w) as [-> ->].
  destruct (value (processRepo client packages repo w)) as [packages'|]; [apply IH | done].
Qed.

Lemma filter_isSubPackageFile_cons (content : RepositoryContent) (rest : list RepositoryContent) :
  filter isSubPackageFile (content :: rest)
  = (if bool_decide (GetType content = "file") && HasSuffix (GetContentName content) ".go"
     then if bool_decide (Dir (GetPath content) = ".") then [] else [content]
     else [])
    ++ filter isSubPackageFile rest.
Proof.
  rewrite filter_cons.
  destruct (decide (isSubPackageFile content)) as [Hsub|Hsub]; unfold isSubPackageFile in Hsub;
    destruct (bool_decide (GetType content = "file") && HasSuffix (GetContentName content) ".go");
    destruct (bool_decide (Dir (GetPath content) = ".")); try reflexivity;
    by (cbn in Hsub; first [destruct Hsub | destruct (Hsub I)]).
Qed.

(** X16: the number the progress log gives for the subpackages of a repository
    counts pages generated, one for every Go file below the root of the
    repository: it lies between nought and the number of these files,
    and it is that number when no page failed, also when several of the
    files lie in one directory. *)
Theorem progress_log_counts_files (moduleName : string) (repo : Repository)
    (contents : list RepositoryContent) (w : World) :
  let files := filter isSubPackageFile contents in
  let count := value (Verbose.subPackages moduleName repo contents 0 w) in
  (count ≤ length files)%nat
  ∧ (logged (subPackages moduleName repo contents w) = [] → count = length files).
Proof.
  cbn zeta.
  cut (∀ n : nat,
         (n ≤ value (Verbose.subPackages moduleName repo contents n w)
          ≤ n + length (filter isSubPackageFile contents))%nat
         ∧ (logged (subPackages moduleName repo contents w) = [] →
            value (Verbose.subPackages moduleName repo contents n w)
            = (n + length (filter isSubPackageFile contents))%nat)).
  { intros Hcount. destruct (Hcount 0%nat) as [[_ Hle] Hall]. split; [exact Hle|exact Hall]. }
  revert w. induction contents as [|content rest IH]; intros w n.
  { cbn. split; [lia|intros _; lia]. }
  rewrite filter_isSubPackageFile_cons.
  cbn [Verbose.subPackages subPackages]. rewrite value_bind, logged_bind.
  destruct (bool_decide (GetType content = "file") && HasSuffix (GetContentName content) ".go");
    [|apply IH].
  cbn zeta. destruct (bool_decide (Dir (GetPath content) = ".")); [apply IH|].
  set (pkg := mkPackageInfo _ _ _).
  rewrite ?value_bind, ?world_bind, ?logged_bind.
  cbn [app length].
  destruct (value (generateHTML pkg w)) as [e|].
  - rewrite ?value_bind, ?world_bind. cbn [value world logged logPrintf mret M_ret].
    destruct (IH (world (generateHTML pkg w)) n) as [[Hge Hle] _].
    split; [lia|].
    intros Hquiet. apply app_eq_nil in Hquiet as [Hquiet _].
    by apply app_eq_nil in Hquiet as [_ ?].
  - rewrite ?value_bind, ?world_bind. cbn [value world logged logPrintf mret M_ret].
    destruct (IH (world (generateHTML pkg w)) (S n)) as [[Hge Hle] Hall].
    split; [lia|].
    intros Hquiet. apply app_eq_nil in Hquiet as [_ Hquiet]. rewrite (Hall Hquiet). lia.
Qed.

(** X14: the progress log changes nothing but the log: the generator with the
    log lines exits with the status of the generator without them and
    leaves the same files, after the same file operations. *)
Theorem progress_log_same_run (env : Env) (w : World) :
  value (Verbose.main env w) = value (main env w)
  ∧ world (Verbose.main env w) = world (main env w).
Proof.
  unfold Verbose.main, main. rewrite value_bind, world_bind. cbn zeta.
  destruct (bool_decide (Getenv env "GITHUB_TOKEN" = "")); [done|].
  rewrite value_bind, world_bind.
  destruct (ListByOrg (Repositories env) orgName) as [repos|?]; [|done].
  rewrite !value_bind, !world_bind.
  cbn [world value logPrintf].
  destruct (Verbose_processRepos (Repositories env) [] repos w) as [-> ->].
  set (final := processRepos (Repositories env) [] repos w).
  destruct (value final) as [packages|]; [|done].
  split; [reflexivity|].
  rewrite !world_bind. cbn [world value logPrintf].
  by destruct (value (generateIndexHTML packages (world final))).
Qed.

(** X15: what the progress log holds whatever the run does.  Its first line
    is the value of [GITHUB_TOKEN], the credential of the run, written
    before the check that it is set.  A run that gets the list of
    repositories and is ended by no panic ends its log with the three
    closing lines, the count in them being the number of repositories
    that passed the gates, and the last line naming the index page also
    when writing it failed. *)
Theorem progress_log_lines (env : Env) (w : World) :
  (∃ rest,
      logged (Verbose.main env w) = ("GITHUB_TOKEN: " +:+ Getenv env "GITHUB_TOKEN") :: rest)
  ∧ (∀ repos,
        Getenv env "GITHUB_TOKEN" ≠ "" →
        ListByOrg (Repositories env) orgName = Ok repos →
        noNilManifest (Repositories env) repos →
        ∃ lines,
          logged (Verbose.main env w)
          = lines
            ++ [ nl +:+ "=== Generation Complete ===";
                 "Total packages processed: "
                 +:+ Verbose.decimal (length (registry (Repositories env) repos));
                 "Index page: public/index.html" ]).
Proof.
  split.
  - unfold Verbose.main. rewrite logged_bind. by eexists.
  - intros repos Htoken Hlist Hrepos. unfold Verbose.main. cbn zeta.
    rewrite bool_decide_eq_false_2 by exact Htoken. rewrite Hlist.
    destruct (Verbose_processRepos (Repositories env) [] repos w) as [Hvalue _].
    pose proof (processRepos_value (Repositories env) [] repos w Hrepos) as Hregistry.
    cbn [app] in Hregistry. rewrite <- Hvalue in Hregistry.
    rewrite !logged_bind. cbn [world value logged logPrintf].
    rewrite Hregistry. rewrite !logged_bind. cbn [world value logged logPrintf].
    eexists.
    rewrite !app_assoc. rewrite <- app_assoc. rewrite <- app_assoc. rewrite <- app_assoc.
    reflexivity.
Qed.

End ProgressLog.

(** * The scenarios of the specification, run *)

Local Existing Instance goEscapers.

Example parse_scenario : parseModuleName fooManifest = "pkg.blksails.net/foo".
Proof. vm_compute. reflexivity. Qed.

Example parse_indented :
  parseModuleName
    ("go 1.20" +:+ bytes [13; 10; 9] +:+ "  module   a/b  " +:+ bytes [194; 160; 13; 10]
     +:+ "module c")
  = "a/b".
Proof. vm_compute. reflexivity. Qed.

Example parse_bare_keyword : parseModuleName ("module " +:+ nl +:+ "x") = "".
Proof. vm_compute. reflexivity. Qed.

Example parse_other_domain :
  HasPrefix (parseModuleName "module other.org/foo") basePackage = false.
Proof. vm_compute. reflexivity. Qed.

Example Clean_examples :
  Clean <$> ["a/b/../c"; "/../a//b/"; ""; "../../x/.."; "a/.."; "/"; "./a"; "a/../.."]
  = ["a/c"; "/a/b"; "."; "../.."; "."; "/"; "a"; ".."].
Proof. vm_compute. reflexivity. Qed.

Example Dir_examples :
  Dir <$> ["main.go"; "sub/util.go"; "a/b/c.go"; ""; "a/"; "a//b.go"]
  = ["."; "sub"; "a/b"; "."; "a"; "a"].
Proof. vm_compute. reflexivity. Qed.

Example Join_examples :
  Join <$> [["pkg.blksails.net/foo"; "sub"]; [""; ""]; [""; "a"]; ["a"; ""]; ["public"; "foo"]]
  = ["pkg.blksails.net/foo/sub"; ""; "a"; "a"; "public/foo"].
Proof. vm_compute. reflexivity. Qed.

(** When [public] is a regular file no page can be written: every call of
    the page generators fails and is logged, and the run still completes
    with the root record in its package list. *)
Example blocked_scenario :
  let client := fooClient [goRepo "foo"] in
  let run := main (tokenEnv client) blockedWorld in
  value run = 0%nat
  ∧ world run = blockedWorld
  ∧ logged run
    = [ "Error generating HTML for pkg.blksails.net/foo: failed to create directory: mkdir public: not a directory";
        "Error generating HTML for pkg.blksails.net/foo/sub: failed to create directory: mkdir public: not a directory";
        "Error generating index HTML: failed to create index file: open public/index.html: not a directory" ]
  ∧ value (processRepos client [] [goRepo "foo"] blockedWorld) = Returned [fooRoot].
Proof.
  intros client run.
  split; [vm_compute; reflexivity|].
  split; [vm_compute; reflexivity|].
  split; vm_compute; reflexivity.
Qed.

Example expand_scenario :
  expand "pkg.blksails.net/foo" (goRepo "foo") fooListing = [fooRoot; fooSub].
Proof. vm_compute. reflexivity. Qed.

(** C1, the claim refuted: in the scenario of the specification the
    expansion of [foo] has the record of [pkg.blksails.net/foo/sub], which
    gets its import page, but the package list at the end of the run holds
    the root record alone and the index page does not show the import path
    of the subdirectory. *)
Lemma subdirectory_record_not_registered :
  let client := fooClient [goRepo "foo"] in
  let final := processRepos client [] [goRepo "foo"] emptyWorld in
  let run := main (tokenEnv client) emptyWorld in
  resolve client (goRepo "foo") = Some ("pkg.blksails.net/foo", fooListing)
  ∧ fooSub ∈ expand "pkg.blksails.net/foo" (goRepo "foo") fooListing
  ∧ value final = Returned [fooRoot]
  ∧ ¬ (fooSub ∈ [fooRoot])
  ∧ value run = 0%nat
  ∧ fs (world run) !! "public/foo/sub/index.html" = Some (File (renderImportPage fooSub))
  ∧ fs (world run) !! "public/index.html" = Some (File (renderIndexPage [fooRoot]))
  ∧ contains (renderIndexPage [fooRoot]) "pkg.blksails.net/foo/sub" = false
  ∧ contains (renderIndexPage [fooRoot]) "pkg.blksails.net/foo" = true.
Proof.
  intros client final run.
  assert (Hfinal : value final = Returned [fooRoot]) by (vm_compute; reflexivity).
  split; [vm_compute; reflexivity|].
  split.
  { assert (Hexpand : expand "pkg.blksails.net/foo" (goRepo "foo") fooListing
                      = [fooRoot; fooSub]) by (vm_compute; reflexivity).
    rewrite Hexpand. apply list_elem_of_further, list_elem_of_here. }
  split; [exact Hfinal|].
  split.
  { apply not_elem_of_cons. split; [discriminate | apply not_elem_of_nil]. }
  split; [vm_compute; reflexivity|].
  split; [vm_compute; reflexivity|].
  split; [vm_compute; reflexivity|].
  split; vm_compute; reflexivity.
Qed.

Lemma registry_holds_root_records_witness :
  let env := tokenEnv (fooClient [goRepo "foo"]) in
  let client := Repositories env in
  let final := processRepos client [] [goRepo "foo"] emptyWorld in
  let packages := registry client [goRepo "foo"] in
  Getenv env "GITHUB_TOKEN" ≠ ""
  ∧ ListByOrg client orgName = Ok [goRepo "foo"]
  ∧ noNilManifest client [goRepo "foo"]
  ∧ goRepo "foo" ∈ [goRepo "foo"]
  ∧ resolve client (goRepo "foo") = Some ("pkg.blksails.net/foo", fooListing)
  ∧ value (generateIndexHTML packages (world final)) = None
  ∧ value final = Returned packages
  ∧ rootRecord "pkg.blksails.net/foo" (goRepo "foo") ∈ packages
  ∧ fs (world (main env emptyWorld)) !! "public/index.html"
    = Some (File (renderIndexPage packages)).
Proof.
  intros env client final packages.
  assert (Htoken : Getenv env "GITHUB_TOKEN" ≠ "") by (vm_compute; discriminate).
  assert (Hlist : ListByOrg client orgName = Ok [goRepo "foo"]) by reflexivity.
  assert (Hrepos : noNilManifest client [goRepo "foo"]).
  { constructor; [vm_compute; reflexivity | constructor]. }
  assert (Hin : goRepo "foo" ∈ [goRepo "foo"]) by apply list_elem_of_here.
  assert (Hres : resolve client (goRepo "foo") = Some ("pkg.blksails.net/foo", fooListing))
    by (vm_compute; reflexivity).
  assert (Hindex : value (generateIndexHTML packages (world final)) = None)
    by (vm_compute; reflexivity).
  pose proof (registry_holds_root_records env [goRepo "foo"] (goRepo "foo")
                "pkg.blksails.net/foo" fooListing emptyWorld
                Htoken Hlist Hrepos Hin Hres Hindex) as (_ & Hfinal & Hroot & _ & Hpage & _).
  exact (conj Htoken (conj Hlist (conj Hrepos (conj Hin (conj Hres (conj Hindex
           (conj Hfinal (conj Hroot Hpage)))))))).
Defined.

(** C2, the claim refuted: two repositories that declare the same module
    leave two records with the same import path in the package list, where
    the insertion of the specification would have kept one. *)
Lemma duplicate_import_path_registered :
  let client := fooClient [goRepo "foo"; goRepo "foo-fork"] in
  let first := rootRecord "pkg.blksails.net/foo" (goRepo "foo") in
  let second := rootRecord "pkg.blksails.net/foo" (goRepo "foo-fork") in
  value (processRepo client [first] (goRepo "foo-fork") emptyWorld)
  = Returned [first; second]
  ∧ insertUnique [first] second = [second]
  ∧ value (processRepos client [] [goRepo "foo"; goRepo "foo-fork"] emptyWorld)
    = Returned [first; second]
  ∧ ImportPath first = ImportPath second
  ∧ ¬ NoDup (ImportPath <$> [first; second])
  ∧ value (main (tokenEnv client) emptyWorld) = 0%nat.
Proof.
  intros client first second.
  split; [vm_compute; reflexivity|].
  split; [vm_compute; reflexivity|].
  split; [vm_compute; reflexivity|].
  split; [reflexivity|].
  split; [|vm_compute; reflexivity].
  intros Hnodup. apply NoDup_cons in Hnodup as [Hfresh _].
  apply Hfresh, list_elem_of_here.
Qed.

Lemma registry_insert_appends_witness :
  let client := fooClient [goRepo "foo"; goRepo "foo-fork"] in
  let first := rootRecord "pkg.blksails.net/foo" (goRepo "foo") in
  let second := rootRecord "pkg.blksails.net/foo" (goRepo "foo-fork") in
  resolve client (goRepo "foo-fork") = Some ("pkg.blksails.net/foo", fooListing)
  ∧ value (processRepo client [first] (goRepo "foo-fork") emptyWorld)
    = Returned ([first] ++ [second])
  ∧ length (filter (λ pkg, ImportPath pkg = "pkg.blksails.net/foo") ([first] ++ [second]))
    = S (length (filter (λ pkg, ImportPath pkg = "pkg.blksails.net/foo") [first])).
Proof.
  intros client first second.
  assert (Hres : resolve client (goRepo "foo-fork")
                 = Some ("pkg.blksails.net/foo", fooListing)) by (vm_compute; reflexivity).
  pose proof (registry_insert_appends client [first] (goRepo "foo-fork")
                "pkg.blksails.net/foo" fooListing emptyWorld Hres)
    as (Happend & _ & _ & _ & Hcount).
  exact (conj Hres (conj Happend Hcount)).
Defined.

(** C3, the claim refuted: the root record is not always the only record
    with the import path of the module.  For an entry whose path has a
    leading slash, or leaves the repository by [..] and comes back,
    [filepath.Dir] and [filepath.Join] give the module identifier again,
    and the expansion has a second record with it. *)
Lemma root_record_repeated :
  let id := "pkg.blksails.net/foo" in
  let rooted := entry "file" "x.go" "/x.go" in
  let dotted := entry "file" "y.go" "../foo/y.go" in
  Dir (GetPath rooted) = "/"
  ∧ Join [id; "/"] = id
  ∧ Dir (GetPath dotted) = "../foo"
  ∧ Join [id; "../foo"] = id
  ∧ expand id (goRepo "foo") [rooted] = [fooRoot; fooRoot]
  ∧ expand id (goRepo "foo") [dotted] = [fooRoot; fooRoot]
  ∧ length (filter (λ pkg, ImportPath pkg = id) (expand id (goRepo "foo") [rooted])) = 2%nat.
Proof.
  intros id rooted dotted.
  split; [vm_compute; reflexivity|].
  split; [vm_compute; reflexivity|].
  split; [vm_compute; reflexivity|].
  split; [vm_compute; reflexivity|].
  split; [vm_compute; reflexivity|].
  split; vm_compute; reflexivity.
Qed.

Lemma expand_root_and_subdirectories_witness :
  let x := entry "file" "x.go" "a/x.go" in
  let y := entry "file" "y.go" "a/y.go" in
  isSubPackageFile x = true
  ∧ isSubPackageFile y = true
  ∧ Dir (GetPath x) = Dir (GetPath y)
  ∧ expand "pkg.blksails.net/foo" (goRepo "foo") [x; y]
    = [fooRoot;
       mkPackageInfo (Join ["pkg.blksails.net/foo"; Dir (GetPath x)])
         (GetHTMLURL (goRepo "foo")) (GetDescription (goRepo "foo"));
       mkPackageInfo (Join ["pkg.blksails.net/foo"; Dir (GetPath x)])
         (GetHTMLURL (goRepo "foo")) (GetDescription (goRepo "foo"))]
  ∧ Join ["pkg.blksails.net/foo"; Dir (GetPath x)] = "pkg.blksails.net/foo/a".
Proof.
  intros x y.
  assert (Hx : isSubPackageFile x = true) by (vm_compute; reflexivity).
  assert (Hy : isSubPackageFile y = true) by (vm_compute; reflexivity).
  assert (Hdir : Dir (GetPath x) = Dir (GetPath y)) by (vm_compute; reflexivity).
  pose proof (expand_root_and_subdirectories "pkg.blksails.net/foo" (goRepo "foo")
                [x; y] x y Hx Hy Hdir) as (_ & _ & _ & _ & Htwo & _).
  assert (Hjoin : Join ["pkg.blksails.net/foo"; Dir (GetPath x)] = "pkg.blksails.net/foo/a")
    by (vm_compute; reflexivity).
  exact (conj Hx (conj Hy (conj Hdir (conj Htwo Hjoin)))).
Defined.

(** C5, the claim refuted: a Go repository whose manifest names a module
    of the base package passes the two stages of the gate, and still adds
    nothing when the listing of its root directory fails. *)
Lemma listing_failure_excludes_repository :
  let client := noListingClient [goRepo "foo"] in
  let run := processRepo client [] (goRepo "foo") emptyWorld in
  GetLanguage (goRepo "foo") = "Go"
  ∧ (∃ modContent listing text,
        GetContents client orgName (GetName (goRepo "foo")) "go.mod"
        = Ok (Some modContent, listing)
        ∧ GetContent modContent = Ok text
        ∧ HasPrefix (parseModuleName text) basePackage = true)
  ∧ value run = Returned []
  ∧ world run = emptyWorld
  ∧ logged run = ["Error getting contents for foo: 500 Internal Server Error"]
  ∧ fs (world (main (tokenEnv client) emptyWorld)) = ∅.
Proof.
  intros client run.
  split; [reflexivity|].
  split.
  { exists (manifest fooManifest), [], fooManifest.
    split; [reflexivity|]. split; [reflexivity|]. vm_compute; reflexivity. }
  split; [vm_compute; reflexivity|].
  split; [vm_compute; reflexivity|].
  split; vm_compute; reflexivity.
Qed.

(** A manifest of another domain, skipped. *)
Example unusable_manifest_scenario :
  let env := tokenEnv (orgClient []) in
  let client := Repositories env in
  let present := main (withListing env ([goRepo "foo"] ++ goRepo "other" :: [goRepo "bar"])) emptyWorld in
  let absent := main (withListing env ([goRepo "foo"] ++ [goRepo "bar"])) emptyWorld in
  Getenv env "GITHUB_TOKEN" ≠ ""
  ∧ (∃ modContent listing text,
        GetContents client orgName (GetName (goRepo "other")) "go.mod"
        = Ok (Some modContent, listing)
        ∧ GetContent modContent = Ok text
        ∧ HasPrefix (parseModuleName text) basePackage = false)
  ∧ value present = value absent
  ∧ world present = world absent
  ∧ fs (world present) !! "public/index.html" = fs (world absent) !! "public/index.html".
Proof.
  intros env client present absent.
  assert (Htoken : Getenv env "GITHUB_TOKEN" ≠ "") by (vm_compute; discriminate).
  assert (Hbad : ∃ modContent listing text,
             GetContents client orgName (GetName (goRepo "other")) "go.mod"
             = Ok (Some modContent, listing)
             ∧ GetContent modContent = Ok text
             ∧ HasPrefix (parseModuleName text) basePackage = false).
  { exists (manifest "module other.org/foo"), [], "module other.org/foo".
    split; [reflexivity|]. split; [reflexivity|]. vm_compute; reflexivity. }
  pose proof (unusable_manifest_skips env [goRepo "foo"] [goRepo "bar"] (goRepo "other")
                emptyWorld Htoken (or_intror (or_intror Hbad)))
    as (_ & _ & _ & Hstatus & Hworld & Hindex).
  exact (conj Htoken (conj Hbad (conj Hstatus (conj Hworld Hindex)))).
Qed.

(** C6, at the failing input: the repository [dirmod], in which [go.mod]
    is a directory, listed before [foo].  The run with [dirmod] panics
    before it has written anything; the run without it generates the
    pages of [foo] and the index page. *)
Lemma nil_manifest_aborts_run_witness :
  let env := tokenEnv (orgClient []) in
  let client := Repositories env in
  let present := main (withListing env ([] ++ goRepo "dirmod" :: [goRepo "foo"])) emptyWorld in
  let absent := main (withListing env ([] ++ [goRepo "foo"])) emptyWorld in
  Getenv env "GITHUB_TOKEN" ≠ ""
  ∧ noNilManifest client []
  ∧ noNilManifest client [goRepo "foo"]
  ∧ GetLanguage (goRepo "dirmod") = "Go"
  ∧ GetContents client orgName (GetName (goRepo "dirmod")) "" = Ok (None, fooListing)
  ∧ GetContents client orgName (GetName (goRepo "dirmod")) "go.mod"
    = Ok (None, [entry "file" "notes.txt" "go.mod/notes.txt"])
  ∧ value present = 2%nat
  ∧ world present = emptyWorld
  ∧ value absent = 0%nat
  ∧ fs (world absent) !! "public/foo/index.html" = Some (File (renderImportPage fooRoot))
  ∧ fs (world absent) !! "public/index.html" = Some (File (renderIndexPage [fooRoot])).
Proof.
  intros env client present absent.
  assert (Htoken : Getenv env "GITHUB_TOKEN" ≠ "") by (vm_compute; discriminate).
  assert (Hbefore : noNilManifest client []) by constructor.
  assert (Hafter : noNilManifest client [goRepo "foo"]).
  { constructor; [vm_compute; reflexivity | constructor]. }
  assert (Hgo : GetLanguage (goRepo "dirmod") = "Go") by reflexivity.
  assert (Hroot : GetContents client orgName (GetName (goRepo "dirmod")) ""
                  = Ok (None, fooListing)) by reflexivity.
  assert (Hmod : GetContents client orgName (GetName (goRepo "dirmod")) "go.mod"
                 = Ok (None, [entry "file" "notes.txt" "go.mod/notes.txt"])) by reflexivity.
  pose proof (nil_manifest_aborts_run env [] [goRepo "foo"] (goRepo "dirmod") emptyWorld
                Htoken Hbefore Hafter Hgo
                (ex_intro _ None (ex_intro _ fooListing Hroot))
                (ex_intro _ [entry "file" "notes.txt" "go.mod/notes.txt"] Hmod))
    as (_ & Hpresent & Hworld & Habsent & _).
  assert (Hpage : fs (world absent) !! "public/foo/index.html"
                  = Some (File (renderImportPage fooRoot))) by (vm_compute; reflexivity).
  assert (Hindex : fs (world absent) !! "public/index.html"
                   = Some (File (renderIndexPage [fooRoot]))) by (vm_compute; reflexivity).
  exact (conj Htoken (conj Hbefore (conj Hafter (conj Hgo (conj Hroot (conj Hmod
           (conj Hpresent (conj Hworld (conj Habsent (conj Hpage Hindex)))))))))).
Defined.

(** C7, at the failing input: with the token set and the listing call
    answered, a listing that holds [dirmod] ends the run with status 2. *)
Lemma main_exit_status_witness :
  let env := tokenEnv (orgClient [goRepo "foo"; goRepo "dirmod"; goRepo "bar"]) in
  let client := Repositories env in
  Getenv env "GITHUB_TOKEN" ≠ ""
  ∧ ListByOrg client orgName = Ok [goRepo "foo"; goRepo "dirmod"; goRepo "bar"]
  ∧ nilManifest client (goRepo "dirmod") = true
  ∧ value (main env emptyWorld) = 2%nat
  ∧ fs (world (main env emptyWorld)) !! "public/foo/index.html"
    = Some (File (renderImportPage fooRoot))
  ∧ fs (world (main env emptyWorld)) !! "public/index.html" = None.
Proof.
  intros env client.
  assert (Htoken : Getenv env "GITHUB_TOKEN" ≠ "") by (vm_compute; discriminate).
  assert (Hlist : ListByOrg client orgName = Ok [goRepo "foo"; goRepo "dirmod"; goRepo "bar"])
    by reflexivity.
  assert (Hnil : nilManifest client (goRepo "dirmod") = true) by (vm_compute; reflexivity).
  assert (Hsome : Exists (λ repo, nilManifest client repo = true)
                    [goRepo "foo"; goRepo "dirmod"; goRepo "bar"]).
  { apply Exists_cons_tl, Exists_cons_hd, Hnil. }
  pose proof (main_exit_status env emptyWorld) as (_ & [_ Hpanic] & _).
  assert (Hstatus : value (main env emptyWorld) = 2%nat).
  { apply Hpanic. split; [exact Htoken|]. eexists. split; [exact Hlist | exact Hsome]. }
  assert (Hpage : fs (world (main env emptyWorld)) !! "public/foo/index.html"
                  = Some (File (renderImportPage fooRoot))) by (vm_compute; reflexivity).
  assert (Hindex : fs (world (main env emptyWorld)) !! "public/index.html" = None)
    by (vm_compute; reflexivity).
  exact (conj Htoken (conj Hlist (conj Hnil (conj Hstatus (conj Hpage Hindex))))).
Defined.

Lemma renderers_deterministic_witness :
  value (generateHTML fooRoot emptyWorld) = None
  ∧ value (generateHTML fooRoot staleWorld) = None
  ∧ value (generateIndexHTML [fooRoot] publicWorld) = None
  ∧ value (generateIndexHTML [fooRoot] staleWorld) = None
  ∧ (∃ doc,
        fs (world (generateHTML fooRoot emptyWorld)) !! pagePath fooRoot = Some (File doc)
        ∧ fs (world (generateHTML fooRoot staleWorld)) !! pagePath fooRoot = Some (File doc)
        ∧ doc = renderImportPage fooRoot)
  ∧ (∃ doc,
        fs (world (generateIndexHTML [fooRoot] publicWorld)) !! "public/index.html"
        = Some (File doc)
        ∧ fs (world (generateIndexHTML [fooRoot] staleWorld)) !! "public/index.html"
          = Some (File doc)
        ∧ doc = renderIndexPage [fooRoot]).
Proof.
  assert (H1 : value (generateHTML fooRoot emptyWorld) = None) by (vm_compute; reflexivity).
  assert (H2 : value (generateHTML fooRoot staleWorld) = None) by (vm_compute; reflexivity).
  assert (H3 : value (generateIndexHTML [fooRoot] publicWorld) = None)
    by (vm_compute; reflexivity).
  assert (H4 : value (generateIndexHTML [fooRoot] staleWorld) = None)
    by (vm_compute; reflexivity).
  pose proof (renderers_deterministic fooRoot fooRoot [fooRoot] [fooRoot]
                emptyWorld staleWorld publicWorld staleWorld
                eq_refl eq_refl H1 H2 H3 H4) as [Hpage Hindex].
  exact (conj H1 (conj H2 (conj H3 (conj H4 (conj Hpage Hindex))))).
Defined.

(** C9, the claim refuted: when [public] is a regular file the import
    page of [foo] fails, its record is in the package list all the same,
    and the index page fails for the same reason: the run ends with no
    index page, so the record appears on none. *)
Lemma failed_page_without_index :
  let env := tokenEnv (fooClient [goRepo "foo"]) in
  let client := Repositories env in
  let run := main env blockedWorld in
  resolve client (goRepo "foo") = Some ("pkg.blksails.net/foo", fooListing)
  ∧ value (generateHTML fooRoot blockedWorld)
    = Some "failed to create directory: mkdir public: not a directory"
  ∧ value (processRepos client [] [goRepo "foo"] blockedWorld) = Returned [fooRoot]
  ∧ value run = 0%nat
  ∧ fs (world run) !! "public/index.html" = None
  ∧ ¬ (∃ doc, fs (world run) !! "public/index.html" = Some (File doc)
              ∧ contains doc "pkg.blksails.net/foo" = true).
Proof.
  intros env client run.
  assert (Hnone : fs (world run) !! "public/index.html" = None) by (vm_compute; reflexivity).
  split; [vm_compute; reflexivity|].
  split; [vm_compute; reflexivity|].
  split; [vm_compute; reflexivity|].
  split; [vm_compute; reflexivity|].
  split; [exact Hnone|].
  intros (doc & Hdoc & _). rewrite Hnone in Hdoc. discriminate.
Qed.

Lemma failed_page_keeps_record_witness :
  let env := tokenEnv (fooClient [goRepo "foo"]) in
  let client := Repositories env in
  let root := rootRecord "pkg.blksails.net/foo" (goRepo "foo") in
  let e := "failed to create directory: mkdir public/foo: input/output error" in
  let reached := processRepos client [] [] faultyWorld in
  let final := processRepos client [] ([] ++ goRepo "foo" :: []) faultyWorld in
  let packages := registry client ([] ++ goRepo "foo" :: []) in
  Getenv env "GITHUB_TOKEN" ≠ ""
  ∧ ListByOrg client orgName = Ok ([] ++ goRepo "foo" :: [])
  ∧ noNilManifest client ([] ++ goRepo "foo" :: [])
  ∧ resolve client (goRepo "foo") = Some ("pkg.blksails.net/foo", fooListing)
  ∧ value (generateHTML root (world reached)) = Some e
  ∧ value (generateIndexHTML packages (world final)) = None
  ∧ root ∈ packages
  ∧ ("Error generating HTML for " +:+ "pkg.blksails.net/foo" +:+ ": " +:+ e)
    ∈ logged (main env faultyWorld)
  ∧ value (main env faultyWorld) = 0%nat
  ∧ fs (world (main env faultyWorld)) !! "public/foo/index.html" = None
  ∧ fs (world (main env faultyWorld)) !! "public/index.html"
    = Some (File (renderIndexPage packages))
  ∧ contains (renderIndexPage packages)
      ("<h3><a href=" +:+ dq +:+ "https://github.com/blksails/foo" +:+ dq
       +:+ ">pkg.blksails.net/foo</a></h3>") = true
  ∧ contains (renderIndexPage packages)
      "<p><code>go get pkg.blksails.net/foo</code></p>" = true.
Proof.
  intros env client root e reached final packages.
  assert (Htoken : Getenv env "GITHUB_TOKEN" ≠ "") by (vm_compute; discriminate).
  assert (Hlist : ListByOrg client orgName = Ok ([] ++ goRepo "foo" :: [])) by reflexivity.
  assert (Hrepos : noNilManifest client ([] ++ goRepo "foo" :: [])).
  { constructor; [vm_compute; reflexivity | constructor]. }
  assert (Hres : resolve client (goRepo "foo") = Some ("pkg.blksails.net/foo", fooListing))
    by (vm_compute; reflexivity).
  assert (Hfail : value (generateHTML root (world reached)) = Some e)
    by (vm_compute; reflexivity).
  assert (Hindex : value (generateIndexHTML packages (world final)) = None)
    by (vm_compute; reflexivity).
  pose proof (failed_page_keeps_record env [] [] (goRepo "foo") "pkg.blksails.net/foo"
                fooListing faultyWorld e Htoken Hlist Hrepos Hres Hfail Hindex)
    as (_ & _ & _ & Hroot & Hlog & Hstatus & Hwritten & Hlink & Hcommand).
  assert (Hpage : fs (world (main env faultyWorld)) !! "public/foo/index.html" = None)
    by (vm_compute; reflexivity).
  exact (conj Htoken (conj Hlist (conj Hrepos (conj Hres (conj Hfail (conj Hindex
           (conj Hroot (conj Hlog (conj Hstatus (conj Hpage (conj Hwritten
             (conj Hlink Hcommand)))))))))))).
Defined.

Lemma import_page_ignores_description_witness :
  let described :=
    mkPackageInfo "pkg.blksails.net/foo" "https://github.com/blksails/foo" "A package" in
  ImportPath fooRoot = ImportPath described
  ∧ RepoURL fooRoot = RepoURL described
  ∧ Description fooRoot ≠ Description described
  ∧ renderImportPage fooRoot = renderImportPage described
  ∧ generateHTML fooRoot staleWorld = generateHTML described staleWorld
  ∧ contains (indexItem fooRoot) "<p>A package</p>" = false
  ∧ contains (indexItem described) "<p>A package</p>" = true.
Proof.
  intros described.
  pose proof (import_page_ignores_description fooRoot described staleWorld eq_refl eq_refl)
    as (Hdoc & Hrun & _).
  assert (Hdiffer : Description fooRoot ≠ Description described) by discriminate.
  assert (Hplain : contains (indexItem fooRoot) "<p>A package</p>" = false)
    by (vm_compute; reflexivity).
  assert (Hshown : contains (indexItem described) "<p>A package</p>" = true)
    by (vm_compute; reflexivity).
  exact (conj eq_refl (conj eq_refl (conj Hdiffer (conj Hdoc (conj Hrun
           (conj Hplain Hshown)))))).
Defined.


(** ** The further properties, at the scenarios *)

Lemma import_page_location_witness :
  isPlainPath (TrimPrefix (ImportPath fooRoot) (baseDomain +:+ "/")) = true
  ∧ value (generateHTML fooRoot emptyWorld) = None
  ∧ fs (world (generateHTML fooRoot emptyWorld)) !! "public/foo/index.html"
    = Some (File (renderImportPage fooRoot)).
Proof.
  assert (Hplain : isPlainPath (TrimPrefix (ImportPath fooRoot) (baseDomain +:+ "/")) = true)
    by (vm_compute; reflexivity).
  assert (Hok : value (generateHTML fooRoot emptyWorld) = None) by (vm_compute; reflexivity).
  pose proof (import_page_location fooRoot emptyWorld Hplain Hok) as (Hpage & _ & _).
  exact (conj Hplain (conj Hok Hpage)).
Defined.

Lemma import_page_outside_public_witness :
  ImportPath escapedRoot = baseDomain +:+ "/../" +:+ "escaped"
  ∧ isPlainPath "escaped" = true
  ∧ hd "" (Split "escaped" slash) ≠ "public"
  ∧ value (generateHTML escapedRoot emptyWorld) = None
  ∧ HasPrefix (ImportPath escapedRoot) basePackage = true
  ∧ fs (world (generateHTML escapedRoot emptyWorld)) !! "escaped/index.html"
    = Some (File (renderImportPage escapedRoot))
  ∧ fs (world (generateHTML escapedRoot emptyWorld)) !! "public" = fs emptyWorld !! "public".
Proof.
  assert (Hpath : ImportPath escapedRoot = baseDomain +:+ "/../" +:+ "escaped") by reflexivity.
  assert (Hplain : isPlainPath "escaped" = true) by (vm_compute; reflexivity).
  assert (Hfirst : hd "" (Split "escaped" slash) ≠ "public") by (vm_compute; discriminate).
  assert (Hok : value (generateHTML escapedRoot emptyWorld) = None)
    by (vm_compute; reflexivity).
  pose proof (import_page_outside_public escapedRoot "escaped" emptyWorld
                Hpath Hplain Hfirst Hok) as (Hprefix & Hpage & _ & Hpublic).
  exact (conj Hpath (conj Hplain (conj Hfirst (conj Hok (conj Hprefix (conj Hpage
           (Hpublic "public" eq_refl))))))).
Defined.

Lemma subdirectory_import_path_witness :
  let util := entry "file" "util.go" "sub/util.go" in
  isPlainPath "pkg.blksails.net/foo" = true
  ∧ isPlainPath "sub" = true
  ∧ containsByte slash "util.go" = false
  ∧ GetType util = "file"
  ∧ HasSuffix (GetContentName util) ".go" = true
  ∧ GetPath util = "sub" +:+ "/" +:+ "util.go"
  ∧ expand "pkg.blksails.net/foo" (goRepo "foo") [util]
    = [ mkPackageInfo "pkg.blksails.net/foo"
          (GetHTMLURL (goRepo "foo")) (GetDescription (goRepo "foo"));
        mkPackageInfo ("pkg.blksails.net/foo" +:+ "/" +:+ "sub")
          (GetHTMLURL (goRepo "foo")) (GetDescription (goRepo "foo")) ].
Proof.
  intros util.
  assert (Hid : isPlainPath "pkg.blksails.net/foo" = true) by (vm_compute; reflexivity).
  assert (Hdir : isPlainPath "sub" = true) by (vm_compute; reflexivity).
  assert (Hfile : containsByte slash "util.go" = false) by (vm_compute; reflexivity).
  assert (Htype : GetType util = "file") by reflexivity.
  assert (Hgo : HasSuffix (GetContentName util) ".go" = true) by (vm_compute; reflexivity).
  assert (Hpath : GetPath util = "sub" +:+ "/" +:+ "util.go") by reflexivity.
  pose proof (subdirectory_import_path "pkg.blksails.net/foo" "sub" "util.go" (goRepo "foo")
                util Hid Hdir Hfile Htype Hgo Hpath) as (_ & _ & Hexpand).
  exact (conj Hid (conj Hdir (conj Hfile (conj Htype (conj Hgo (conj Hpath Hexpand)))))).
Defined.

Lemma generateHTML_again_witness :
  faults emptyWorld = []
  ∧ value (generateHTML fooRoot (world (generateHTML fooRoot emptyWorld)))
    = value (generateHTML fooRoot emptyWorld)
  ∧ world (generateHTML fooRoot (world (generateHTML fooRoot emptyWorld)))
    = world (generateHTML fooRoot emptyWorld)
  ∧ world (emitPages [fooRoot; fooRoot] emptyWorld) = world (emitPages [fooRoot] emptyWorld).
Proof.
  assert (Hfaults : faults emptyWorld = []) by reflexivity.
  exact (conj Hfaults (generateHTML_again fooRoot emptyWorld Hfaults)).
Defined.

Lemma index_page_needs_public_witness :
  let env := tokenEnv (noListingClient [goRepo "foo"]) in
  let client := Repositories env in
  Getenv env "GITHUB_TOKEN" ≠ ""
  ∧ ListByOrg client orgName = Ok [goRepo "foo"]
  ∧ Forall (skipped client) [goRepo "foo"]
  ∧ fs emptyWorld !! "public" ≠ Some Directory
  ∧ value (main env emptyWorld) = 0%nat
  ∧ fs (world (main env emptyWorld)) = fs emptyWorld.
Proof.
  intros env client.
  assert (Htoken : Getenv env "GITHUB_TOKEN" ≠ "") by (vm_compute; discriminate).
  assert (Hlist : ListByOrg client orgName = Ok [goRepo "foo"]) by reflexivity.
  assert (Hnone : Forall (skipped client) [goRepo "foo"]).
  { constructor; [split; vm_compute; reflexivity | constructor]. }
  assert (Hpublic : fs emptyWorld !! "public" ≠ Some Directory) by (vm_compute; discriminate).
  pose proof (index_page_needs_public env [goRepo "foo"] emptyWorld Htoken Hlist Hnone Hpublic)
    as (Hstatus & Hfs & _ & _).
  exact (conj Htoken (conj Hlist (conj Hnone (conj Hpublic (conj Hstatus Hfs))))).
Defined.

Lemma parseModuleName_declared_witness :
  let name := "pkg.blksails.net/foo" in
  let before := "// the manifest of foo" in
  let after := "go 1.20" in
  name ≠ ""
  ∧ TrimSpace name = name
  ∧ containsByte (byte 10) name = false
  ∧ Forall (λ line, HasPrefix (TrimSpace line) "module " = false) (Split before (byte 10))
  ∧ parseModuleName ("module " +:+ name) = name
  ∧ parseModuleName ("module " +:+ name +:+ nl +:+ after) = name
  ∧ parseModuleName (before +:+ nl +:+ "module " +:+ name +:+ nl +:+ after) = name.
Proof.
  intros name before after.
  assert (Hname : name ≠ "") by discriminate.
  assert (Htrim : TrimSpace name = name) by (vm_compute; reflexivity).
  assert (Hline : containsByte (byte 10) name = false) by (vm_compute; reflexivity).
  assert (Hbefore : Forall (λ line, HasPrefix (TrimSpace line) "module " = false)
                      (Split before (byte 10))).
  { change (Split before (byte 10)) with [before].
    constructor; [vm_compute; reflexivity | constructor]. }
  exact (conj Hname (conj Htrim (conj Hline (conj Hbefore
           (parseModuleName_declared name before after Hname Htrim Hline Hbefore))))).
Defined.

Lemma registry_records_valid_witness :
  let client := fooClient [goRepo "foo"] in
  value (processRepos client [] [goRepo "foo"] emptyWorld) = Returned [fooRoot]
  ∧ fooRoot ∈ [fooRoot]
  ∧ HasPrefix (ImportPath fooRoot) basePackage = true
  ∧ ImportPath fooRoot ≠ ""
  ∧ TrimSpace (ImportPath fooRoot) = ImportPath fooRoot
  ∧ containsByte (byte 10) (ImportPath fooRoot) = false
  ∧ (∃ repo,
        repo ∈ [goRepo "foo"] ∧ GetLanguage repo = "Go"
        ∧ RepoURL fooRoot = GetHTMLURL repo ∧ Description fooRoot = GetDescription repo)
  ∧ (length [fooRoot] ≤ length [goRepo "foo"])%nat.
Proof.
  intros client.
  assert (Hfinal : value (processRepos client [] [goRepo "foo"] emptyWorld)
                   = Returned [fooRoot]) by (vm_compute; reflexivity).
  assert (Hin : fooRoot ∈ [fooRoot]) by apply list_elem_of_here.
  exact (conj Hfinal (conj Hin
           (registry_records_valid client [goRepo "foo"] emptyWorld [fooRoot] fooRoot
              Hfinal Hin))).
Defined.

Lemma import_pages_by_path_witness :
  fs staleWorld !! pagePath fooRoot = Some (File "an older import page")
  ∧ fs (world (generateHTML forkRoot staleWorld)) !! pagePath fooRoot
    = Some (File (renderImportPage forkRoot))
  ∧ pagePath fooRoot ≠ pagePath fooSub
  ∧ fs (world (generateHTML fooSub staleWorld)) !! pagePath fooRoot
    = Some (File "an older import page").
Proof.
  assert (Hstale : fs staleWorld !! pagePath fooRoot = Some (File "an older import page"))
    by (vm_compute; reflexivity).
  assert (Hok : value (generateHTML forkRoot staleWorld) = None) by (vm_compute; reflexivity).
  assert (Hroot : isPlainPath (TrimPrefix (ImportPath fooRoot) (baseDomain +:+ "/")) = true)
    by (vm_compute; reflexivity).
  assert (Hsub : isPlainPath (TrimPrefix (ImportPath fooSub) (baseDomain +:+ "/")) = true)
    by (vm_compute; reflexivity).
  assert (Hdiffer : TrimPrefix (ImportPath fooRoot) (baseDomain +:+ "/")
                    ≠ TrimPrefix (ImportPath fooSub) (baseDomain +:+ "/"))
    by (vm_compute; discriminate).
  pose proof (import_pages_by_path fooRoot forkRoot staleWorld "an older import page" Hstale)
    as [Hreplaced _].
  pose proof (import_pages_by_path fooRoot fooSub staleWorld "an older import page" Hstale)
    as [_ Hkept].
  exact (conj Hstale (conj (Hreplaced eq_refl Hok) (Hkept Hroot Hsub Hdiffer))).
Defined.

Lemma subdirectory_page_location_witness :
  let pkg :=
    mkPackageInfo (Join [baseDomain +:+ "/" +:+ "foo"; "sub"])
      "https://github.com/blksails/foo" "" in
  isPlainPath "foo" = true
  ∧ isPlainPath "sub" = true
  ∧ value (generateHTML pkg emptyWorld) = None
  ∧ ImportPath pkg = baseDomain +:+ "/" +:+ "foo" +:+ "/" +:+ "sub"
  ∧ fs (world (generateHTML pkg emptyWorld))
      !! ("public/" +:+ "foo" +:+ "/" +:+ "sub" +:+ "/index.html")
    = Some (File (renderImportPage pkg)).
Proof.
  intros pkg.
  assert (Hrel : isPlainPath "foo" = true) by (vm_compute; reflexivity).
  assert (Hdir : isPlainPath "sub" = true) by (vm_compute; reflexivity).
  assert (Hok : value (generateHTML pkg emptyWorld) = None) by (vm_compute; reflexivity).
  exact (conj Hrel (conj Hdir (conj Hok
           (subdirectory_page_location "foo" "sub" "https://github.com/blksails/foo" ""
              emptyWorld Hrel Hdir Hok)))).
Defined.

Lemma earlier_pages_kept_witness :
  let client := pkgClient [goRepo "log"] in
  let repo := goRepo "log" in
  let text := "module pkg.blksails.net/pkg/log" in
  GetLanguage repo = "Go"
  ∧ GetContents client orgName (GetName repo) "go.mod" = Ok (Some (manifest text), [])
  ∧ GetContent (manifest text) = Ok text
  ∧ HasPrefix (parseModuleName text) Legacy.basePackage = true
  ∧ HasPrefix (parseModuleName text) basePackage = true
  ∧ Legacy.processRepo client repo emptyWorld
    = (emitPage (rootRecord (parseModuleName text) repo) ;; mret (Returned ())) emptyWorld
  ∧ resolve client repo = Some (parseModuleName text, fooListing).
Proof.
  intros client repo text.
  assert (Hgo : GetLanguage repo = "Go") by reflexivity.
  assert (Hmod : GetContents client orgName (GetName repo) "go.mod"
                 = Ok (Some (manifest text), [])) by reflexivity.
  assert (Htext : GetContent (manifest text) = Ok text) by reflexivity.
  assert (Hprefix : HasPrefix (parseModuleName text) Legacy.basePackage = true)
    by (vm_compute; reflexivity).
  pose proof (earlier_pages_kept client repo (manifest text) [] text emptyWorld
                Hgo Hmod Htext Hprefix) as (Hcurrent & Hpage & Hlisted).
  assert (Hroot : GetContents client orgName (GetName repo) "" = Ok (None, fooListing))
    by reflexivity.
  destruct (Hlisted None fooListing Hroot) as [Hres _].
  exact (conj Hgo (conj Hmod (conj Htext (conj Hprefix (conj Hcurrent (conj Hpage Hres)))))).
Defined.

(** ** The progress log, at the scenario of [foo] *)

Example decimal_counts : Verbose.decimal 0 = "0" ∧ Verbose.decimal 12 = "12".
Proof. split; vm_compute; reflexivity. Qed.

Example progress_log_of_foo :
  logged (Verbose.main (tokenEnv (fooClient [goRepo "foo"])) emptyWorld)
  = [ "GITHUB_TOKEN: ghp_token";
      "Fetching repositories for organization: blksails";
      "Found 1 repositories";
      "Processing repository: foo";
      "  Found Go repository: foo";
      "  Checking go.mod for foo";
      "  Module name: pkg.blksails.net/foo";
      "  Generating HTML for main module: pkg.blksails.net/foo";
      "  " +:+ Verbose.checkMark +:+ " Generated HTML for pkg.blksails.net/foo";
      "  " +:+ Verbose.checkMark +:+ " Generated HTML for subpackage: pkg.blksails.net/foo/sub";
      "  Generated 1 subpackage(s) for foo";
      nl +:+ "Generating index HTML with 1 package(s)";
      Verbose.checkMark +:+ " Successfully generated index HTML";
      nl +:+ "=== Generation Complete ===";
      "Total packages processed: 1";
      "Index page: public/index.html" ].
Proof. vm_compute; reflexivity. Qed.

(** Two Go files in one directory count as two subpackages. *)
Example progress_log_counts_two_files :
  value (Verbose.subPackages "pkg.blksails.net/foo" (goRepo "foo")
           [entry "file" "x.go" "a/x.go"; entry "file" "y.go" "a/y.go"] 0 emptyWorld)
  = 2%nat.
Proof. vm_compute; reflexivity. Qed.
